(** * react-chat: tool routing, CSV / YouTube tools and the function-calling loop

    A shallow embedding of

      - [src/services/csvTools.js]      (parser, statistics, engagement, slim
                                         CSV, executeTool)
      - [src/services/youtubeTools.js]  (parseDuration, executeYoutubeTool)
      - [src/services/openai.js]        (the bounded tool-calling loops and
                                         their user message, the reader of
                                         streamChat)
      - [src/components/Chat.js]        (the routing flags and the prompt of
                                         handleSend, parseCSV, the session
                                         handlers)

    together with the part of the JavaScript runtime those files rely on:
    strings, regular expressions, IEEE-754 numbers and their conversions,
    objects with ordered own keys, and arrays that live in a store so that
    in-place operations such as [Array.prototype.sort] are visible.

    Conventions and limits of the model.

      - A string is a [string] whose characters are the code units
        U+0000..U+00FF; white space, case mapping and [\w] are those of
        ECMAScript on that range.
      - A number is a binary64 [float]; [+], [-], [*], [/] and [Math.sqrt]
        are the kernel's operations; [x ** 2] is [x * x].  Decimal text is
        read and written exactly ([parseFloat], [toFixed], Number::toString)
        and rounded to nearest-even.
      - The fields of a row, of a video and of a tool's arguments hold
        JSON primitives.  [undefined] is [VUndef].  A method called on a
        value that does not have it throws: the outcome [Throw].
      - [Array.prototype.sort] is the stable insertion sort; a comparator
        that is not a consistent order is thereby given one definite result.
      - Console output is left out. *)

From Stdlib Require Import List Bool Arith ZArith Lia Ascii String.
From Stdlib Require Import PrimFloat SpecFloat FloatOps.
From Stdlib Require Import Permutation.
Import ListNotations.

Set Implicit Arguments.
Local Open Scope string_scope.
Local Open Scope list_scope.
Local Open Scope nat_scope.

(* ================================================================== *)
(** * Strings *)
(* ================================================================== *)

Module JsString.

Definition code (c : ascii) : nat := nat_of_ascii c.

Definition between (lo hi n : nat) : bool := (lo <=? n) && (n <=? hi).

(** WhiteSpace and LineTerminator code units below U+0100: TAB, LF, VT, FF,
    CR, SP and NBSP.  Used by [trim] and by the class [\s]. *)
Definition isWhiteSpace (c : ascii) : bool :=
  let n := code c in between 9 13 n || (n =? 32) || (n =? 160).

Definition isDigit (c : ascii) : bool := between 48 57 (code c).

(** The class [\w]: [A-Za-z0-9_]. *)
Definition isWordChar (c : ascii) : bool :=
  let n := code c in
  between 48 57 n || between 65 90 n || between 97 122 n || (n =? 95).

(** Line terminators, which [.] does not match. *)
Definition isLineTerminator (c : ascii) : bool :=
  let n := code c in (n =? 10) || (n =? 13).

(** [String.prototype.toLowerCase] on one code unit. *)
Definition toLower (c : ascii) : ascii :=
  let n := code c in
  if between 65 90 n || (between 192 222 n && negb (n =? 215))
  then ascii_of_nat (n + 32) else c.

(** Canonicalize of the regular-expression semantics under the [i] flag
    (no [u] flag): the upper-case mapping when it is a single code unit
    of the same range. *)
Definition canonicalize (c : ascii) : ascii :=
  let n := code c in
  if between 97 122 n || (between 224 254 n && negb (n =? 247))
  then ascii_of_nat (n - 32) else c.

Fixpoint map (f : ascii -> ascii) (s : string) : string :=
  match s with
  | EmptyString => EmptyString
  | String c s' => String (f c) (map f s')
  end.

Definition toLowerCase (s : string) : string := map toLower s.

Definition isEmpty (s : string) : bool :=
  match s with EmptyString => true | _ => false end.

Fixpoint trimStart (s : string) : string :=
  match s with
  | EmptyString => EmptyString
  | String c s' => if isWhiteSpace c then trimStart s' else s
  end.

Fixpoint trimEnd (s : string) : string :=
  match s with
  | EmptyString => EmptyString
  | String c s' =>
      let t := trimEnd s' in
      if isWhiteSpace c && isEmpty t then EmptyString else String c t
  end.

Definition trim (s : string) : string := trimEnd (trimStart s).

(** A blank line: nothing but white space. *)
Fixpoint allWhite (s : string) : bool :=
  match s with
  | EmptyString => true
  | String c s' => isWhiteSpace c && allWhite s'
  end.

(** [s.split(sep)] for a one-character separator. *)
Fixpoint split (sep : ascii) (s : string) : list string :=
  match s with
  | EmptyString => [EmptyString]
  | String c s' =>
      if Ascii.eqb c sep then EmptyString :: split sep s'
      else match split sep s' with
           | [] => [String c EmptyString]
           | h :: t => String c h :: t
           end
  end.

(** [s.startsWith(pre)]. *)
Fixpoint startsWith (pre s : string) : bool :=
  match pre, s with
  | EmptyString, _ => true
  | String a pre', String b s' => Ascii.eqb a b && startsWith pre' s'
  | String _ _, EmptyString => false
  end.

(** [s.includes(sub)]. *)
Fixpoint includes (sub s : string) : bool :=
  startsWith sub s ||
  match s with
  | EmptyString => false
  | String _ s' => includes sub s'
  end.

(** [s.slice(0, n)] for a natural number [n]. *)
Definition take (n : nat) (s : string) : string := String.substring 0 n s.

(** [xs.join(sep)]. *)
Fixpoint join (sep : string) (xs : list string) : string :=
  match xs with
  | [] => EmptyString
  | [x] => x
  | x :: rest => (x ++ sep ++ join sep rest)%string
  end.

Definition LF : ascii := ascii_of_nat 10.
Definition quote : ascii := ascii_of_nat 34.
Definition dq : string := String quote EmptyString.

End JsString.

(* ================================================================== *)
(** * Regular expressions *)
(* ================================================================== *)

(** The fragment of ECMAScript regular expressions the sources use, with the
    backtracking order of the language: alternatives left to right, greedy
    quantifiers.  A matcher returns every way to match, best first. *)
Module Regex.
Import JsString.

Inductive regex : Type :=
| Eps
| Chr (c : ascii)                    (* a literal character *)
| Dot                                (* [.] *)
| Cls (p : ascii -> bool)            (* a class such as [\d] *)
| Seq (r1 r2 : regex)
| Alt (r1 r2 : regex)                (* [r1|r2] *)
| Opt (r : regex)                    (* [r?] *)
| Plus (p : ascii -> bool)           (* [c+] for a class [c] *)
| Bol                                (* [^] *)
| Eol                                (* [$] *)
| WordB                              (* [\b] *)
| Grp (n : nat) (r : regex).         (* capture group number [n] *)

Definition captures := list (nat * string).

(** A position in the subject: the character before it (if any), the rest
    of the subject, and the groups captured so far. *)
Definition pos : Type := (option ascii * string * captures)%type.

Definition isWord (o : option ascii) : bool :=
  match o with Some c => isWordChar c | None => false end.

Definition next (s : string) : option ascii :=
  match s with String c _ => Some c | EmptyString => None end.

Fixpoint plus_from (p : ascii -> bool) (s : string) (caps : captures)
  : list pos :=
  match s with
  | String c s' =>
      if p c then (plus_from p s' caps ++ [(Some c, s', caps)])%list else []
  | EmptyString => []
  end.

Definition consumed (before after : string) : string :=
  String.substring 0 (String.length before - String.length after) before.

Fixpoint rmatch (ic : bool) (r : regex) (st : pos) : list pos :=
  let '(prev, s, caps) := st in
  match r with
  | Eps => [st]
  | Chr c =>
      match s with
      | String d s' =>
          if (if ic then Ascii.eqb (canonicalize c) (canonicalize d)
              else Ascii.eqb c d)
          then [(Some d, s', caps)] else []
      | EmptyString => []
      end
  | Dot =>
      match s with
      | String d s' => if isLineTerminator d then [] else [(Some d, s', caps)]
      | EmptyString => []
      end
  | Cls p =>
      match s with
      | String d s' => if p d then [(Some d, s', caps)] else []
      | EmptyString => []
      end
  | Seq r1 r2 => flat_map (rmatch ic r2) (rmatch ic r1 st)
  | Alt r1 r2 => (rmatch ic r1 st ++ rmatch ic r2 st)%list
  | Opt r1 => (rmatch ic r1 st ++ [st])%list
  | Plus p => plus_from p s caps
  | Bol => match prev with None => [st] | Some _ => [] end
  | Eol => match s with EmptyString => [st] | _ => [] end
  | WordB => if xorb (isWord prev) (isWord (next s)) then [st] else []
  | Grp n r1 =>
      List.map (fun '(p', s', caps') => (p', s', (n, consumed s s') :: caps'))
               (rmatch ic r1 st)
  end.

(** The result of a successful match: the matched text and the groups. *)
Definition matched : Type := (string * captures)%type.

Definition match_here (ic : bool) (r : regex) (prev : option ascii)
           (s : string) : option matched :=
  match rmatch ic r (prev, s, []) with
  | [] => None
  | (_, s', caps) :: _ => Some (consumed s s', caps)
  end.

Fixpoint search (ic : bool) (r : regex) (prev : option ascii) (s : string)
  : option matched :=
  match match_here ic r prev s with
  | Some m => Some m
  | None =>
      match s with
      | EmptyString => None
      | String c s' => search ic r (Some c) s'
      end
  end.

(** [s.match(re)] / [re.exec(s)] for a regular expression without [g]. *)
Definition exec (ic : bool) (r : regex) (s : string) : option matched :=
  search ic r None s.

(** [re.test(s)]. *)
Definition test (ic : bool) (r : regex) (s : string) : bool :=
  match exec ic r s with Some _ => true | None => false end.

(** [match[n]]: [None] is [undefined], a group that did not take part. *)
Fixpoint group (n : nat) (caps : captures) : option string :=
  match caps with
  | [] => None
  | (k, v) :: rest => if Nat.eqb k n then Some v else group n rest
  end.

(** [s.replace(re, '')] for a regular expression with the [g] flag:
    every match, found left to right, is deleted.  [skip] counts the
    characters of the current match that are still to be dropped. *)
Fixpoint delete_from (ic : bool) (r : regex) (prev : option ascii)
         (s : string) (skip : nat) : string :=
  match s with
  | EmptyString => EmptyString
  | String c s' =>
      match skip with
      | S k => delete_from ic r (Some c) s' k
      | O =>
          match match_here ic r prev s with
          | Some (String _ m, _) =>
              delete_from ic r (Some c) s' (String.length m)
          | _ => String c (delete_from ic r (Some c) s' 0)
          end
      end
  end.

Definition delete_all (ic : bool) (r : regex) (s : string) : string :=
  delete_from ic r None s 0.

(** A literal word, and an alternation of several branches. *)
Fixpoint lit (s : string) : regex :=
  match s with
  | EmptyString => Eps
  | String c EmptyString => Chr c
  | String c s' => Seq (Chr c) (lit s')
  end.

Fixpoint alts (rs : list regex) : regex :=
  match rs with
  | [] => Eps
  | [r] => r
  | r :: rest => Alt r (alts rest)
  end.

Fixpoint seqs (rs : list regex) : regex :=
  match rs with
  | [] => Eps
  | [r] => r
  | r :: rest => Seq r (seqs rest)
  end.

(** [\d], [\s] and the class [[\s_-]]. *)
Definition digit : ascii -> bool := isDigit.
Definition space : ascii -> bool := isWhiteSpace.

End Regex.

(* ================================================================== *)
(** * Numbers *)
(* ================================================================== *)

(** JavaScript numbers are binary64 floats; arithmetic is the kernel's
    [PrimFloat].  The conversions between numbers and strings are written
    over exact integers and rounded once, to nearest-even, by [ofRatio]. *)
Module JsNumber.
Import JsString.
Local Open Scope Z_scope.

Definition NaN : float := PrimFloat.nan.
Definition Infinity : float := PrimFloat.infinity.
Definition zero : float := PrimFloat.zero.

Definition isNaN (x : float) : bool := PrimFloat.is_nan x.

Definition signed_zero (neg : bool) : float := SF2Prim (S754_zero neg).

(** The double nearest to [p / q], with sign [neg]. *)
Definition ofRatio (neg : bool) (p q : Z) : float :=
  match p, q with
  | Zpos p', Zpos q' =>
      SF2Prim (SFdiv prec emax (S754_finite neg p' 0) (S754_finite false q' 0))
  | _, _ => signed_zero neg
  end.

(** The double nearest to [n * 10^e10]. *)
Definition ofDecimal (neg : bool) (n e10 : Z) : float :=
  if 0 <=? e10 then ofRatio neg (n * 10 ^ e10) 1
  else ofRatio neg n (10 ^ (- e10)).

Definition ofZ (z : Z) : float := ofRatio (z <? 0) (Z.abs z) 1.
Definition ofNat (n : nat) : float := ofZ (Z.of_nat n).

(** ** Reading digits *)

Fixpoint span (p : ascii -> bool) (s : string) : string * string :=
  match s with
  | String c s' =>
      if p c then let '(a, b) := span p s' in (String c a, b)
      else (EmptyString, s)
  | EmptyString => (EmptyString, EmptyString)
  end.

Definition digitValue (c : ascii) : Z :=
  let n := Z.of_nat (code c) in
  if (48 <=? n) && (n <=? 57) then n - 48
  else if (97 <=? n) && (n <=? 122) then n - 87
  else if (65 <=? n) && (n <=? 90) then n - 55
  else 36.

Fixpoint valueIn (radix : Z) (s : string) (acc : Z) : Z :=
  match s with
  | String c s' => valueIn radix s' (acc * radix + digitValue c)
  | EmptyString => acc
  end.

Definition lengthZ (s : string) : Z := Z.of_nat (String.length s).

Definition signOf (s : string) : bool * string :=
  match s with
  | String "+"%char r => (false, r)
  | String "-"%char r => (true, r)
  | _ => (false, s)
  end.

(** ExponentPart, when complete: its value and what follows it. *)
Definition scanExponent (s : string) : Z * string :=
  match s with
  | String c r =>
      if Ascii.eqb c "e" || Ascii.eqb c "E" then
        let '(neg, r1) := signOf r in
        let '(ds, r2) := span isDigit r1 in
        if isEmpty ds then (0, s)
        else ((if neg then - valueIn 10 ds 0 else valueIn 10 ds 0), r2)
      else (0, s)
  | EmptyString => (0, s)
  end.

(** The longest prefix of [s] that is a StrDecimalLiteral, as a number,
    and the rest of [s]. *)
Definition scanDecimal (s : string) : option (float * string) :=
  let '(neg, s1) := signOf s in
  if startsWith "Infinity" s1 then
    Some ((if neg then PrimFloat.neg_infinity else Infinity),
          String.substring 8 (String.length s1 - 8) s1)
  else
    let '(ip, s2) := span isDigit s1 in
    let '(fp, s3, ok) :=
      match s2 with
      | String "."%char r =>
          let '(f, r') := span isDigit r in
          if isEmpty ip && isEmpty f then (EmptyString, s2, false)
          else (f, r', true)
      | _ => (EmptyString, s2, negb (isEmpty ip))
      end in
    if ok then
      let '(e, s4) := scanExponent s3 in
      let n := valueIn 10 (ip ++ fp)%string 0 in
      Some (ofDecimal neg n (e - lengthZ fp), s4)
    else None.

(** [parseFloat(s)] for a string [s]. *)
Definition parseFloat (s : string) : float :=
  match scanDecimal (trimStart s) with
  | Some (x, _) => x
  | None => NaN
  end.

(** [parseInt(s, 10)] for a string [s]. *)
Definition parseInt10 (s : string) : float :=
  let '(neg, s1) := signOf (trimStart s) in
  let '(ds, _) := span isDigit s1 in
  if isEmpty ds then NaN else ofRatio neg (valueIn 10 ds 0) 1.

Definition isRadixDigit (radix : Z) (c : ascii) : bool :=
  digitValue c <? radix.

(** Hexadecimal, octal and binary integer literals of StringToNumber. *)
Definition scanRadix (s : string) : option float :=
  match s with
  | String "0"%char (String p ds) =>
      let radix :=
        if Ascii.eqb p "x" || Ascii.eqb p "X" then 16
        else if Ascii.eqb p "o" || Ascii.eqb p "O" then 8
        else if Ascii.eqb p "b" || Ascii.eqb p "B" then 2
        else 0 in
      let '(a, b) := span (isRadixDigit radix) ds in
      if negb (isEmpty a) && isEmpty b
      then Some (ofRatio false (valueIn radix a 0) 1) else None
  | _ => None
  end.

(** StringToNumber: [Number(s)], [+s] and the operand conversion of [-]. *)
Definition stringToNumber (s : string) : float :=
  let t := trim s in
  if isEmpty t then zero
  else match scanRadix t with
       | Some x => x
       | None =>
           match scanDecimal t with
           | Some (x, EmptyString) => x
           | _ => NaN
           end
       end.

(** ** Writing digits *)

Fixpoint digitsOfPos (fuel : nat) (n : Z) (acc : string) : string :=
  match fuel with
  | O => acc
  | S f =>
      let acc' := String (ascii_of_nat (48 + Z.to_nat (n mod 10))) acc in
      if n <? 10 then acc' else digitsOfPos f (n / 10) acc'
  end.

(** The decimal digits of a natural number ([0] gives ["0"]). *)
Definition decimal (n : Z) : string :=
  digitsOfPos (S (Z.to_nat (Z.log2 n))) n EmptyString.

Fixpoint zeros (n : nat) : string :=
  match n with O => EmptyString | S k => String "0"%char (zeros k) end.

Definition dropS (n : nat) (s : string) : string :=
  String.substring n (String.length s - n) s.

(** The exact value [num / den] of a positive finite double. *)
Definition exact (m : positive) (e : Z) : Z * Z :=
  if 0 <=? e then (Zpos m * 2 ^ e, 1) else (Zpos m, 2 ^ (- e)).

Definition geqPow10 (num den n : Z) : bool :=
  if 0 <=? n then den * 10 ^ n <=? num else den <=? num * 10 ^ (- n).

Fixpoint firstAbove (fuel : nat) (num den n : Z) : Z :=
  match fuel with
  | O => n
  | S f => if geqPow10 num den n then firstAbove f num den (n + 1) else n
  end.

(** The [n] with [10^(n-1) <= num/den < 10^n]. *)
Definition magnitude (num den : Z) : Z :=
  let l := Z.log2 num - Z.log2 den - 1 in
  let est := (l * (if 0 <=? l then 30102 else 30103)) / 100000 in
  firstAbove 8 num den est.

(** Number::toString, steps 5 onwards: the shortest digit string [s] with
    [k] digits such that [s * 10^(n-k)] reads back as [x]; ties go to the
    closest, then to the even one. *)
Fixpoint shortest (fuel : nat) (x : float) (num den n k : Z) : Z * Z :=
  let sc := k - n in
  let '(a, b) := if 0 <=? sc then (num * 10 ^ sc, den)
                 else (num, den * 10 ^ (- sc)) in
  let lo := a / b in
  let hi := lo + 1 in
  let r := a mod b in
  let reads s := PrimFloat.eqb (ofDecimal false s (n - k)) x in
  let pick s := if s =? 10 ^ k then (1, n + 1) else (s, n) in
  match fuel with
  | O => pick lo
  | S f =>
      match reads lo, reads hi with
      | true, true =>
          if 2 * r <? b then pick lo
          else if b <? 2 * r then pick hi
          else if Z.even lo then pick lo else pick hi
      | true, false => pick lo
      | false, true => pick hi
      | false, false => shortest f x num den n (k + 1)
      end
  end.

Definition exponentText (e : Z) : string :=
  let sign := if e <? 0 then "e-" else "e+" in
  (sign ++ decimal (Z.abs e))%string.

Definition formatDigits (ds : string) (n : Z) : string :=
  let k := lengthZ ds in
  if (k <=? n) && (n <=? 21) then (ds ++ zeros (Z.to_nat (n - k)))%string
  else if (0 <? n) && (n <=? 21) then
    (String.substring 0 (Z.to_nat n) ds ++ "." ++ dropS (Z.to_nat n) ds)%string
  else if (-6 <? n) && (n <=? 0) then
    ("0." ++ zeros (Z.to_nat (- n)) ++ ds)%string
  else if k =? 1 then (ds ++ exponentText (n - 1))%string
  else (String.substring 0 1 ds ++ "." ++ dropS 1 ds
        ++ exponentText (n - 1))%string.

(** Number::toString (radix 10). *)
Definition toString (x : float) : string :=
  match Prim2SF x with
  | S754_nan => "NaN"
  | S754_zero _ => "0"
  | S754_infinity neg => if neg then "-Infinity" else "Infinity"
  | S754_finite neg m e =>
      let '(num, den) := exact m e in
      let n := magnitude num den in
      let '(s, n') := shortest 17 (PrimFloat.abs x) num den n 1 in
      let sgn := if neg then "-" else "" in
      (sgn ++ formatDigits (decimal s) n')%string
  end.

(** The digits of [n] with a point before the last [f] of them. *)
Definition fixedDigits (f : nat) (n : Z) : string :=
  let m := decimal n in
  match f with
  | O => m
  | _ =>
      let k := String.length m in
      let m' := if (k <=? f)%nat then (zeros (S f - k) ++ m)%string else m in
      let k' := String.length m' in
      (String.substring 0 (k' - f) m' ++ "." ++ dropS (k' - f) m')%string
  end.

(** [x.toFixed(f)]: [n] is the integer nearest to [x * 10^f], the larger
    one on a tie. *)
Definition toFixed (f : nat) (x : float) : string :=
  match Prim2SF x with
  | S754_nan => "NaN"
  | S754_infinity neg => if neg then "-Infinity" else "Infinity"
  | S754_zero _ => fixedDigits f 0
  | S754_finite neg m e =>
      let sgn := if neg then "-" else "" in
      let p := 10 ^ Z.of_nat f in
      if 0 <=? e then
        let a := Zpos m * 2 ^ e in
        if 10 ^ 21 <=? a then (sgn ++ toString (PrimFloat.abs x))%string
        else (sgn ++ fixedDigits f (a * p))%string
      else
        let d := 2 ^ (- e) in
        (sgn ++ fixedDigits f ((2 * Zpos m * p + d) / (2 * d)))%string
  end.

(** ** Integers from numbers *)

(** ToIntegerOrInfinity, with the infinities clamped to [bound]. *)
Definition toInteger (bound : Z) (x : float) : Z :=
  match Prim2SF x with
  | S754_nan | S754_zero _ => 0
  | S754_infinity neg => if neg then - bound else bound
  | S754_finite neg m e =>
      let a := if 0 <=? e then Zpos m * 2 ^ e else Zpos m / 2 ^ (- e) in
      if neg then - a else a
  end.

(** ** Math.min and Math.max *)

Definition isNegZero (x : float) : bool :=
  match Prim2SF x with S754_zero true => true | _ => false end.

Definition min2 (a b : float) : float :=
  if isNaN a || isNaN b then NaN
  else if PrimFloat.ltb b a then b
  else if PrimFloat.ltb a b then a
  else if isNegZero b then b else a.

Definition max2 (a b : float) : float :=
  if isNaN a || isNaN b then NaN
  else if PrimFloat.ltb a b then b
  else if PrimFloat.ltb b a then a
  else if isNegZero a then b else a.

(** [Math.min(...xs)] and [Math.max(...xs)]. *)
Definition Math_min (xs : list float) : float :=
  fold_left min2 xs PrimFloat.infinity.
Definition Math_max (xs : list float) : float :=
  fold_left max2 xs PrimFloat.neg_infinity.

End JsNumber.

(* ================================================================== *)
(** * Values and objects *)
(* ================================================================== *)

Module JsValue.
Import JsString JsNumber.

(** The values a CSV cell, a field of a video record or a tool argument
    can hold: the JSON primitives, [undefined], and [VNative k], the method
    (or, for [__proto__], the object) that a plain object inherits from
    [Object.prototype] under the name [k]. *)
Inductive value : Type :=
| VUndef
| VNull
| VBool (b : bool)
| VNum (x : float)
| VStr (s : string)
| VNative (k : string).

(** ToBoolean. *)
Definition truthy (v : value) : bool :=
  match v with
  | VUndef | VNull => false
  | VBool b => b
  | VNum x => negb (isNaN x || PrimFloat.eqb x zero)
  | VStr s => negb (isEmpty s)
  | VNative _ => true
  end.

Definition nativeText (k : string) : string :=
  if String.eqb k "__proto__" then "[object Object]"
  else
    let name := if String.eqb k "constructor" then "Object" else k in
    ("function " ++ name ++ "() { [native code] }")%string.

(** ToString. *)
Definition toStr (v : value) : string :=
  match v with
  | VUndef => "undefined"
  | VNull => "null"
  | VBool b => if b then "true" else "false"
  | VNum x => JsNumber.toString x
  | VStr s => s
  | VNative k => nativeText k
  end.

(** ToNumber. *)
Definition toNum (v : value) : float :=
  match v with
  | VUndef => NaN
  | VNull => zero
  | VBool b => if b then PrimFloat.one else zero
  | VNum x => x
  | VStr s => stringToNumber s
  | VNative _ => NaN
  end.

(** [parseFloat(v)]: the argument is first converted to a string. *)
Definition parseFloatV (v : value) : float := parseFloat (toStr v).

(** [a || b] and [a ?? b]. *)
Definition or_ (a b : value) : value := if truthy a then a else b.
Definition nullish (v : value) : bool :=
  match v with VUndef | VNull => true | _ => false end.
Definition coalesce (a b : value) : value := if nullish a then b else a.


(** ** Plain objects *)

(** Own properties, in the order they were created. *)
Definition obj : Type := list (string * value).

Definition objectPrototype : list string :=
  [ "constructor"; "__defineGetter__"; "__defineSetter__"; "hasOwnProperty";
    "__lookupGetter__"; "__lookupSetter__"; "isPrototypeOf";
    "propertyIsEnumerable"; "toString"; "valueOf"; "__proto__";
    "toLocaleString" ].

Definition mem (k : string) (ks : list string) : bool :=
  existsb (String.eqb k) ks.

Fixpoint own (o : obj) (k : string) : option value :=
  match o with
  | [] => None
  | (k', v) :: rest => if String.eqb k' k then Some v else own rest k
  end.

(** [o[k]]: an own property, else what [Object.prototype] provides. *)
Definition get (o : obj) (k : string) : value :=
  match own o k with
  | Some v => v
  | None => if mem k objectPrototype then VNative k else VUndef
  end.

Fixpoint put (o : obj) (k : string) (v : value) : obj :=
  match o with
  | [] => [(k, v)]
  | (k', v') :: rest =>
      if String.eqb k' k then (k', v) :: rest else (k', v') :: put rest k v
  end.

(** [{ ...o, k: v }]: the property is created or overwritten in place. *)
Definition define (o : obj) (k : string) (v : value) : obj := put o k v.

(** [o[k] = v] on a plain object whose values are primitives: assigning a
    primitive to [__proto__] reaches the inherited setter and changes
    nothing. *)
Definition set (o : obj) (k : string) (v : value) : obj :=
  if String.eqb k "__proto__" && negb (mem k (List.map fst o)) then o
  else put o k v.

(** A canonical array index: the decimal form of an integer below
    [2^32 - 1], which own-key enumeration lists first, in numeric order. *)
Definition arrayIndex (k : string) : option Z :=
  let '(ds, rest) := span isDigit k in
  let n := valueIn 10 k 0 in
  if negb (isEmpty ds) && isEmpty rest && String.eqb (decimal n) k
     && (n <? 4294967295)%Z
  then Some n else None.

Fixpoint insertKey (n : Z) (k : string) (ks : list (Z * string))
  : list (Z * string) :=
  match ks with
  | [] => [(n, k)]
  | (m, k') :: rest =>
      if (n <? m)%Z then (n, k) :: ks else (m, k') :: insertKey n k rest
  end.

Definition indexKeys (ks : list string) : list string :=
  List.map snd
    (fold_left (fun acc k => match arrayIndex k with
                             | Some n => insertKey n k acc
                             | None => acc
                             end) ks []).

Definition nameKeys (ks : list string) : list string :=
  filter (fun k => match arrayIndex k with Some _ => false | None => true end)
         ks.

(** [Object.keys(o)]. *)
Definition keys (o : obj) : list string :=
  let ks := List.map fst o in indexKeys ks ++ nameKeys ks.

(** [Object.entries(o)]. *)
Definition entries (o : obj) : list (string * value) :=
  List.map (fun k => (k, get o k)) (keys o).

(** [Object.fromEntries(es)]. *)
Definition fromEntries (es : list (string * value)) : obj :=
  fold_left (fun o '(k, v) => define o k v) es [].

End JsValue.

(* ================================================================== *)
(** * The store *)
(* ================================================================== *)

(** Arrays of records (the rows of a dataset, the videos of a channel) and
    the records themselves are cells of a store, so that a function which
    sorts or writes in place is seen to do so.  A location is an index. *)
Module Store.
Import JsValue.

Definition loc : Type := nat.

Inductive cell : Type :=
| CArr (elems : list loc)       (* an array of references to objects *)
| CObj (o : obj).               (* a plain object *)

Definition store : Type := list cell.

Definition read (st : store) (l : loc) : option cell := nth_error st l.

Fixpoint write (st : store) (l : loc) (c : cell) : store :=
  match st, l with
  | [], _ => []
  | _ :: rest, O => c :: rest
  | c0 :: rest, S l' => c0 :: write rest l' c
  end.

(** The outcome of running code: a value, or a thrown exception. *)
Inductive outcome (A : Type) : Type :=
| Ok (a : A)
| Throw (e : string).
Arguments Ok {A} a.
Arguments Throw {A} e.

(** Code that reads and writes the store and may throw. *)
Definition M (A : Type) : Type := store -> outcome A * store.

Definition ret {A} (a : A) : M A := fun st => (Ok a, st).
Definition throw {A} (e : string) : M A := fun st => (Throw e, st).
Definition bind {A B} (m : M A) (f : A -> M B) : M B :=
  fun st => match m st with
            | (Ok a, st') => f a st'
            | (Throw e, st') => (Throw e, st')
            end.

(** [new Array] / an array literal: a fresh cell. *)
Definition alloc (c : cell) : M loc :=
  fun st => (Ok (List.length st), st ++ [c]).

Definition TypeError : string := "TypeError".

(** The elements of the array at [l]. *)
Definition elements (l : loc) : M (list loc) :=
  fun st => match read st l with
            | Some (CArr ls) => (Ok ls, st)
            | _ => (Throw TypeError, st)
            end.

(** The object at [l]. *)
Definition object (l : loc) : M obj :=
  fun st => match read st l with
            | Some (CObj o) => (Ok o, st)
            | _ => (Throw TypeError, st)
            end.

Definition store_elements (l : loc) (ls : list loc) : M unit :=
  fun st => (Ok tt, write st l (CArr ls)).

Fixpoint mapM {A B} (f : A -> M B) (xs : list A) : M (list B) :=
  match xs with
  | [] => ret []
  | x :: rest =>
      bind (f x) (fun y => bind (mapM f rest) (fun ys => ret (y :: ys)))
  end.

(** The objects an array refers to, in order. *)
Definition objects (l : loc) : M (list obj) :=
  bind (elements l) (mapM object).

(** The store holds, at [l], an array of references to the objects [os]. *)
Definition holds (st : store) (l : loc) (os : list obj) : Prop :=
  exists ls, read st l = Some (CArr ls)
             /\ Forall2 (fun l' o => read st l' = Some (CObj o)) ls os.

(** The store that holds the objects [os] and, after them, their array. *)
Definition storeOf (os : list obj) : store :=
  List.map CObj os ++ [CArr (seq 0 (List.length os))].
Definition arrayOf (os : list obj) : loc := List.length os.

(** [st'] is [st] followed by new cells: every cell of [st] is unchanged. *)
Definition extends (st st' : store) : Prop := exists fresh, st' = st ++ fresh.

(** Code that only ever adds cells to the store it runs in. *)
Definition frames {A} (m : M A) : Prop := forall st, extends st (snd (m st)).

End Store.

Declare Scope js_scope.
Delimit Scope js_scope with js.
Notation "x <- m ;; k" := (Store.bind m (fun x => k))
  (at level 61, m at next level, right associativity) : js_scope.
Notation "' p <- m ;; k" := (Store.bind m (fun p => k))
  (at level 61, p pattern, m at next level, right associativity) : js_scope.

(* ================================================================== *)
(** * Array.prototype.sort *)
(* ================================================================== *)

Module JsArray.
Import JsNumber.

Section Sort.
Variable A : Type.
(** The comparator's number: positive when the first argument goes
    after the second; [NaN] counts as zero. *)
Variable cmp : A -> A -> float.

Definition after (a b : A) : bool := PrimFloat.ltb zero (cmp a b).

Fixpoint insert (x : A) (sorted : list A) : list A :=
  match sorted with
  | [] => [x]
  | y :: rest => if after x y then y :: insert x rest else x :: sorted
  end.

(** The stable sort: elements the comparator does not order keep their
    relative positions. *)
Definition sort (xs : list A) : list A := fold_right insert [] xs.
End Sort.

(** [xs.slice(0, end)] for a number [end]: a negative [end] counts from
    the back. *)
Definition sliceTo {A} (end_ : float) (xs : list A) : list A :=
  let len := Z.of_nat (List.length xs) in
  let rel := toInteger (len + 1) end_ in
  let final := if (rel <? 0)%Z then Z.max (len + rel) 0 else Z.min rel len in
  firstn (Z.to_nat final) xs.

(** [xs.find(p)]. *)
Definition find {A} (p : A -> bool) (xs : list A) : option A := List.find p xs.

(** [!xs.length] *)
Definition isEmpty {A} (xs : list A) : bool :=
  match xs with [] => true | _ => false end.

End JsArray.

(* ================================================================== *)
(** * csvTools.js *)
(* ================================================================== *)

Module CsvTools.
Import JsString JsNumber JsValue Regex Store.
Local Open Scope js_scope.

(** ** parseLine *)

Definition push (current : string) (ch : ascii) : string :=
  (current ++ String ch EmptyString)%string.

Fixpoint parseLine_from (line current : string) (inQuotes : bool)
  : list string :=
  match line with
  | EmptyString => [trim current]
  | String ch rest =>
      if Ascii.eqb ch quote then parseLine_from rest current (negb inQuotes)
      else if Ascii.eqb ch "," && negb inQuotes
           then trim current :: parseLine_from rest EmptyString inQuotes
           else parseLine_from rest (push current ch) inQuotes
  end.

Definition parseLine (line : string) : list string :=
  parseLine_from line EmptyString false.

(** ** parseCsvToRows *)

Record dataset : Type := { headers : list string; rows : list obj }.

(** [/^"|"$/g] *)
Definition quoteEnds : regex := Alt (Seq Bol (Chr quote)) (Seq (Chr quote) Eol).

Definition unquote (s : string) : string := delete_all false quoteEnds s.

Definition nonBlank (l : string) : bool := negb (isEmpty (trim l)).

(** [vals[i] || ''] *)
Definition cell (vals : list string) (i : nat) : string :=
  match nth_error vals i with
  | Some v => v
  | None => EmptyString
  end.

(** The [headers.forEach] loop that fills [obj]. *)
Fixpoint fillRow (hs : list string) (i : nat) (vals : list string) (o : obj)
  : obj :=
  match hs with
  | [] => o
  | h :: rest =>
      fillRow rest (S i) vals (set o h (VStr (unquote (cell vals i))))
  end.

Definition parseCsvToRows (text : string) : dataset :=
  let lines := filter nonBlank (split LF text) in
  if List.length lines <? 2 then {| headers := []; rows := [] |}
  else
    let hs := List.map unquote (parseLine (hd EmptyString lines)) in
    {| headers := hs;
       rows := List.map (fun line => fillRow hs 0 (parseLine line) [])
                        (tl lines) |}.

(** ** resolveCol *)

(** [/[\s_-]+/g] *)
Definition separators : regex :=
  Plus (fun c => isWhiteSpace c || Ascii.eqb c "_" || Ascii.eqb c "-").

Definition norm (s : string) : string :=
  delete_all false separators (toLowerCase s).

(** [keys.includes(name)]: only a string can equal a key. *)
Definition includesValue (ks : list string) (name : value) : bool :=
  match name with VStr s => mem s ks | _ => false end.

(** [resolveCol(rows, name)].  A [name] that is neither falsy nor a string
    has no [toLowerCase], so [norm(name)] throws. *)
Definition resolveCol (rs : list obj) (name : value) : outcome value :=
  match rs with
  | [] => Ok name
  | r0 :: _ =>
      if negb (truthy name) then Ok name
      else
        let ks := keys r0 in
        if includesValue ks name then Ok name
        else match name with
             | VStr s =>
                 let target := norm s in
                 Ok (or_ (match JsArray.find
                                  (fun k => String.eqb (norm k) target) ks with
                          | Some k => VStr k
                          | None => VUndef
                          end) name)
             | _ => Throw TypeError
             end
  end.

(** ** Math helpers *)

Definition numericValues (rs : list obj) (col : value) : list float :=
  filter (fun v => negb (isNaN v))
         (List.map (fun r => parseFloatV (get r (toStr col))) rs).

(** [sorted[i]] read as a number: a missing element is [undefined]. *)
Definition at_ (sorted : list float) (i : nat) : float :=
  nth i sorted NaN.

Definition median (sorted : list float) : float :=
  let n := List.length sorted in
  if n mod 2 =? 0
  then ((at_ sorted (n / 2 - 1) + at_ sorted (n / 2)) / 2)%float
  else at_ sorted (n / 2).

(** Division of a length (a natural number) as JavaScript performs it. *)
Definition len (xs : list float) : float := ofNat (List.length xs).

Definition fmt (n : float) : float := stringToNumber (toFixed 4 n).

Definition sum (xs : list float) : float :=
  fold_left (fun a b => (a + b)%float) xs zero.

(** [(b - mean) ** 2], the square being one multiplication. *)
Definition sq (x : float) : float := (x * x)%float.

Definition sumSquares (mean : float) (xs : list float) : float :=
  fold_left (fun a b => (a + sq (b - mean))%float) xs zero.

Definition ascending (a b : float) : float := (a - b)%float.

(** ** enrichWithEngagement *)

Definition favoriteCount : regex := seqs [lit "favorite"; Opt Dot; lit "count"].
Definition likes : regex := seqs [Bol; lit "like"; Opt (Chr "s"); Eol].
Definition viewCount : regex := seqs [lit "view"; Opt Dot; lit "count"].
Definition views : regex := seqs [Bol; lit "view"; Opt (Chr "s"); Eol].

(** [headers.find(p) || headers.find(q)]: the empty string is falsy. *)
Definition findOr (p q : string -> bool) (hs : list string) : option string :=
  match JsArray.find p hs with
  | Some h => if isEmpty h then JsArray.find q hs else Some h
  | None => JsArray.find q hs
  end.

(** [!col] for the result of [find]. *)
Definition missing (col : option string) : bool :=
  match col with Some h => isEmpty h | None => true end.

Definition key (col : option string) : string :=
  match col with Some h => h | None => "undefined" end.

Definition engagementOf (fav view : float) : value :=
  if negb (isNaN fav) && negb (isNaN view) && PrimFloat.ltb zero view
  then VNum (stringToNumber (toFixed 6 (fav / view)%float))
  else VNull.

Definition enrichRow (favCol viewCol : string) (r : obj) : obj :=
  let fav := parseFloatV (get r favCol) in
  let view := parseFloatV (get r viewCol) in
  define r "engagement" (engagementOf fav view).

(** The auto-detected favorite and view columns. *)
Definition favColumn (hs : list string) : option string :=
  findOr (test true favoriteCount) (test true likes) hs.
Definition viewColumn (hs : list string) : option string :=
  findOr (test true viewCount) (test true views) hs.

Definition enrichWithEngagement (d : dataset) : dataset :=
  match rows d with
  | [] => d
  | _ =>
      let favCol := favColumn (headers d) in
      let viewCol := viewColumn (headers d) in
      if missing favCol || missing viewCol then d
      else if mem "engagement" (headers d) then d
      else {| rows := List.map (enrichRow (key favCol) (key viewCol)) (rows d);
              headers := headers d ++ ["engagement"] |}
  end.

(** ** executeTool *)

Inductive result : Type :=
| Error (error : string)
| ColumnStats (column : value) (count : nat)
              (mean median std min max : float)
| ValueCounts (column : value) (total_rows : nat) (value_counts : obj)
| TopTweets (sort_column : value) (direction : string) (count : nat)
            (tweets : list obj).

Definition lift {A} (o : outcome A) : M A :=
  match o with Ok a => ret a | Throw e => throw e end.

(** [rows.length ? Object.keys(rows[0]) : []] *)
Definition firstKeys (ls : list loc) : M (list string) :=
  match ls with
  | [] => ret []
  | l0 :: _ => o <- object l0;; ret (keys o)
  end.

Definition available (hs : list string) : string := join ", " hs.

Definition compute_column_stats (args : obj) (rows : loc)
           (availableHeaders : list string) : M result :=
  rs <- objects rows;;
  col <- lift (resolveCol rs (get args "column"));;
  let vals := numericValues rs col in
  match vals with
  | [] =>
      ret (Error ("No numeric values found in column " ++ dq
                  ++ toStr col ++ dq ++ ". Available columns: "
                  ++ available availableHeaders)%string)
  | _ =>
      let mean := (sum vals / len vals)%float in
      let sorted := JsArray.sort ascending vals in
      let variance := (sumSquares mean vals / len vals)%float in
      ret (ColumnStats col (List.length vals) (fmt mean)
                       (fmt (median sorted)) (fmt (PrimFloat.sqrt variance))
                       (Math_min vals) (Math_max vals))
  end.

(** [a + b] *)
Definition add (a b : value) : value :=
  match a, b with
  | (VStr _ | VNative _), _ | _, (VStr _ | VNative _) =>
      VStr (toStr a ++ toStr b)%string
  | _, _ => VNum (toNum a + toNum b)%float
  end.

(** [v !== undefined && v !== ''] *)
Definition counted (v : value) : bool :=
  match v with
  | VUndef => false
  | VStr s => negb (isEmpty s)
  | _ => true
  end.

(** The [rows.forEach] loop that fills [counts]. *)
Definition countRow (counts : obj) (r : obj) (col : value) : obj :=
  let v := get r (toStr col) in
  if counted v
  then set counts (toStr v)
           (add (or_ (get counts (toStr v)) (VNum zero)) (VNum PrimFloat.one))
  else counts.

(** [(a, b) => b[1] - a[1]] *)
Definition byCountDescending (a b : string * value) : float :=
  (toNum (snd b) - toNum (snd a))%float.

Definition get_value_counts (args : obj) (rows : loc) : M result :=
  rs <- objects rows;;
  col <- lift (resolveCol rs (get args "column"));;
  let topN := or_ (get args "top_n") (VNum (ofNat 10)) in
  let counts := fold_left (fun c r => countRow c r col) rs [] in
  let sorted :=
    JsArray.sliceTo (toNum topN)
                    (JsArray.sort byCountDescending (entries counts)) in
  ret (ValueCounts col (List.length rs) (fromEntries sorted)).

(** [/^text$/i] and [/text|content|tweet|body/i] *)
Definition textExact : regex := seqs [Bol; lit "text"; Eol].
Definition textLike : regex :=
  alts [lit "text"; lit "content"; lit "tweet"; lit "body"].

(** The comparator of [get_top_tweets]. *)
Definition byMetric (sortCol : value) (asc : value) (a b : obj) : float :=
  let av := parseFloatV (get a (toStr sortCol)) in
  let bv := parseFloatV (get b (toStr sortCol)) in
  if negb (isNaN av) && negb (isNaN bv)
  then if truthy asc then (av - bv)%float else (bv - av)%float
  else zero.

(** [[...rows].sort(cmp)]: a new array holding the same references is
    created, and that array is sorted in place. *)
Definition sortedCopy (rows : loc) (cmp : obj -> obj -> float)
  : M (list obj) :=
  ls <- elements rows;;
  rs <- mapM object ls;;
  copy <- alloc (CArr ls);;
  let sorted := JsArray.sort (fun a b => cmp (snd a) (snd b)) (combine ls rs) in
  _ <- store_elements copy (List.map fst sorted);;
  ret (List.map snd sorted).

(** The row that [get_top_tweets] reports for [r], ranked [i + 1]. *)
Definition topRow (textCol favCol viewCol : option string) (engCol : bool)
           (i : nat) (r : obj) : obj :=
  let out := [("rank", VNum (ofNat (i + 1)))] in
  let out := if missing textCol then out
             else set out "text"
                      (VStr (take 150 (toStr (or_ (get r (key textCol))
                                                  (VStr EmptyString))))) in
  let out := if missing favCol then out
             else set out (key favCol) (get r (key favCol)) in
  let out := if missing viewCol then out
             else set out (key viewCol) (get r (key viewCol)) in
  if engCol then set out "engagement" (get r "engagement") else out.

(** [xs.map((r, i) => f i r)] *)
Fixpoint mapi {A B} (f : nat -> A -> B) (i : nat) (xs : list A) : list B :=
  match xs with
  | [] => []
  | x :: rest => f i x :: mapi f (S i) rest
  end.

Definition get_top_tweets (args : obj) (rows : loc)
           (availableHeaders : list string) : M result :=
  rs <- objects rows;;
  resolved <- lift (resolveCol rs (get args "sort_column"));;
  let sortCol := or_ resolved (get args "sort_column") in
  let n := or_ (get args "n") (VNum (ofNat 10)) in
  let asc := coalesce (get args "ascending") (VBool false) in
  let textCol := findOr (test true textExact) (test true textLike)
                        availableHeaders in
  let favCol := JsArray.find (test true favoriteCount) availableHeaders in
  let viewCol := JsArray.find (test true viewCount) availableHeaders in
  let engCol := mem "engagement" availableHeaders in
  sorted <- sortedCopy rows (byMetric sortCol asc);;
  let topRows :=
    mapi (topRow textCol favCol viewCol engCol) 0
         (JsArray.sliceTo (toNum n) sorted) in
  match topRows with
  | [] =>
      ret (Error ("No rows found. Column " ++ dq ++ toStr sortCol
                  ++ dq ++ " may not exist. Available: "
                  ++ available availableHeaders)%string)
  | _ =>
      ret (TopTweets sortCol
                     (if truthy asc then "ascending (lowest first)"
                      else "descending (highest first)")
                     (List.length topRows) topRows)
  end.

(** [executeTool(toolName, args, rows)]; the console output is not part of
    the model. *)
Definition executeTool (toolName : string) (args : obj) (rows : loc)
  : M result :=
  ls <- elements rows;;
  availableHeaders <- firstKeys ls;;
  if String.eqb toolName "compute_column_stats"
  then compute_column_stats args rows availableHeaders
  else if String.eqb toolName "get_value_counts"
  then get_value_counts args rows
  else if String.eqb toolName "get_top_tweets"
  then get_top_tweets args rows availableHeaders
  else ret (Error ("Unknown tool: " ++ toolName)%string).

End CsvTools.

(* ================================================================== *)
(** * youtubeTools.js *)
(* ================================================================== *)

Module YoutubeTools.
Import JsString JsNumber JsValue Regex Store.
Local Open Scope js_scope.

(** ** parseDuration *)

(** [/PT(?:(\d+)H)?(?:(\d+)M)?(?:(\d+)S)?/] *)
Definition unit_ (n : nat) (letter : ascii) : regex :=
  Opt (Seq (Grp n (Plus digit)) (Chr letter)).

Definition duration : regex :=
  seqs [lit "PT"; unit_ 1 "H"; unit_ 2 "M"; unit_ 3 "S"].

(** [parseInt(match[n] || '0', 10)] *)
Definition groupInt (n : nat) (caps : captures) : float :=
  parseInt10 (match group n caps with
              | Some s => if isEmpty s then "0" else s
              | None => "0"
              end).

(** [parseDuration(dur)]; [None] is [null]. *)
Definition parseDuration (dur : value) : option float :=
  match dur with
  | VStr s =>
      if isEmpty s then None
      else match exec false duration s with
           | None => None
           | Some (_, caps) =>
               let h := groupInt 1 caps in
               let m := groupInt 2 caps in
               let s := groupInt 3 caps in
               Some (h * ofNat 3600 + m * ofNat 60 + s)%float
           end
  | _ => None
  end.

(** ** executeYoutubeTool *)

(** The [channelData] argument: [null] / [undefined], or an object whose
    [videos] property is an array in the store, or is missing. *)
Inductive channel : Type :=
| NoChannel
| Channel (videos : option loc).

(** [channelData?.videos || []] *)
Definition videosOf (channelData : channel) : M (list loc) :=
  match channelData with
  | Channel (Some l) => elements l
  | _ => ret []
  end.

(** No videos are loaded: there is no channel data, or its list of videos
    is missing or empty. *)
Definition noVideos (st : store) (channelData : channel) : Prop :=
  channelData = NoChannel \/ channelData = Channel None
  \/ exists l, channelData = Channel (Some l) /\ read st l = Some (CArr []).

Section Tools.
(** What the image generator returns, and the generator itself
    ([None]: no generator was passed). *)
Variable Img : Type.
Variable generateImageFn : option (value -> value -> Img).
(** The time value of [new Date(v)], [NaN] for an invalid date. *)
Variable dateValue : value -> float.

Inductive result : Type :=
| Error (error : string)
| Generated (image : Img)
| MetricVsTime (data : list (value * float)) (metricField : value)
| PlayVideo (title thumbnail_url video_url video_id : value)
| StatsJson (field : value) (count : nat)
            (mean median std min max : float).

Definition noData : string :=
  "No YouTube channel data loaded. Please drag a channel JSON file into the chat first.".

(** [field === 'duration' || field === 'duration_seconds'] *)
Definition isDurationField (field : value) : bool :=
  match field with
  | VStr s => String.eqb s "duration" || String.eqb s "duration_seconds"
  | _ => false
  end.

(** [typeof val === 'number' ? val : null] *)
Definition numberOrNull (val : value) : option float :=
  match val with VNum x => Some x | _ => None end.

(** The value one video contributes for [field]; [None] is [null]. *)
Definition fieldValue (field : value) (v : obj) : option float :=
  let val := get v (toStr field) in
  if isDurationField field then
    match parseDuration (or_ (get v "duration") (get v "duration_seconds")) with
    | Some x => Some x
    | None => numberOrNull val
    end
  else Some (match val with VNum x => x | _ => parseFloatV val end).

(** [v != null && !isNaN(v)] *)
Definition keep (o : option float) : list float :=
  match o with
  | Some x => if isNaN x then [] else [x]
  | None => []
  end.

(** [Object.keys(videos[0] || {}).join(', ')] *)
Definition availableFields (vs : list obj) : string :=
  join ", " (match vs with [] => [] | v0 :: _ => keys v0 end).

Definition point (field : value) (v : obj) : list (value * float) :=
  let date := or_ (get v "published_at") (get v "release_date") in
  if truthy date
  then List.map (fun x => (date, x)) (keep (fieldValue field v))
  else [].

(** [(a, b) => new Date(a.date) - new Date(b.date)] *)
Definition byDate (a b : value * float) : float :=
  (dateValue (fst a) - dateValue (fst b))%float.

Definition plot_metric_vs_time (args : obj) (vs : list obj) : result :=
  let field := get args "metric_field" in
  let withDates := JsArray.sort byDate (flat_map (point field) vs) in
  match withDates with
  | [] => Error ("No valid data for field " ++ dq ++ toStr field ++ dq
                 ++ ". Available: " ++ availableFields vs)%string
  | _ => MetricVsTime withDates field
  end.

(** The object literal [ordinals]. *)
Definition ordinals : obj :=
  List.map (fun '(k, n) => (k, VNum (ofNat n)))
    [ ("first", 0); ("second", 1); ("third", 2); ("fourth", 3);
      ("fifth", 4); ("1st", 0); ("2nd", 1); ("3rd", 2); ("4th", 3);
      ("5th", 4) ].

(** [/^video\s+(\d+)$/] and [/^\d+$/] *)
Definition videoNum : regex :=
  seqs [Bol; lit "video"; Plus space; Grp 1 (Plus digit); Eol].
Definition plain : regex := seqs [Bol; Plus digit; Eol].

(** [videos[i]] for a value [i]: an element when [i] is the number of an
    index in range, [undefined] otherwise. *)
Definition element (ls : list loc) (i : value) : option loc :=
  match i with
  | VNum x =>
      let n := toInteger 0 x in
      if PrimFloat.eqb (ofZ n) x && (0 <=? n)%Z
      then nth_error ls (Z.to_nat n) else None
  | _ => None
  end.

(** [(b.view_count || 0) - (a.view_count || 0)] and its mirror image. *)
Definition views (v : obj) : float :=
  toNum (or_ (get v "view_count") (VNum zero)).
Definition mostViewedFirst (a b : obj) : float := (views b - views a)%float.
Definition leastViewedFirst (a b : obj) : float := (views a - views b)%float.

(** [[...videos].sort(cmp)[0]]: the copy is a new array, sorted in
    place; its first element is returned. *)
Definition firstOfSortedCopy (ls : list loc) (cmp : obj -> obj -> float)
  : M (option loc) :=
  vs <- mapM object ls;;
  copy <- alloc (CArr ls);;
  let sorted := JsArray.sort (fun a b => cmp (snd a) (snd b)) (combine ls vs) in
  _ <- store_elements copy (List.map fst sorted);;
  ret (hd_error (List.map fst sorted)).

(** [videos.find((v) => (v.title || '').toLowerCase().includes(sel))]:
    a title that is neither falsy nor a string has no [toLowerCase]. *)
Fixpoint findByTitle (sel : string) (ls : list loc) : M (option loc) :=
  match ls with
  | [] => ret None
  | l :: rest =>
      v <- object l;;
      match or_ (get v "title") (VStr EmptyString) with
      | VStr t =>
          if includes sel (toLowerCase t) then ret (Some l)
          else findByTitle sel rest
      | _ => throw TypeError
      end
  end.

Definition card (video : obj) : result :=
  let id := get video "video_id" in
  let thumbUrl :=
    if truthy id
    then VStr ("https://img.youtube.com/vi/" ++ toStr id
               ++ "/hqdefault.jpg")%string
    else or_ (get video "thumbnail_url") (VStr EmptyString) in
  PlayVideo (or_ (get video "title") (VStr "Video")) thumbUrl
            (or_ (get video "video_url")
                 (VStr ("https://www.youtube.com/watch?v=" ++ toStr id)%string))
            id.

(** [plainNum != null && plainNum >= 0] *)
Definition inRange (plainNum : option float) : bool :=
  match plainNum with
  | Some n => PrimFloat.leb zero n
  | None => false
  end.

Definition number (o : option float) : value :=
  match o with Some n => VNum n | None => VNull end.

(** The end of [play_video]: the error for no video, else the card. *)
Definition answer (video : option loc) (selector : value) : M result :=
  match video with
  | None =>
      ret (Error ("No video found for " ++ dq ++ toStr selector ++ dq)%string)
  | Some l => v <- object l;; ret (card v)
  end.

Definition play_video (args : obj) (ls : list loc) : M result :=
  match or_ (get args "selector") (VStr EmptyString) with
  | VStr raw =>
      let sel := trim (toLowerCase raw) in
      let videoNumMatch := exec false videoNum sel in
      let plainNum :=
        if test false plain sel
        then Some (parseInt10 sel - PrimFloat.one)%float else None in
      video <-
        (if String.eqb sel "first" || String.eqb sel "1"
         then ret (element ls (VNum zero))
         else if negb (nullish (get ordinals sel))
         then ret (element ls (get ordinals sel))
         else match videoNumMatch with
         | Some (_, caps) =>
             ret (element ls (VNum (groupInt 1 caps - PrimFloat.one)%float))
         | None =>
         if inRange plainNum
         then ret (element ls (number plainNum))
         else if String.eqb sel "last" || String.eqb sel "most recent"
         then ret (nth_error ls (List.length ls - 1))
         else if String.eqb sel "most viewed"
         then firstOfSortedCopy ls mostViewedFirst
         else if String.eqb sel "least viewed"
         then firstOfSortedCopy ls leastViewedFirst
         else findByTitle sel ls
         end);;
      answer video (get args "selector")
  | _ => throw TypeError
  end.

(** [videos.map(...).filter((v) => v != null && !isNaN(v))] *)
Definition statValues (field : value) (vs : list obj) : list float :=
  flat_map (fun v => keep (fieldValue field v)) vs.

Definition compute_stats_json (args : obj) (vs : list obj) : result :=
  let field := get args "field" in
  let values := statValues field vs in
  match values with
  | [] => Error ("No numeric values for " ++ dq ++ toStr field ++ dq
                 ++ ". Available: " ++ availableFields vs)%string
  | _ =>
      let values := JsArray.sort CsvTools.ascending values in
      let n := List.length values in
      let sum := CsvTools.sum values in
      let mean := (sum / ofNat n)%float in
      let variance := (CsvTools.sumSquares mean values / ofNat n)%float in
      let std := PrimFloat.sqrt variance in
      let median := CsvTools.median values in
      StatsJson field n
                (stringToNumber (toFixed 4 mean))
                (stringToNumber (toFixed 4 median))
                (stringToNumber (toFixed 4 std))
                (CsvTools.at_ values 0) (CsvTools.at_ values (n - 1))
  end.

Definition executeYoutubeTool (toolName : string) (args : obj)
           (channelData : channel) (anchorImage : value) : M result :=
  videos <- videosOf channelData;;
  if JsArray.isEmpty videos && negb (String.eqb toolName "generateImage")
  then ret (Error noData)
  else if String.eqb toolName "generateImage" then
    match generateImageFn with
    | None => ret (Error "Image generation not available")
    | Some f => ret (Generated (f (get args "prompt") anchorImage))
    end
  else if String.eqb toolName "plot_metric_vs_time" then
    vs <- mapM object videos;; ret (plot_metric_vs_time args vs)
  else if String.eqb toolName "play_video" then play_video args videos
  else if String.eqb toolName "compute_stats_json" then
    vs <- mapM object videos;; ret (compute_stats_json args vs)
  else ret (Error ("Unknown tool: " ++ toolName)%string).

End Tools.

Arguments Error {Img} error.
Arguments Generated {Img} image.
Arguments MetricVsTime {Img} data metricField.
Arguments PlayVideo {Img} title thumbnail_url video_url video_id.
Arguments StatsJson {Img} field count mean median std min max.
Arguments card {Img} video.
Arguments answer {Img} video selector.
Arguments play_video {Img} args ls.
Arguments plot_metric_vs_time {Img} dateValue args vs.
Arguments compute_stats_json {Img} args vs.

End YoutubeTools.

(* ================================================================== *)
(** * openai.js: the tool-calling loops *)
(* ================================================================== *)

Module OpenAI.
Import Store.

(** One entry of [msg.tool_calls]: [{ id, function: { name, arguments } }];
    [None] stands for a missing [function], [name] or [arguments]. *)
Record toolCall : Type :=
  { id : string; name : option string; arguments : option string }.

(** [response.choices?.[0]?.message] when present. *)
Record reply : Type :=
  { content : option string; tool_calls : list toolCall }.

(** What one request to the completion endpoint comes back with. *)
Inductive response : Type :=
| HttpError (error : string)      (* [!res.ok] *)
| NoMessage                       (* no [choices[0].message] *)
| Message (msg : reply).

(** [content || ''] and [content || null] *)
Definition textOf (c : option string) : string :=
  match c with Some s => s | None => EmptyString end.
Definition orNull (c : option string) : option string :=
  match c with
  | Some s => if JsString.isEmpty s then None else Some s
  | None => None
  end.

Section Loop.
(** Parsed tool arguments and tool results. *)
Variables Args Result : Type.
(** [JSON.parse], [None] when it throws; [{}]. *)
Variable parse : string -> option Args.
Variable noArgs : Args.
(** [result?._chartType] as a condition. *)
Variable isChart : Result -> bool.
(** What is sent back to the model for a result:
    [JSON.stringify(result)], for the YouTube loop after the image data
    or the video card has been replaced by a note. *)
Variable forApi : Result -> string.

Inductive message : Type :=
| Plain (role text : string)
| Assistant (text : option string) (calls : list toolCall)
| Tool (tool_call_id : string) (text : string).

(** One entry of the [toolCalls] log. *)
Record call : Type :=
  { call_name : option string; call_args : Args; call_result : Result }.

(** The value the function returns. *)
Record answer : Type :=
  { text : string; charts : list Result; toolCalls : list call }.

(** How the loop was left, and how many requests had been answered with
    tool calls by then. *)
Inductive exit : Type := Converged | Broke | RoundLimit.
Record run : Type := { how : exit; rounds : nat; value : answer }.

(** The endpoint, asked for the [round]-th time with [messages], and the
    tool executor, which may throw (or, awaited, reject). *)
Variable complete : nat -> list message -> response.
Variable executeFn : option string -> Args -> outcome Result.

Record state : Type :=
  { messages : list message; st_charts : list Result; st_calls : list call }.

(** [JSON.parse(tc.function?.arguments || '{}')] under [try]. *)
Definition argsOf (tc : toolCall) : Args :=
  match arguments tc with
  | None => noArgs
  | Some s =>
      if JsString.isEmpty s then noArgs
      else match parse s with Some a => a | None => noArgs end
  end.

(** The loop over [toolCallsList]. *)
Fixpoint runCalls (tcs : list toolCall) (st : state) : outcome state :=
  match tcs with
  | [] => Ok st
  | tc :: rest =>
      let args := argsOf tc in
      match executeFn (name tc) args with
      | Throw e => Throw e
      | Ok result =>
          runCalls rest
            {| messages := messages st ++ [Tool (id tc) (forApi result)];
               st_charts := if isChart result then st_charts st ++ [result]
                            else st_charts st;
               st_calls := st_calls st ++
                 [{| call_name := name tc; call_args := args;
                     call_result := result |}] |}
      end
  end.

Definition finish (h : exit) (round : nat) (t : string) (st : state) : run :=
  {| how := h; rounds := round;
     value := {| text := t; charts := st_charts st;
                 toolCalls := st_calls st |} |}.

(** [for (let round = 0; round < 5; round++) { ... }] followed by the
    final [return]; [left] is the number of iterations still allowed. *)
Fixpoint loop (left round : nat) (st : state) : outcome run :=
  match left with
  | O => Ok (finish RoundLimit round EmptyString st)
  | S left' =>
      match complete round (messages st) with
      | HttpError e => Throw e
      | NoMessage => Ok (finish Broke round EmptyString st)
      | Message msg =>
          match tool_calls msg with
          | [] => Ok (finish Converged round (textOf (content msg)) st)
          | tcs =>
              match runCalls tcs
                      {| messages := messages st
                                     ++ [Assistant (orNull (content msg)) tcs];
                         st_charts := st_charts st;
                         st_calls := st_calls st |} with
              | Throw e => Throw e
              | Ok st' => loop left' (S round) st'
              end
          end
      end
  end.

(** The charts are the chart results among the calls logged so far. *)
Definition charts_of_calls (st : state) : Prop :=
  st_charts st = filter isChart (List.map call_result (st_calls st)).

(** Lines 184-235 and 291-357: the loop of [chatWithCsvTools] and of
    [chatWithYoutubeTools], started on the messages built before it. *)
Definition toolLoop (baseMessages : list message) : outcome run :=
  loop 5 0 {| messages := baseMessages; st_charts := []; st_calls := [] |}.

End Loop.

Section Chats.
Variables Args Result : Type.
Variable parse : string -> option Args.
Variable noArgs : Args.
(** [result?._chartType], [None] when missing or falsy. *)
Variable chartType : Result -> option string.
Variable stringify : Result -> string.
(** [result.imageData] as a condition; the result with its image data
    replaced by a note; the result with a note added. *)
Variable hasImageData : Result -> bool.
Variable withoutImage : Result -> Result.
Variable withNote : Result -> Result.

Definition isChart (r : Result) : bool :=
  match chartType r with Some _ => true | None => false end.




End Chats.

End OpenAI.

(* ================================================================== *)
(** * Chat.js: the routing of handleSend *)
(* ================================================================== *)

Module Chat.
Import JsString Regex.

(** [/\b(regression|scatter|...|trend.?line)\b/i] *)
Definition PYTHON_ONLY_KEYWORDS : regex :=
  seqs [ WordB;
         Grp 1 (alts
           [ lit "regression"; lit "scatter"; lit "histogram"; lit "seaborn";
             lit "matplotlib"; lit "numpy";
             seqs [lit "time"; Opt Dot; lit "series"];
             lit "heatmap";
             seqs [lit "box"; Opt Dot; lit "plot"];
             lit "violin"; lit "distribut";
             seqs [lit "linear"; Opt Dot; lit "model"];
             lit "logistic"; lit "forecast";
             seqs [lit "trend"; Opt Dot; lit "line"] ]);
         WordB ].

(** [CODE_KEYWORDS], exported by the AI service. *)
Definition CODE_KEYWORDS : regex :=
  seqs [ WordB;
         Grp 1 (alts
           [ lit "plot"; lit "chart"; lit "graph"; lit "analyz";
             lit "statistic"; lit "regression"; lit "correlat";
             lit "histogram"; lit "visualiz"; lit "calculat"; lit "compute";
             lit "run code"; lit "write code"; lit "execute"; lit "pandas";
             lit "numpy"; lit "matplotlib"; lit "csv"; lit "data" ]);
         WordB ].

(** The component state that the routing reads. *)
Record context : Type :=
  { sessionCsvRows : bool;      (* rows of a CSV are held for the session *)
    csvContext : bool;          (* a CSV file is attached to this message *)
    sessionJsonData : bool;     (* channel JSON is held for the session *)
    jsonContext : bool;         (* the JSON chip is shown *)
    images : nat;               (* attached images *)
    streaming : bool;
    activeSessionId : bool }.

Record routing : Type :=
  { wantPythonOnly : bool;
    wantCode : bool;
    needsBase64 : bool;
    useTools : bool;
    useYoutubeTools : bool;
    useCodeExecution : bool }.

(** Lines 386-398, for the trimmed input [text]. *)
Definition route (text : string) (c : context) : routing :=
  let wantPythonOnly := test true PYTHON_ONLY_KEYWORDS text in
  let wantCode := test true CODE_KEYWORDS text && negb (sessionCsvRows c) in
  let capturedCsv := csvContext c in
  {| wantPythonOnly := wantPythonOnly;
     wantCode := wantCode;
     needsBase64 := capturedCsv && wantPythonOnly;
     useTools := sessionCsvRows c && negb wantPythonOnly && negb wantCode
                 && negb capturedCsv;
     useYoutubeTools := (sessionJsonData c || (0 <? images c))
                        && negb (sessionCsvRows c);
     useCodeExecution := wantPythonOnly || wantCode |}.

(** The branch of lines 504-575 that answers the message. *)
Inductive mode : Type :=
| YoutubeToolsMode                         (* chatWithYoutubeTools *)
| CsvToolsMode                             (* chatWithCsvTools *)
| StreamingMode (codeExecution : bool).    (* streamChat(..., useCodeExecution) *)

Definition branch (r : routing) : mode :=
  if useYoutubeTools r then YoutubeToolsMode
  else if useTools r then CsvToolsMode
  else StreamingMode (useCodeExecution r).

(** The mode [handleSend] answers [input] in; [None] when it returns at
    once (nothing to send, a reply still streaming, or no session). *)
Definition handleSend (input : string) (c : context) : option mode :=
  let text := trim input in
  if (isEmpty text && (images c =? 0) && negb (csvContext c)
      && negb (jsonContext c))
     || streaming c || negb (activeSessionId c)
  then None
  else Some (branch (route text c)).

End Chat.

(* ================================================================== *)
(** * csvTools.js: the slim CSV *)
(* ================================================================== *)

Module SlimCsv.
Import JsString JsValue Regex.

(** [/^...$/i] *)
Definition whole (r : regex) : regex := seqs [Bol; r; Eol].

Definition SLIM_PATTERNS : list regex :=
  [ whole (lit "text");
    whole (lit "language");
    whole (lit "type");
    whole (seqs [lit "view"; Opt Dot; lit "count"]);
    whole (seqs [lit "reply"; Opt Dot; lit "count"]);
    whole (seqs [lit "retweet"; Opt Dot; lit "count"]);
    whole (seqs [lit "quote"; Opt Dot; lit "count"]);
    whole (seqs [lit "favorite"; Opt Dot; lit "count"]);
    whole (Grp 1 (alts [ seqs [lit "created"; Opt Dot; lit "at"];
                         lit "timestamp"; lit "date" ]));
    whole (lit "engagement") ].

(** [SLIM_PATTERNS.some((re) => re.test(h))] *)
Definition isSlim (h : string) : bool :=
  existsb (fun re => test true re h) SLIM_PATTERNS.

(** The global replacement in [escapeCell]: every double quote is written
    twice. *)
Fixpoint doubleQuotes (s : string) : string :=
  match s with
  | EmptyString => EmptyString
  | String c s' =>
      if Ascii.eqb c quote then String quote (String quote (doubleQuotes s'))
      else String c (doubleQuotes s')
  end.

(** [String(v ?? '')] *)
Definition cellText (v : value) : string :=
  toStr (coalesce v (VStr EmptyString)).

Definition newline : string := String LF EmptyString.

Definition escapeCell (v : value) : string :=
  let s := cellText v in
  if includes "," s || includes dq s || includes newline s
  then (dq ++ doubleQuotes s ++ dq)%string
  else s.

(** The line written for the row [r]:
    [slimHeaders.map((h) => escapeCell(r[h])).join(',')]. *)
Definition rowLine (slimHeaders : list string) (r : obj) : string :=
  join "," (List.map (fun h => escapeCell (get r h)) slimHeaders).

Definition buildSlimCsv (rows : list obj) (headers : list string) : string :=
  if JsArray.isEmpty rows || JsArray.isEmpty headers then EmptyString
  else
    let slimHeaders := filter isSlim headers in
    if JsArray.isEmpty slimHeaders then EmptyString
    else
      let lines :=
        join "," slimHeaders :: List.map (rowLine slimHeaders) rows in
      join newline lines.

End SlimCsv.

(* ================================================================== *)
(** * openai.js: reading the streamed reply *)
(* ================================================================== *)

Module Stream.
Import JsString Store.

Section Reader.
(** What a server-sent event yields: [JSON.parse(data)] under [try], then
    the test [parsed.type === 'text' && parsed.text].  [textOf data] is
    [Some text] when the data parses to a value of type ['text'] with a
    truthy text, [None] when it does not or when parsing throws. *)
Variable Text : Type.
Variable textOf : string -> option Text.

(** [line.slice(6)] *)
Definition payload (line : string) : string :=
  String.substring 6 (String.length line - 6) line.

(** The [for (const line of lines)] loop: the texts yielded, and whether
    the generator returned at [[DONE]]. *)
Fixpoint readLines (lines : list string) : list Text * bool :=
  match lines with
  | [] => ([], false)
  | line :: rest =>
      if startsWith "data: " line then
        let data := payload line in
        if String.eqb data "[DONE]" then ([], true)
        else
          let '(texts, done) := readLines rest in
          (match textOf data with
           | Some t => t :: texts
           | None => texts
           end, done)
      else readLines rest
  end.

(** [lines.pop() || ''], and [lines] once its last element is popped. *)
Definition pop (lines : list string) : string := List.last lines EmptyString.
Definition popped (lines : list string) : list string := List.removelast lines.

(** The [while (true)] loop over the chunks the reader delivers, each one
    decoded; the end of the list is [done].  [buf] is the unfinished line
    carried from one chunk to the next. *)
Fixpoint readChunks (chunks : list string) (buf : string) : list Text :=
  match chunks with
  | [] => []
  | value :: rest =>
      let buf := (buf ++ value)%string in
      let lines := split LF buf in
      let '(texts, done) := readLines (popped lines) in
      if done then texts else texts ++ readChunks rest (pop lines)
  end.

(** The response to the request: [!res.ok], with the message of the error
    that is thrown, or the chunks of the body. *)
Inductive fetched : Type :=
| Failed (error : string)
| Body (chunks : list string).

(** [streamChat], from the response on: everything the generator yields. *)
Definition streamChat (res : fetched) : outcome (list Text) :=
  match res with
  | Failed e => Throw e
  | Body chunks => Ok (readChunks chunks EmptyString)
  end.

End Reader.
End Stream.

(* ================================================================== *)
(** * csvTools.js: the dataset summary *)
(* ================================================================== *)

Module Summary.
Import JsString JsNumber JsValue CsvTools.

(** Two characters of the fixed texts lie outside the range of the strings
    of this model, the bullet U+2022 and the dash U+2014; they stand as
    their three UTF-8 bytes.  The multiplication sign is U+00D7. *)
Definition bullet : string :=
  String (ascii_of_nat 226) (String (ascii_of_nat 128)
                               (String (ascii_of_nat 162) EmptyString)).
Definition dash : string :=
  String (ascii_of_nat 226) (String (ascii_of_nat 128)
                               (String (ascii_of_nat 148) EmptyString)).
Definition times : string := String (ascii_of_nat 215) EmptyString.

Definition nl : string := String LF EmptyString.

(** [`${n}`] for a length. *)
Definition count (n : nat) : string := JsNumber.toString (ofNat n).

(** [v !== '' && v !== undefined && v !== null] *)
Definition present (v : value) : bool :=
  match v with
  | VUndef | VNull => false
  | VStr s => negb (isEmpty s)
  | _ => true
  end.

Record numericCol : Type :=
  { numName : string; numCount : nat; numMean : float; numMin : float;
    numMax : float }.

Record categoricalCol : Type :=
  { catName : string; catUnique : nat; catTop : string }.

(** [counts[v] = (counts[v] || 0) + 1] *)
Definition tally (counts : obj) (v : value) : obj :=
  set counts (toStr v)
      (add (or_ (get counts (toStr v)) (VNum zero)) (VNum PrimFloat.one)).

(** [([v, n]) => `${v} (${n})`] *)
Definition topEntry (e : string * value) : string :=
  (fst e ++ " (" ++ toStr (snd e) ++ ")")%string.

(** The body of [headers.forEach]: the column [h] is numeric or
    categorical.  [valsLength] is [vals.length || 1]. *)
Definition describe (rows : list obj) (h : string)
  : numericCol + categoricalCol :=
  let vals := filter present (List.map (fun r => get r h) rows) in
  let numVals := filter (fun v => negb (isNaN v)) (List.map parseFloatV vals) in
  let valsLength := if List.length vals =? 0 then 1 else List.length vals in
  let numericRatio := (len numVals / ofNat valsLength)%float in
  if PrimFloat.leb (stringToNumber "0.8") numericRatio
     && (0 <? List.length numVals)
  then
    let mean := (sum numVals / len numVals)%float in
    inl {| numName := h; numCount := List.length numVals;
           numMean := stringToNumber (toFixed 2 mean);
           numMin := Math_min numVals; numMax := Math_max numVals |}
  else
    let counts := fold_left tally vals [] in
    let top :=
      join ", " (List.map topEntry
                   (JsArray.sliceTo (ofNat 5)
                      (JsArray.sort byCountDescending (entries counts)))) in
    inr {| catName := h; catUnique := List.length (keys counts);
           catTop := top |}.

Definition numericCols (rows : list obj) (headers : list string)
  : list numericCol :=
  flat_map (fun h => match describe rows h with inl c => [c] | inr _ => [] end)
           headers.

Definition categoricalCols (rows : list obj) (headers : list string)
  : list categoricalCol :=
  flat_map (fun h => match describe rows h with inl _ => [] | inr c => [c] end)
           headers.

Definition verbatim : string :=
  (" (exact names " ++ dash ++ " use these verbatim in tool calls):")%string.

Definition numericLine (c : numericCol) : string :=
  ("  " ++ bullet ++ " " ++ dq ++ numName c ++ dq ++ ": mean="
   ++ JsNumber.toString (numMean c) ++ ", min=" ++ JsNumber.toString (numMin c)
   ++ ", max=" ++ JsNumber.toString (numMax c) ++ ", n=" ++ count (numCount c))%string.

Definition categoricalLine (c : categoricalCol) : string :=
  ("  " ++ bullet ++ " " ++ dq ++ catName c ++ dq ++ ": "
   ++ count (catUnique c) ++ " unique values " ++ dash ++ " top: "
   ++ catTop c)%string.

(** The array [lines] before it is joined. *)
Definition summaryLines (rows : list obj) (headers : list string)
  : list string :=
  let nums := numericCols rows headers in
  let cats := categoricalCols rows headers in
  [("**Dataset: " ++ count (List.length rows) ++ " rows " ++ times ++ " "
    ++ count (List.length headers) ++ " columns**" ++ nl)%string]
  ++ (if JsArray.isEmpty nums then []
      else ("**Numeric columns**" ++ verbatim)%string
           :: List.map numericLine nums)
  ++ (if JsArray.isEmpty cats then []
      else (nl ++ "**Categorical columns**" ++ verbatim)%string
           :: List.map categoricalLine cats).

Definition computeDatasetSummary (rows : list obj) (headers : list string)
  : string :=
  if JsArray.isEmpty rows || JsArray.isEmpty headers then EmptyString
  else join nl (summaryLines rows headers).

End Summary.

(* ================================================================== *)
(** * Chat.js: the component state and the prompt of handleSend *)
(* ================================================================== *)

Module Session.
Import JsString JsNumber JsValue Summary.

(** What [parseCSV] returns, and the attachment chip
    [{ name, ...parseCSV(text) }]. *)
Record parsed : Type :=
  { parsedHeaders : list string; parsedRowCount : nat; parsedPreview : string;
    parsedBase64 : string; parsedTruncated : bool }.

Record csvFile : Type :=
  { name : string; headers : list string; rowCount : nat; preview : string;
    base64 : string; truncated : bool }.

(** The state of the component that sending and the session handlers read
    or write.  [None] is [null]; [images] is [images.length];
    [sessionJsonData] holds [data.videos], which is an array whenever the
    state is set; [jsonContext] is the chip as a condition. *)
Record state : Type :=
  { activeSessionId : option string;
    input : string;
    images : nat;
    csvContext : option csvFile;
    sessionCsvRows : option (list obj);
    sessionCsvHeaders : option (list string);
    csvDataSummary : option string;
    sessionSlimCsv : option string;
    jsonContext : bool;
    sessionJsonData : option (list obj);
    streaming : bool }.

(** Lines 195-205. *)
Definition handleNewChat (s : state) : state :=
  {| activeSessionId := Some "new";
     input := EmptyString;
     images := 0;
     csvContext := None;
     sessionCsvRows := None;
     sessionCsvHeaders := None;
     csvDataSummary := csvDataSummary s;
     sessionSlimCsv := sessionSlimCsv s;
     jsonContext := false;
     sessionJsonData := None;
     streaming := streaming s |}.

Definition sameSession (a b : option string) : bool :=
  match a, b with
  | Some x, Some y => String.eqb x y
  | None, None => true
  | _, _ => false
  end.

(** Lines 207-216. *)
Definition handleSelectSession (sessionId : string) (s : state) : state :=
  if sameSession (Some sessionId) (activeSessionId s) then s
  else
    {| activeSessionId := Some sessionId;
       input := EmptyString;
       images := 0;
       csvContext := None;
       sessionCsvRows := None;
       sessionCsvHeaders := sessionCsvHeaders s;
       csvDataSummary := csvDataSummary s;
       sessionSlimCsv := sessionSlimCsv s;
       jsonContext := false;
       sessionJsonData := None;
       streaming := streaming s |}.

(** The effect of lines 158-179 for a stored session once its messages are
    loaded: [jsonData] is the channel JSON saved with them, [None] when
    there is none or it has no videos. *)
Definition sessionLoaded (jsonData : option (list obj)) (s : state) : state :=
  let videos := match jsonData with
                | Some (v :: vs) => Some (v :: vs)
                | _ => None
                end in
  {| activeSessionId := activeSessionId s;
     input := input s;
     images := images s;
     csvContext := csvContext s;
     sessionCsvRows := sessionCsvRows s;
     sessionCsvHeaders := sessionCsvHeaders s;
     csvDataSummary := csvDataSummary s;
     sessionSlimCsv := sessionSlimCsv s;
     jsonContext := match videos with Some _ => true | None => false end;
     sessionJsonData := videos;
     streaming := streaming s |}.

Section Files.
(** [toBase64]: the UTF-8 bytes of the text, then [btoa]. *)
Variable toBase64 : string -> string.

(** Lines 35-51. *)
Definition parseCSV (text : string) : option parsed :=
  let lines := filter CsvTools.nonBlank (split LF text) in
  match lines with
  | [] => None
  | first :: _ =>
      let long := (500000 <? Z.of_nat (String.length text))%Z in
      let raw := if long then take (Z.to_nat 500000) text else text in
      Some {| parsedHeaders :=
                List.map (fun h => CsvTools.unquote (trim h)) (split "," first);
              parsedRowCount := List.length lines - 1;
              parsedPreview := join nl (firstn 6 lines);
              parsedBase64 := toBase64 raw;
              parsedTruncated := long |}
  end.

(** Lines 268-282 of [handleDrop] and 315-327 of [handleFileSelect]: the
    text of a CSV file has been read. *)
Definition csvFileRead (fileName text : string) (s : state) : state :=
  match parseCSV text with
  | None => s
  | Some p =>
      let d := CsvTools.enrichWithEngagement (CsvTools.parseCsvToRows text) in
      {| activeSessionId := activeSessionId s;
         input := input s;
         images := images s;
         csvContext :=
           Some {| name := fileName; headers := parsedHeaders p;
                   rowCount := parsedRowCount p; preview := parsedPreview p;
                   base64 := parsedBase64 p; truncated := parsedTruncated p |};
         sessionCsvRows := Some (CsvTools.rows d);
         sessionCsvHeaders := Some (CsvTools.headers d);
         csvDataSummary :=
           Some (Summary.computeDatasetSummary (CsvTools.rows d)
                                               (CsvTools.headers d));
         sessionSlimCsv :=
           Some (SlimCsv.buildSlimCsv (CsvTools.rows d) (CsvTools.headers d));
         jsonContext := jsonContext s;
         sessionJsonData := sessionJsonData s;
         streaming := streaming s |}
  end.

End Files.

(** What the routing reads of the state. *)
Definition held {A} (o : option A) : bool :=
  match o with Some _ => true | None => false end.

Definition contextOf (s : state) : Chat.context :=
  {| Chat.sessionCsvRows := held (sessionCsvRows s);
     Chat.csvContext := held (csvContext s);
     Chat.sessionJsonData := held (sessionJsonData s);
     Chat.jsonContext := jsonContext s;
     Chat.images := images s;
     Chat.streaming := streaming s;
     Chat.activeSessionId :=
       match activeSessionId s with
       | Some id => negb (isEmpty id)
       | None => false
       end |}.

(** ** The prompt, lines 402-449 *)

Definition rule : string := (nl ++ nl ++ "---" ++ nl ++ nl)%string.

(** [x || ''] *)
Definition orEmpty (o : option string) : string :=
  match o with Some x => x | None => EmptyString end.

(** [`${headers?.join(', ')}`] *)
Definition joined (hs : option (list string)) : string :=
  match hs with Some l => join ", " l | None => "undefined" end.

Definition slimCsvBlock (s : state) : string :=
  match sessionSlimCsv s with
  | Some c =>
      if isEmpty c then EmptyString
      else (nl ++ nl ++ "Full dataset (key columns):" ++ nl ++ "```csv" ++ nl
            ++ c ++ nl ++ "```")%string
  | None => EmptyString
  end.

Definition fileLine (f : csvFile) : string :=
  ("[CSV File: " ++ dq ++ name f ++ dq ++ " | " ++ count (rowCount f)
   ++ " rows | Columns: " ++ join ", " (headers f) ++ "]")%string.

Definition pythonNote (f : csvFile) : string :=
  ("IMPORTANT " ++ dash
   ++ " to load the full data in Python use this exact pattern:"
   ++ nl ++ "```python" ++ nl ++ "import pandas as pd, io, base64" ++ nl
   ++ "df = pd.read_csv(io.BytesIO(base64.b64decode(" ++ dq ++ base64 f ++ dq
   ++ ")))" ++ nl ++ "```")%string.

Definition csvPrefix (s : state) (needsBase64 : bool) : string :=
  let sessionSummary := orEmpty (csvDataSummary s) in
  match csvContext s with
  | Some f =>
      if needsBase64
      then (fileLine f ++ nl ++ nl ++ sessionSummary ++ slimCsvBlock s
            ++ nl ++ nl ++ pythonNote f ++ rule)%string
      else (fileLine f ++ nl ++ nl ++ sessionSummary ++ slimCsvBlock s
            ++ rule)%string
  | None =>
      if isEmpty sessionSummary then EmptyString
      else ("[CSV columns: " ++ joined (sessionCsvHeaders s) ++ "]" ++ nl ++ nl
            ++ sessionSummary ++ rule)%string
  end.

Definition jsonPrefix (s : state) : string :=
  match sessionJsonData s with
  | Some (v0 :: vs) =>
      ("[YouTube channel JSON loaded: " ++ count (List.length (v0 :: vs))
       ++ " videos. Fields per video: " ++ join ", " (keys v0) ++ "]"
       ++ rule)%string
  | _ => EmptyString
  end.

Definition imagePrefix (s : state) : string :=
  if 0 <? images s
  then ("[User has attached " ++ count (images s)
        ++ " reference image(s). When they ask to generate, create, or edit an image, you MUST call the generateImage tool with use_anchor: true. Do NOT say you cannot process images "
        ++ dash
        ++ " you have the generateImage tool. The anchor image will be used as inspiration."
        ++ rule)%string
  else EmptyString.

Definition defaultPrompt (s : state) : string :=
  if jsonContext s then "Please analyze this YouTube channel data."
  else if 0 <? images s then "What do you see in this image?"
  else "Please analyze this CSV data.".

(** [promptForModel], for the trimmed input [text]. *)
Definition promptForModel (s : state) (text : string) : string :=
  let needsBase64 :=
    Chat.needsBase64 (Chat.route text (contextOf s)) in
  (csvPrefix s needsBase64 ++ jsonPrefix s ++ imagePrefix s
   ++ (if isEmpty text then defaultPrompt s else text))%string.

(** ** openai.js: the user message of the tool loops *)

(** [msgWithContext] of [chatWithCsvTools], lines 156-158. *)
Definition csvMessage (csvHeaders : option (list string)) (newMessage : string)
  : string :=
  match csvHeaders with
  | Some (h :: hs) =>
      ("[CSV columns: " ++ join ", " (h :: hs) ++ "]" ++ nl ++ nl
       ++ newMessage)%string
  | _ => newMessage
  end.

(** [msgWithContext] of [chatWithYoutubeTools], lines 259-262. *)
Definition youtubeMessage (videos : option (list obj)) (newMessage : string)
  : string :=
  match videos with
  | Some (v0 :: vs) =>
      ("[YouTube channel JSON loaded: " ++ count (List.length (v0 :: vs))
       ++ " videos. Fields: " ++ join ", " (keys v0) ++ "]" ++ nl ++ nl
       ++ newMessage)%string
  | _ => newMessage
  end.

(** The text that answering [text] in mode [m] hands to the model: the
    user message of the two tool loops, and the new message given to
    [streamChat] (lines 504-560 of Chat.js). *)
Definition toolMessage (m : Chat.mode) (s : state) (text : string) : string :=
  match m with
  | Chat.CsvToolsMode => csvMessage (sessionCsvHeaders s) (promptForModel s text)
  | Chat.YoutubeToolsMode =>
      youtubeMessage (sessionJsonData s) (promptForModel s text)
  | Chat.StreamingMode _ => promptForModel s text
  end.

End Session.

(* ================================================================== *)
(** * Example data *)
(* ================================================================== *)

Module Examples.
Import JsString JsNumber JsValue Store.
Local Open Scope js_scope.

(** A one-row dataset and the argument [{ column: "x" }]. *)
Definition oneRow : list obj := [[("x", VStr "1.23456")]].
Definition columnX : obj := [("column", VStr "x")].

(** Two tweets: one without favorites, one with a third of its views. *)
Definition tweets : CsvTools.dataset :=
  {| CsvTools.headers := ["Favorite Count"; "View Count"];
     CsvTools.rows :=
       [ [("Favorite Count", VStr "0"); ("View Count", VStr "10")];
         [("Favorite Count", VStr "1"); ("View Count", VStr "3")] ] |}.

Definition thirdEnriched : obj :=
  [("Favorite Count", VStr "1"); ("View Count", VStr "3");
   ("engagement", VNum (parseFloat "0.333333"))].

(** A channel of three videos. *)
Definition video (title : string) (views : nat) : obj :=
  [("title", VStr title); ("view_count", VNum (ofNat views))].
Definition threeVideos : list obj := [video "A" 10; video "B" 30; video "C" 20].

(** The argument [{ selector: s }]. *)
Definition select (s : string) : obj := [("selector", VStr s)].


(** What [rows.sort(cmp)] would do: the array at [rows] itself is
    reordered. *)
Definition sortInPlace (rows : loc) (cmp : obj -> obj -> float) : M unit :=
  ls <- elements rows;;
  rs <- mapM object ls;;
  store_elements rows
    (List.map fst (JsArray.sort (fun a b => cmp (snd a) (snd b))
                                (combine ls rs))).

(** A model that asks for one tool call in every response, and a tool
    that always returns. *)
Definition oneCall : OpenAI.toolCall :=
  {| OpenAI.id := "call_1"; OpenAI.name := Some "get_value_counts";
     OpenAI.arguments := Some "{}" |}.
Definition constantTool (name : option string) (args : unit) : outcome nat :=
  Ok 0.

(** Component states: a CSV held for the session; channel JSON held. *)
Definition csvLoaded : Chat.context :=
  {| Chat.sessionCsvRows := true; Chat.csvContext := false;
     Chat.sessionJsonData := false; Chat.jsonContext := false;
     Chat.images := 0; Chat.streaming := false;
     Chat.activeSessionId := true |}.
Definition jsonLoaded : Chat.context :=
  {| Chat.sessionCsvRows := false; Chat.csvContext := false;
     Chat.sessionJsonData := true; Chat.jsonContext := true;
     Chat.images := 0; Chat.streaming := false;
     Chat.activeSessionId := true |}.

End Examples.

(* ================================================================== *)
(** * More example data *)
(* ================================================================== *)

Module Samples.
Import JsString JsNumber JsValue Store.

(** A line with a quoted field that holds a comma. *)
Definition quotedLine : string := ("a," ++ dq ++ "x,y" ++ dq ++ " ,b")%string.

(** A CSV text of three lines; the last row is short. *)
Definition csvText : string :=
  ("name,views" ++ String LF "A,10" ++ String LF "B")%string.

(** A tweet whose text holds a comma. *)
Definition tweet : obj :=
  [ ("Text", VStr "hello, world"); ("Tweet Id", VStr "17");
    ("View Count", VStr "250") ].
Definition tweetHeaders : list string := ["Text"; "Tweet Id"; "View Count"].

(** Rows with a language column. *)
Definition spoken : list obj :=
  [ [("lang", VStr "en")]; [("lang", VStr "fr")]; [("lang", VStr "en")];
    [("lang", VStr EmptyString)] ].

(** The arguments [{ column: c }], [{ sort_column: c }] and
    [{ metric_field: f }]. *)
Definition column (c : string) : obj := [("column", VStr c)].
Definition sortBy (c : string) : obj := [("sort_column", VStr c)].

(** Videos with and without a date and a number of views. *)
Definition dated : list obj :=
  [ [("published_at", VStr "2024-01-02"); ("view_count", VNum (ofNat 5))];
    [("view_count", VNum (ofNat 7))];
    [("release_date", VStr "2024-01-01"); ("view_count", VStr "many")] ].
Definition metric (f : string) : obj := [("metric_field", VStr f)].

(** A model that asks for one tool call and then answers. *)
Definition politeModel (round : nat) (ms : list OpenAI.message)
  : OpenAI.response :=
  match round with
  | O => OpenAI.Message {| OpenAI.content := None;
                           OpenAI.tool_calls := [Examples.oneCall] |}
  | _ => OpenAI.Message {| OpenAI.content := Some "done";
                           OpenAI.tool_calls := [] |}
  end.

(** An event stream cut in two ways. *)
Definition event (t : string) : string := ("data: " ++ t ++ String LF "")%string.
Definition cutA : list string := ["data: he"; ("llo" ++ String LF "data: ")%string;
                                  ("[DONE]" ++ String LF "data: late")%string].
Definition cutB : list string := [(event "hello" ++ event "[DONE]" ++ "data: late")%string].

(** Channel JSON and an image, with and without a CSV. *)
Definition everythingLoaded : Chat.context :=
  {| Chat.sessionCsvRows := true; Chat.csvContext := false;
     Chat.sessionJsonData := true; Chat.jsonContext := true;
     Chat.images := 1; Chat.streaming := false;
     Chat.activeSessionId := true |}.

(** A component that has just started, and the same after the three-line
    CSV was dropped on it. *)
Definition started : Session.state :=
  {| Session.activeSessionId := Some "new"; Session.input := EmptyString;
     Session.images := 0; Session.csvContext := None;
     Session.sessionCsvRows := None; Session.sessionCsvHeaders := None;
     Session.csvDataSummary := None; Session.sessionSlimCsv := None;
     Session.jsonContext := false; Session.sessionJsonData := None;
     Session.streaming := false |}.
Definition uploaded : Session.state :=
  Session.csvFileRead (fun raw => raw) "views.csv" csvText started.
(** The same once the message with the file has been sent. *)
Definition sent : Session.state :=
  {| Session.activeSessionId := Some "s1"; Session.input := EmptyString;
     Session.images := 0; Session.csvContext := None;
     Session.sessionCsvRows := Session.sessionCsvRows uploaded;
     Session.sessionCsvHeaders := Session.sessionCsvHeaders uploaded;
     Session.csvDataSummary := Session.csvDataSummary uploaded;
     Session.sessionSlimCsv := Session.sessionSlimCsv uploaded;
     Session.jsonContext := false; Session.sessionJsonData := None;
     Session.streaming := false |}.
(** A component that holds the three videos. *)
Definition watching : Session.state :=
  {| Session.activeSessionId := Some "s2"; Session.input := EmptyString;
     Session.images := 0; Session.csvContext := None;
     Session.sessionCsvRows := None; Session.sessionCsvHeaders := None;
     Session.csvDataSummary := None; Session.sessionSlimCsv := None;
     Session.jsonContext := true;
     Session.sessionJsonData := Some Examples.threeVideos;
     Session.streaming := false |}.

End Samples.

(* ================================================================== *)
(** * Proof automation *)
(* ================================================================== *)

(** One step of a sort on known keys: unfold an insertion, bring the keys
    in with [rw], and decide the comparison by computation. *)
Ltac decide_order rw :=
  cbn [JsArray.insert]; unfold JsArray.after; cbn [snd];
  rw;
  match goal with
  | |- context [if ?cond then _ else _] =>
      let v := eval vm_compute in cond in
      change cond with v; cbv iota
  end.

(** Two numbers differ when a comparison tells them apart. *)
Ltac floats_differ :=
  let E := fresh in
  intro E;
  match type of E with
  | ?a = ?b => apply (f_equal (fun x => PrimFloat.eqb x b)) in E
  end;
  vm_compute in E; discriminate E.

Create HintDb frames.

(** Walks through monadic code: [fresh], [bnd] and [each] are the frame
    lemmas for a created-then-written array, for sequencing and for a loop
    over a list; the leaves are closed from the [frames] hints, and a test
    is split into its cases. *)
Ltac frame_with fresh bnd each :=
  repeat first
    [ apply fresh
    | apply bnd; [|intros ?]
    | apply each; intros ?
    | solve [auto with frames]
    | match goal with
      | |- Store.frames (if ?c then _ else _) => destruct c
      | |- Store.frames (match ?x with _ => _ end) => destruct x
      end ].

(* ================================================================== *)
(** * Checks of the runtime model on known values *)
(* ================================================================== *)

Module Checks.
Import JsString JsNumber JsValue Regex CsvTools.

Example number_to_string :
  List.map JsNumber.toString
    [ parseFloat "0.1"; parseFloat "1e21"; parseFloat "1e-7";
      parseFloat "123456789012345680000"; parseFloat "5e-324";
      parseFloat "0.000001"; parseFloat "-12.50"; parseFloat "9007199254740993";
      (parseFloat "0.1" + parseFloat "0.2")%float; parseFloat "abc" ]
  = [ "0.1"; "1e+21"; "1e-7"; "123456789012345680000"; "5e-324"; "0.000001";
      "-12.5"; "9007199254740992"; "0.30000000000000004"; "NaN" ].
Proof. vm_compute. reflexivity. Qed.

Example parseFloat_prefix :
  List.map (fun s => JsNumber.toString (parseFloat s))
    [ "  42px"; ".5"; "5."; "-0"; "1e"; "Infinityx"; "."; "+.e1"; "1e400" ]
  = [ "42"; "0.5"; "5"; "0"; "1"; "Infinity"; "NaN"; "NaN"; "Infinity" ].
Proof. vm_compute. reflexivity. Qed.

Example string_to_number :
  List.map (fun s => JsNumber.toString (stringToNumber s))
    [ "  12  "; EmptyString; "0x1F"; "12px"; "1e3"; "-Infinity"; "0b101" ]
  = [ "12"; "0"; "31"; "NaN"; "1000"; "-Infinity"; "5" ].
Proof. vm_compute. reflexivity. Qed.

Example to_fixed :
  List.map (toFixed 2)
    [ parseFloat "1.005"; parseFloat "8.345"; parseFloat "10.235";
      parseFloat "-2.5"; parseFloat "1e21"; parseFloat "0" ]
  = [ "1.00"; "8.35"; "10.23"; "-2.50"; "1e+21"; "0.00" ].
Proof. vm_compute. reflexivity. Qed.

(** The median of [1, 2, 3, 4] is 2.5 and that of [1, 2, 3] is 2. *)
Example median_parity :
  median (List.map ofNat [1; 2; 3; 4]) = parseFloat "2.5"
  /\ median (List.map ofNat [1; 2; 3]) = ofNat 2.
Proof. split; vm_compute; reflexivity. Qed.

Example parseLine_quoted :
  parseLine ("a, b ," ++ dq ++ "x,y" ++ dq ++ ",d")%string
  = ["a"; "b"; "x,y"; "d"].
Proof. vm_compute. reflexivity. Qed.

Example norm_examples :
  List.map norm ["View Count"; "view_count"; " a-b_c  d"]
  = ["viewcount"; "viewcount"; "abcd"].
Proof. vm_compute. reflexivity. Qed.

(** Index-like keys come first, in numeric order. *)
Example keys_order :
  keys [("b", VNull); ("10", VNull); ("2", VNull); ("a", VNull); ("01", VNull)]
  = ["2"; "10"; "b"; "a"; "01"].
Proof. vm_compute. reflexivity. Qed.

(** [\b] after [distribut] keeps "distribution" from matching. *)
Example python_only_keywords :
  List.map (test true Chat.PYTHON_ONLY_KEYWORDS)
    [ "plot a histogram of views"; "Time-Series"; "box plot"; "regressions";
      "distribution"; "what is the average engagement" ]
  = [ true; true; true; false; false; false ].
Proof. vm_compute. reflexivity. Qed.

Example duration_examples :
  List.map (fun s => YoutubeTools.parseDuration (VStr s))
    [ "PT4M13S"; "PT1H"; "PT1H2M3S"; "PT"; "P1D"; EmptyString ]
  = [ Some (ofNat 253); Some (ofNat 3600); Some (ofNat 3723); Some zero;
      None; None ].
Proof. vm_compute. reflexivity. Qed.

End Checks.

(* ================================================================== *)
(** * Facts about strings, objects and the store *)
(* ================================================================== *)

Module StringFacts.
Import JsString.

Lemma trimEnd_empty (s : string) : isEmpty (trimEnd s) = allWhite s.
Proof.
  induction s as [|c s IH]; simpl; [reflexivity|].
  rewrite <- IH.
  destruct (isWhiteSpace c); simpl; [|reflexivity].
  destruct (isEmpty (trimEnd s)); reflexivity.
Qed.

Lemma allWhite_trimStart (s : string) : allWhite (trimStart s) = allWhite s.
Proof.
  induction s as [|c s IH]; simpl; [reflexivity|].
  destruct (isWhiteSpace c) eqn:E; simpl; [exact IH|].
  now rewrite E.
Qed.

(** [trim] leaves nothing exactly when the string is blank. *)
Lemma trim_empty (s : string) : isEmpty (trim s) = allWhite s.
Proof. unfold trim. now rewrite trimEnd_empty, allWhite_trimStart. Qed.



End StringFacts.

Module ObjectFacts.
Import JsValue.

Lemma own_put_same (o : obj) (k : string) (v : value) :
  own (put o k v) k = Some v.
Proof.
  induction o as [|[k' v'] o IH]; simpl.
  - now rewrite String.eqb_refl.
  - destruct (String.eqb k' k) eqn:E; simpl; rewrite E; [reflexivity|exact IH].
Qed.

Lemma own_put_other (o : obj) (k k' : string) (v : value) :
  k' <> k -> own (put o k v) k' = own o k'.
Proof.
  intros Hne.
  induction o as [|[k0 v0] o IH]; simpl.
  - destruct (String.eqb_spec k k'); [congruence|reflexivity].
  - destruct (String.eqb_spec k0 k) as [->|Hk]; simpl.
    + destruct (String.eqb_spec k k'); [congruence|reflexivity].
    + now rewrite IH.
Qed.

(** A defined property reads back, and the others are untouched. *)
Lemma get_define_same (o : obj) (k : string) (v : value) :
  get (define o k v) k = v.
Proof. unfold get, define. now rewrite own_put_same. Qed.

Lemma get_define_other (o : obj) (k k' : string) (v : value) :
  k' <> k -> get (define o k v) k' = get o k'.
Proof. intros H. unfold get, define. now rewrite own_put_other. Qed.

End ObjectFacts.

Module StoreFacts.
Import JsValue Store.

Lemma read_lt (st : store) (l : loc) (c : cell) :
  read st l = Some c -> l < List.length st.
Proof. intros H. apply nth_error_Some. unfold read in H. congruence. Qed.

Lemma read_app_old (st ext : store) (l : loc) :
  l < List.length st -> read (st ++ ext) l = read st l.
Proof. intros H. unfold read. now apply nth_error_app1. Qed.

Lemma read_write_other (st : store) (l l' : loc) (c : cell) :
  l <> l' -> read (write st l' c) l = read st l.
Proof.
  revert l l'. induction st as [|c0 st IH]; intros l l' Hne; [now destruct l'|].
  destruct l' as [|l'], l as [|l]; cbn; try reflexivity; try contradiction.
  apply IH. congruence.
Qed.

Lemma write_app_length (st : store) (c c' : cell) :
  write (st ++ [c]) (List.length st) c' = st ++ [c'].
Proof. induction st as [|c0 st IH]; cbn; [reflexivity|now rewrite IH]. Qed.

Lemma mapM_object_holds (st : store) (ls : list loc) (os : list obj) :
  Forall2 (fun l o => read st l = Some (CObj o)) ls os ->
  mapM object ls st = (Ok os, st).
Proof.
  induction 1 as [|l o ls os Hl _ IH]; [reflexivity|].
  cbn [mapM]. unfold bind at 1. unfold object at 1. rewrite Hl.
  unfold bind at 1. now rewrite IH.
Qed.

Lemma objects_holds (st : store) (l : loc) (os : list obj) :
  holds st l os -> objects l st = (Ok os, st).
Proof.
  intros (ls & Hl & Hall). unfold objects, bind, elements.
  rewrite Hl. now apply mapM_object_holds.
Qed.

Lemma holds_storeOf (os : list obj) : holds (storeOf os) (arrayOf os) os.
Proof.
  exists (seq 0 (List.length os)). unfold storeOf, arrayOf, read. split.
  - rewrite nth_error_app2; rewrite length_map; [|lia].
    now rewrite Nat.sub_diag.
  - assert (H : forall (pre : list cell) (last : cell),
               Forall2 (fun l o => nth_error (pre ++ List.map CObj os ++ [last]) l
                                   = Some (CObj o))
                       (seq (List.length pre) (List.length os)) os).
    { induction os as [|o os IH]; intros pre last;
        cbn [seq List.length List.map]; constructor.
      - rewrite nth_error_app2 by lia. now rewrite Nat.sub_diag.
      - specialize (IH (pre ++ [CObj o]) last).
        rewrite length_app, <- app_assoc in IH. cbn [List.length app] in IH.
        now rewrite Nat.add_1_r in IH. }
    exact (H [] _).
Qed.

Lemma extends_refl (st : store) : extends st st.
Proof. exists []. now rewrite app_nil_r. Qed.

Lemma extends_trans (st1 st2 st3 : store) :
  extends st1 st2 -> extends st2 st3 -> extends st1 st3.
Proof. intros [f1 ->] [f2 ->]. exists (f1 ++ f2). now rewrite app_assoc. Qed.

(** An extension keeps what was there. *)
Lemma extends_read (st st' : store) (l : loc) (c : cell) :
  extends st st' -> read st l = Some c -> read st' l = Some c.
Proof.
  intros [fresh ->] H. rewrite read_app_old; [assumption|].
  now apply read_lt with c.
Qed.

Lemma frames_ret {A} (a : A) : frames (ret a).
Proof. intros st. apply extends_refl. Qed.

Lemma frames_throw {A} (e : string) : frames (@throw A e).
Proof. intros st. apply extends_refl. Qed.

Lemma frames_bind {A B} (m : M A) (f : A -> M B) :
  frames m -> (forall a, frames (f a)) -> frames (bind m f).
Proof.
  intros Hm Hf st. unfold bind. specialize (Hm st).
  destruct (m st) as [[a|e] st']; cbn [snd] in *; [|assumption].
  eapply extends_trans; [eassumption|apply Hf].
Qed.

Lemma frames_elements (l : loc) : frames (elements l).
Proof.
  intros st. unfold elements.
  destruct (read st l) as [[ls|o]|]; apply extends_refl.
Qed.

Lemma frames_object (l : loc) : frames (object l).
Proof.
  intros st. unfold object.
  destruct (read st l) as [[ls|o]|]; apply extends_refl.
Qed.

Lemma frames_mapM {A B} (f : A -> M B) (xs : list A) :
  (forall x, frames (f x)) -> frames (mapM f xs).
Proof.
  intros Hf. induction xs as [|x xs IH]; cbn [mapM]; [apply frames_ret|].
  apply frames_bind; [apply Hf|]. intros y.
  apply frames_bind; [apply IH|]. intros ys. apply frames_ret.
Qed.

(** A new array that is then overwritten: the one in-place write of the
    sources, and it lands in the cell just created. *)
Lemma frames_fresh_array {A} (ls ls' : list loc) (k : M A) :
  frames k ->
  frames (bind (alloc (CArr ls))
               (fun copy => bind (store_elements copy ls') (fun _ => k))).
Proof.
  intros Hk st. unfold bind, alloc, store_elements.
  rewrite write_app_length.
  eapply extends_trans; [|apply Hk]. now exists [CArr ls'].
Qed.

Lemma frames_objects (l : loc) : frames (objects l).
Proof.
  unfold objects. apply frames_bind; [apply frames_elements|].
  intros ls. apply frames_mapM, frames_object.
Qed.

End StoreFacts.

#[export] Hint Resolve StoreFacts.frames_ret StoreFacts.frames_throw
  StoreFacts.frames_elements StoreFacts.frames_object StoreFacts.frames_objects
  : frames.

(* ================================================================== *)
(** * csvTools.js: parser, statistics and engagement *)
(* ================================================================== *)

Module CsvSpec.
Import JsString JsNumber JsValue Regex Store CsvTools.
Import StringFacts ObjectFacts StoreFacts Examples.

(** C6.  A text with fewer than two non-blank lines (lines are separated
    by a line feed; a line is blank when it is white space only) parses to
    the empty result [{ headers: [], rows: [] }].  [parseCsvToRows] is a
    total function: there is no input on which it throws. *)
Theorem parseCsvToRows_few_lines (text : string) :
  List.length (filter (fun l => negb (allWhite l)) (split LF text)) < 2 ->
  parseCsvToRows text = {| headers := []; rows := [] |}.
Proof.
  intros H. unfold parseCsvToRows.
  replace (filter nonBlank (split LF text))
    with (filter (fun l => negb (allWhite l)) (split LF text)).
  - apply Nat.ltb_lt in H. now rewrite H.
  - apply filter_ext. intros l. unfold nonBlank. now rewrite trim_empty.
Qed.

(** A header line alone gives the empty result. *)
Lemma parseCsvToRows_few_lines_witness :
  parseCsvToRows "name,views" = {| headers := []; rows := [] |}.
Proof. apply parseCsvToRows_few_lines. vm_compute. lia. Defined.

Lemma mem_app_last (k : string) (hs : list string) : mem k (hs ++ [k]) = true.
Proof.
  unfold mem. rewrite existsb_app. simpl. rewrite String.eqb_refl.
  now rewrite orb_true_r.
Qed.

(** The enrichment does nothing once the column is there. *)
Lemma enrichWithEngagement_present (d : dataset) :
  mem "engagement" (headers d) = true -> enrichWithEngagement d = d.
Proof.
  intros H. unfold enrichWithEngagement. rewrite H.
  destruct (rows d); [reflexivity|].
  now destruct (missing (favColumn (headers d))
                || missing (viewColumn (headers d))).
Qed.

(** The enrichment either changes nothing or adds the column. *)
Lemma enrichWithEngagement_cases (d : dataset) :
  enrichWithEngagement d = d
  \/ mem "engagement" (headers (enrichWithEngagement d)) = true.
Proof.
  destruct d as [hs rs]. unfold enrichWithEngagement. cbn [rows headers].
  destruct rs as [|r rs]; [now left|].
  destruct (missing (favColumn hs) || missing (viewColumn hs)); [now left|].
  destruct (mem "engagement" hs); [now left|].
  right. cbn [headers]. apply mem_app_last.
Qed.

(** C5.  Enriching twice gives the same rows and the same headers as
    enriching once. *)
Theorem enrichWithEngagement_idempotent (d : dataset) :
  enrichWithEngagement (enrichWithEngagement d) = enrichWithEngagement d.
Proof.
  destruct (enrichWithEngagement_cases d) as [Hsame|Hadded].
  - now rewrite !Hsame.
  - now apply enrichWithEngagement_present.
Qed.






(** When the headers change, both columns were found and every row was
    enriched. *)
Lemma enriched_inv (d : dataset) :
  headers (enrichWithEngagement d) <> headers d ->
  exists fav view,
    favColumn (headers d) = Some fav /\ viewColumn (headers d) = Some view
    /\ rows (enrichWithEngagement d) = List.map (enrichRow fav view) (rows d).
Proof.
  destruct d as [hs rs]. unfold enrichWithEngagement. cbn [rows headers].
  destruct rs as [|r rs]; [now intros []|].
  destruct (favColumn hs) as [fav|]; cbn [missing orb]; [|now intros []].
  destruct (isEmpty fav); cbn [orb]; [now intros []|].
  destruct (viewColumn hs) as [view|]; cbn [missing]; [|now intros []].
  destruct (isEmpty view); [now intros []|].
  destruct (mem "engagement" hs); [now intros []|].
  intros _. now exists fav, view.
Qed.

(** C4, as the code has it.  In a dataset that gained its engagement column,
    every row [r'] comes from a row [r] of the input with all other fields
    unchanged, and its [engagement] is the quotient of the favorite count by
    the view count, rounded to six decimals, when both parse as numbers and
    the view count is greater than zero; it is [null] otherwise. *)
Theorem engagement_of_enriched_row (d : dataset) (r' : obj) :
  headers (enrichWithEngagement d) <> headers d ->
  In r' (rows (enrichWithEngagement d)) ->
  exists r fav view,
    In r (rows d)
    /\ favColumn (headers d) = Some fav
    /\ viewColumn (headers d) = Some view
    /\ (forall k, k <> "engagement" -> get r' k = get r k)
    /\ let f := parseFloatV (get r fav) in
       let v := parseFloatV (get r view) in
       get r' "engagement"
       = if negb (isNaN f) && negb (isNaN v) && PrimFloat.ltb zero v
         then VNum (stringToNumber (toFixed 6 (f / v)%float))
         else VNull.
Proof.
  intros Hd Hin.
  destruct (enriched_inv d Hd) as (fav & view & Hfav & Hview & Hrows).
  rewrite Hrows in Hin. apply in_map_iff in Hin as (r & <- & Hr).
  exists r, fav, view. repeat split; try assumption.
  - intros k Hk. unfold enrichRow. now apply get_define_other.
  - unfold enrichRow. now rewrite get_define_same.
Qed.

(** The second example tweet: 1 favorite for 3 views gives 0.333333. *)
Lemma engagement_of_enriched_row_witness :
  exists r fav view,
    In r (rows tweets)
    /\ favColumn (headers tweets) = Some fav
    /\ viewColumn (headers tweets) = Some view
    /\ (forall k, k <> "engagement" -> get thirdEnriched k = get r k)
    /\ let f := parseFloatV (get r fav) in
       let v := parseFloatV (get r view) in
       get thirdEnriched "engagement"
       = if negb (isNaN f) && negb (isNaN v) && PrimFloat.ltb zero v
         then VNum (stringToNumber (toFixed 6 (f / v)%float))
         else VNull.
Proof.
  apply (@engagement_of_enriched_row tweets thirdEnriched).
  - vm_compute. discriminate.
  - vm_compute. right. left. reflexivity.
Defined.

(** C4 as stated fails.  A favorite count of 0 is not a positive number,
    yet the engagement of that row is the number 0, not [null]; and for 1
    favorite and 3 views the engagement is 0.333333, not the quotient. *)
Lemma engagement_zero_favorites_not_null :
  rows (enrichWithEngagement tweets)
  = [ [("Favorite Count", VStr "0"); ("View Count", VStr "10");
       ("engagement", VNum zero)];
      thirdEnriched ]
  /\ PrimFloat.ltb zero (parseFloat "0") = false
  /\ VNum zero <> VNull
  /\ parseFloat "0.333333" <> (parseFloat "1" / parseFloat "3")%float.
Proof.
  split; [vm_compute; reflexivity|].
  split; [vm_compute; reflexivity|].
  split; [discriminate|].
  floats_differ.
Qed.

End CsvSpec.

(* ================================================================== *)
(** * youtubeTools.js: durations, selectors and the no-data guard *)
(* ================================================================== *)

Module YoutubeSpec.
Import JsString JsNumber JsValue Regex Store YoutubeTools.
Import StringFacts StoreFacts Examples.

(** ** The duration pattern *)

Lemma rmatch_seq (ic : bool) (r1 r2 : regex) (st : pos) :
  rmatch ic (Seq r1 r2) st = flat_map (rmatch ic r2) (rmatch ic r1 st).
Proof. now destruct st as [[prev s] caps]. Qed.


Lemma rmatch_PT_some (prev : option ascii) (t : string) (caps : captures) :
  rmatch false (lit "PT") (prev, String "P" (String "T" t), caps)
  = [(Some "T"%char, t, caps)].
Proof. reflexivity. Qed.

(** An optional part never makes a match fail. *)
Lemma rmatch_opt_nonempty (r : regex) (st : pos) : rmatch false (Opt r) st <> [].
Proof.
  destruct st as [[prev s] caps]. cbn [rmatch].
  intros H. now apply app_eq_nil in H as [_ H].
Qed.

Lemma flat_map_nonempty {A B} (f : A -> list B) (xs : list A) (x : A) :
  f x <> [] -> flat_map f (xs ++ [x]) <> [].
Proof.
  intros Hx H. rewrite flat_map_app in H. apply app_eq_nil in H as [_ H].
  cbn in H. rewrite app_nil_r in H. contradiction.
Qed.

Lemma rmatch_opt_seq_nonempty (r r' : regex) (st : pos) :
  (forall st', rmatch false r' st' <> []) ->
  rmatch false (Seq (Opt r) r') st <> [].
Proof.
  intros H. destruct st as [[prev s] caps]. cbn [rmatch].
  apply flat_map_nonempty. apply H.
Qed.






(** What is not a string has no duration. *)
Lemma parseDuration_non_string (v : value) :
  (forall s, v <> VStr s) -> parseDuration v = None.
Proof. destruct v; try reflexivity. intros H. now destruct (H s). Qed.





(** ** play_video *)

Section Play.
Variable Img : Type.
Variable st : store.
Variables a b c : obj.
Hypothesis viewsA : get a "view_count" = VNum (ofNat 10).
Hypothesis viewsB : get b "view_count" = VNum (ofNat 30).
Hypothesis viewsC : get c "view_count" = VNum (ofNat 20).

Lemma play_most_viewed (ls : list loc) :
  @play_video Img (select "most viewed") ls
  = bind (firstOfSortedCopy ls mostViewedFirst)
         (fun video => @answer Img video (VStr "most viewed")).
Proof. reflexivity. Qed.

Lemma play_first (ls : list loc) :
  @play_video Img (select "first") ls = @answer Img (nth_error ls 0) (VStr "first").
Proof. reflexivity. Qed.

Lemma play_fourth (ls : list loc) :
  @play_video Img (select "4") ls = @answer Img (nth_error ls 3) (VStr "4").
Proof. reflexivity. Qed.

Lemma views_a : views a = ofNat 10.
Proof. unfold views. rewrite viewsA. reflexivity. Qed.
Lemma views_b : views b = ofNat 30.
Proof. unfold views. rewrite viewsB. reflexivity. Qed.
Lemma views_c : views c = ofNat 20.
Proof. unfold views. rewrite viewsC. reflexivity. Qed.

(** Sorted by views, most viewed first: B, C, A. *)
Lemma sort_most_viewed (l0 l1 l2 : loc) :
  JsArray.sort (fun p q : loc * obj => mostViewedFirst (snd p) (snd q))
               [(l0, a); (l1, b); (l2, c)]
  = [(l1, b); (l2, c); (l0, a)].
Proof.
  unfold JsArray.sort, mostViewedFirst. cbn [fold_right].
  repeat decide_order ltac:(rewrite ?views_a, ?views_b, ?views_c).
  reflexivity.
Qed.

Lemma first_of_sorted (l0 l1 l2 : loc) (cmp : obj -> obj -> float)
      (sorted : list (loc * obj)) :
  read st l0 = Some (CObj a) -> read st l1 = Some (CObj b) ->
  read st l2 = Some (CObj c) ->
  JsArray.sort (fun p q => cmp (snd p) (snd q)) [(l0, a); (l1, b); (l2, c)]
  = sorted ->
  firstOfSortedCopy [l0; l1; l2] cmp st
  = (Ok (hd_error (List.map fst sorted)),
     write (st ++ [CArr [l0; l1; l2]]) (List.length st)
           (CArr (List.map fst sorted))).
Proof.
  intros H0 H1 H2 Hsort.
  unfold firstOfSortedCopy, bind.
  rewrite (@mapM_object_holds st [l0; l1; l2] [a; b; c])
    by (repeat constructor; assumption).
  unfold alloc. cbn [combine]. rewrite Hsort. reflexivity.
Qed.

Lemma card_title (v : obj) (t : string) :
  get v "title" = VStr t -> isEmpty t = false ->
  exists thumb url id, @card Img v = PlayVideo (VStr t) thumb url id.
Proof.
  intros Ht Hne. unfold card. rewrite Ht.
  replace (or_ (VStr t) (VStr "Video")) with (VStr t)
    by (unfold or_; cbn [truthy]; now rewrite Hne).
  eauto.
Qed.

End Play.

(** C8.  For a channel of exactly three videos titled A, B and C with view
    counts 10, 30 and 20 (whatever their other fields, the image generator
    and the reading of dates), [play_video] answers the selector "most
    viewed" with the card of the video titled B, the selector "first" with
    the card of the one titled A, and the selector "4" with the error
    [No video found for "4"]. *)
Theorem play_video_selectors
        (Img : Type) (generateImageFn : option (value -> value -> Img))
        (dateValue : value -> float) (anchorImage : value)
        (st : store) (videos : loc) (a b c : obj) :
  holds st videos [a; b; c] ->
  get a "title" = VStr "A" -> get a "view_count" = VNum (ofNat 10) ->
  get b "title" = VStr "B" -> get b "view_count" = VNum (ofNat 30) ->
  get c "title" = VStr "C" -> get c "view_count" = VNum (ofNat 20) ->
  let run s :=
    fst (executeYoutubeTool generateImageFn dateValue "play_video" (select s)
                            (Channel (Some videos)) anchorImage st) in
  (exists thumb url id,
      run "most viewed" = Ok (PlayVideo (VStr "B") thumb url id))
  /\ (exists thumb url id,
         run "first" = Ok (PlayVideo (VStr "A") thumb url id))
  /\ run "4" = Ok (Error ("No video found for " ++ dq ++ "4" ++ dq)%string).
Proof.
  intros Hvideos titleA viewsA titleB viewsB titleC viewsC run.
  destruct Hvideos as (ls & Hrows & Hall).
  inversion Hall as [|l0 ? ls0 ? H0 Hall0]; subst.
  inversion Hall0 as [|l1 ? ls1 ? H1 Hall1]; subst.
  inversion Hall1 as [|l2 ? ls2 ? H2 Hall2]; subst.
  inversion Hall2; subst.
  assert (Hrun : forall s,
             run s = fst (@play_video Img (select s) [l0; l1; l2] st)).
  { intros s. unfold run, executeYoutubeTool, bind, videosOf, elements.
    rewrite Hrows. reflexivity. }
  repeat split.
  - destruct (@card_title Img b "B" titleB eq_refl) as (thumb & url & id & Hcard).
    exists thumb, url, id. rewrite Hrun, play_most_viewed. unfold bind.
    rewrite (@first_of_sorted st a b c l0 l1 l2 mostViewedFirst _ H0 H1 H2
               (@sort_most_viewed a b c viewsA viewsB viewsC l0 l1 l2)).
    cbn [List.map fst hd_error answer]. unfold bind, object.
    pose proof (@read_lt _ _ _ H1) as Hlt.
    rewrite read_write_other, read_app_old, H1 by lia.
    cbn [fst ret]. now rewrite <- Hcard.
  - destruct (@card_title Img a "A" titleA eq_refl) as (thumb & url & id & Hcard).
    exists thumb, url, id. rewrite Hrun, play_first. cbn [nth_error answer].
    unfold bind, object. rewrite H0. cbn [fst ret]. now rewrite <- Hcard.
  - rewrite Hrun, play_fourth. reflexivity.
Qed.

(** The three example videos, with no generator and no dates. *)
Lemma play_video_selectors_witness :
  let run s :=
    fst (@executeYoutubeTool unit None (fun _ => zero) "play_video" (select s)
           (Channel (Some (arrayOf threeVideos))) VUndef (storeOf threeVideos)) in
  (exists thumb url id,
      run "most viewed" = Ok (PlayVideo (VStr "B") thumb url id))
  /\ (exists thumb url id,
         run "first" = Ok (PlayVideo (VStr "A") thumb url id))
  /\ run "4" = Ok (Error ("No video found for " ++ dq ++ "4" ++ dq)%string).
Proof.
  apply (@play_video_selectors unit None (fun _ => zero) VUndef
           (storeOf threeVideos) (arrayOf threeVideos)
           (video "A" 10) (video "B" 30) (video "C" 20));
    try reflexivity.
  apply (holds_storeOf threeVideos).
Defined.

(** ** The no-data guard *)

Lemma noVideos_videosOf (st : store) (channelData : channel) :
  noVideos st channelData -> videosOf channelData st = (Ok [], st).
Proof.
  intros [->|[->|(l & -> & Hl)]]; try reflexivity.
  unfold videosOf, elements. now rewrite Hl.
Qed.

(** C9.  With no videos loaded, every tool name other than [generateImage]
    is answered by the no-data guard with its [{ error }] result, and
    [generateImage] is not: it hands the prompt and the anchor image to the
    generator (and reports a missing generator with a different error).  The
    store is left as it was. *)
Theorem no_data_guard
        (Img : Type) (generateImageFn : option (value -> value -> Img))
        (dateValue : value -> float) (toolName : string) (args : obj)
        (channelData : channel) (anchorImage : value) (st : store) :
  noVideos st channelData ->
  (toolName <> "generateImage" ->
   executeYoutubeTool generateImageFn dateValue toolName args channelData
                      anchorImage st
   = (Ok (Error noData), st))
  /\ executeYoutubeTool generateImageFn dateValue "generateImage" args
                        channelData anchorImage st
     = (Ok match generateImageFn with
           | Some f => Generated (f (get args "prompt") anchorImage)
           | None => Error "Image generation not available"
           end, st).
Proof.
  intros Hno. apply noVideos_videosOf in Hno.
  unfold executeYoutubeTool, bind. rewrite Hno. cbn [JsArray.isEmpty andb].
  split.
  - intros Hname. apply String.eqb_neq in Hname. now rewrite Hname.
  - change (String.eqb "generateImage" "generateImage") with true.
    cbn [negb]. now destruct generateImageFn.
Qed.

(** Without channel data, [play_video] is refused and an image is made. *)
Lemma no_data_guard_witness :
  @executeYoutubeTool nat (Some (fun _ _ => 0)) (fun _ => zero) "play_video"
     (select "first") NoChannel VUndef []
  = (Ok (Error noData), [])
  /\ @executeYoutubeTool nat (Some (fun _ _ => 0)) (fun _ => zero)
       "generateImage" [("prompt", VStr "a cat")] NoChannel VUndef []
     = (Ok (Generated 0), []).
Proof.
  split.
  - apply (@no_data_guard nat (Some (fun _ _ => 0)) (fun _ => zero)
             "play_video" (select "first") NoChannel VUndef []).
    + left. reflexivity.
    + discriminate.
  - apply (@no_data_guard nat (Some (fun _ _ => 0)) (fun _ => zero)
             "play_video" [("prompt", VStr "a cat")] NoChannel VUndef []).
    left. reflexivity.
Defined.

End YoutubeSpec.

(* ================================================================== *)
(** * The tool executors do not touch their data *)
(* ================================================================== *)

Module FrameSpec.
Import JsString JsNumber JsValue Store StoreFacts Examples.

Lemma frames_sortedCopy (rows : loc) (cmp : obj -> obj -> float) :
  frames (CsvTools.sortedCopy rows cmp).
Proof. unfold CsvTools.sortedCopy. frame_with @frames_fresh_array @frames_bind @frames_mapM. Qed.

Lemma frames_executeTool (toolName : string) (args : obj) (rows : loc) :
  frames (CsvTools.executeTool toolName args rows).
Proof.
  pose proof frames_sortedCopy.
  unfold CsvTools.executeTool, CsvTools.firstKeys,
    CsvTools.compute_column_stats, CsvTools.get_value_counts,
    CsvTools.get_top_tweets, CsvTools.lift.
  frame_with @frames_fresh_array @frames_bind @frames_mapM.
Qed.

Section Youtube.
Import YoutubeTools.
Variable Img : Type.
Variable generateImageFn : option (value -> value -> Img).
Variable dateValue : value -> float.

Lemma frames_findByTitle (sel : string) (ls : list loc) :
  frames (findByTitle sel ls).
Proof. induction ls as [|l ls IH]; cbn [findByTitle]; frame_with @frames_fresh_array @frames_bind @frames_mapM. Qed.

Lemma frames_firstOfSortedCopy (ls : list loc) (cmp : obj -> obj -> float) :
  frames (firstOfSortedCopy ls cmp).
Proof. unfold firstOfSortedCopy. frame_with @frames_fresh_array @frames_bind @frames_mapM. Qed.

Lemma frames_play_video (args : obj) (ls : list loc) :
  frames (@play_video Img args ls).
Proof.
  pose proof frames_findByTitle. pose proof frames_firstOfSortedCopy.
  unfold play_video, answer. frame_with @frames_fresh_array @frames_bind @frames_mapM.
Qed.

Lemma frames_executeYoutubeTool (toolName : string) (args : obj)
      (channelData : channel) (anchorImage : value) :
  frames (executeYoutubeTool generateImageFn dateValue toolName args
                             channelData anchorImage).
Proof.
  pose proof frames_play_video.
  unfold executeYoutubeTool, videosOf. frame_with @frames_fresh_array @frames_bind @frames_mapM.
Qed.

End Youtube.

(** C10.  Whatever the tool name and the arguments, and whatever the
    outcome, the store after [executeTool] or [executeYoutubeTool] is the
    store before it followed by new cells: the array of rows or of videos,
    every row or video and each of its fields are as they were.  The sorts
    of [get_top_tweets], "most viewed" and "least viewed" write to an array
    created for the purpose. *)
Theorem executors_leave_store_cells_unchanged :
  (forall toolName args rows st,
      exists fresh,
        snd (CsvTools.executeTool toolName args rows st) = st ++ fresh)
  /\ (forall Img generateImageFn dateValue toolName args channelData
             anchorImage st,
        exists fresh,
          snd (@YoutubeTools.executeYoutubeTool Img generateImageFn dateValue
                 toolName args channelData anchorImage st) = st ++ fresh).
Proof.
  split.
  - intros. apply frames_executeTool.
  - intros. apply frames_executeYoutubeTool.
Qed.

(** Every cell that could be read before a tool ran reads the same after. *)
Lemma executeTool_preserves_reads
      (toolName : string) (args : obj) (rows : loc) (st : store)
      (l : loc) (c : cell) :
  read st l = Some c ->
  read (snd (CsvTools.executeTool toolName args rows st)) l = Some c.
Proof. apply extends_read, frames_executeTool. Qed.

(** The rows a tool was given are still held, unchanged, after it ran. *)
Lemma executeTool_keeps_rows
      (toolName : string) (args : obj) (rows : loc) (st : store)
      (rs : list obj) :
  holds st rows rs ->
  holds (snd (CsvTools.executeTool toolName args rows st)) rows rs.
Proof.
  intros (ls & Hrows & Hall).
  pose proof (frames_executeTool toolName args rows st) as Hext.
  exists ls. split; [eapply extends_read; eassumption|].
  clear Hrows. induction Hall; constructor; try assumption.
  eapply extends_read; eassumption.
Qed.

(** [get_top_tweets] sorts a copy: the one new cell is the sorted array,
    the array of the rows keeps its order. *)
Example get_top_tweets_sorts_a_copy :
  snd (CsvTools.executeTool "get_top_tweets" [("sort_column", VStr "view_count")]
                            (arrayOf threeVideos) (storeOf threeVideos))
  = storeOf threeVideos ++ [CArr [1; 2; 0]].
Proof. vm_compute. reflexivity. Qed.

(** By contrast a sort of the array itself is seen in the store: the cell
    of the array changes. *)
Example sortInPlace_reorders :
  read (snd (sortInPlace (arrayOf threeVideos) YoutubeTools.mostViewedFirst
                         (storeOf threeVideos)))
       (arrayOf threeVideos)
  = Some (CArr [1; 2; 0])
  /\ read (storeOf threeVideos) (arrayOf threeVideos) = Some (CArr [0; 1; 2]).
Proof. split; vm_compute; reflexivity. Qed.

End FrameSpec.

(* ================================================================== *)
(** * openai.js: the loop is bounded at five rounds *)
(* ================================================================== *)

Module OpenAISpec.
Import Store OpenAI Examples.

Section Bound.
Variables Args Result : Type.
Variable parse : string -> option Args.
Variable noArgs : Args.
Variable isChart : Result -> bool.
Variable forApi : Result -> string.
Variable complete : nat -> list message -> response.
Variable executeFn : option string -> Args -> outcome Result.

(** Every response of the model asks for at least one tool call. *)
Hypothesis always_calls :
  forall round ms, exists msg,
    complete round ms = Message msg /\ tool_calls msg <> [].
(** Every tool call returns. *)
Hypothesis tools_return :
  forall name args, exists r, executeFn name args = Ok r.




End Bound.



(** A response without tool calls ends the turn with its text. *)
Lemma toolLoop_converges
      (Args Result : Type) (parse : string -> option Args) (noArgs : Args)
      (isChart : Result -> bool) (forApi : Result -> string)
      (complete : nat -> list message -> response)
      (executeFn : option string -> Args -> outcome Result)
      (baseMessages : list message) (t : option string) :
  complete 0 baseMessages = Message {| content := t; tool_calls := [] |} ->
  toolLoop parse noArgs isChart forApi complete executeFn baseMessages
  = Ok {| how := Converged; rounds := 0;
          value := {| text := textOf t; charts := []; toolCalls := [] |} |}.
Proof. intros H. unfold toolLoop. cbn [loop messages]. now rewrite H. Qed.

(** A tool that throws in the first round makes the whole call throw. *)
Lemma toolLoop_tool_throws
      (Args Result : Type) (parse : string -> option Args) (noArgs : Args)
      (isChart : Result -> bool) (forApi : Result -> string)
      (complete : nat -> list message -> response)
      (executeFn : option string -> Args -> outcome Result)
      (baseMessages : list message) (t : option string) (tc : toolCall)
      (rest : list toolCall) (e : string) :
  complete 0 baseMessages = Message {| content := t; tool_calls := tc :: rest |} ->
  executeFn (name tc) (argsOf parse noArgs tc) = Throw e ->
  toolLoop parse noArgs isChart forApi complete executeFn baseMessages = Throw e.
Proof.
  intros Hmsg Hthrow. unfold toolLoop. cbn [loop messages]. rewrite Hmsg.
  cbn [tool_calls runCalls]. now rewrite Hthrow.
Qed.

End OpenAISpec.

(* ================================================================== *)
(** * Chat.js: where a Python-only request goes *)
(* ================================================================== *)

Module ChatSpec.
Import JsString Regex Chat Examples.

Lemma python_only_route (text : string) (c : context) :
  test true PYTHON_ONLY_KEYWORDS text = true ->
  useCodeExecution (route text c) = true
  /\ useTools (route text c) = false
  /\ branch (route text c)
     = if (sessionJsonData c || (0 <? images c)) && negb (sessionCsvRows c)
       then YoutubeToolsMode else StreamingMode true.
Proof.
  intros H. unfold branch, route. cbn [useCodeExecution useTools useYoutubeTools].
  rewrite H. cbn [negb orb andb]. rewrite andb_false_r. cbn [andb].
  repeat split.
Qed.

(** C1, as the code has it.  For every input whose trimmed text matches the
    Python-only keywords (sent while no reply is streaming and a session is
    active), the code-execution flag is set and the CSV tools are not used;
    the message is answered by the streaming path with code execution,
    unless channel JSON is held or an image is attached while no CSV is
    held, in which case it is answered by the YouTube tools.  In particular
    it is answered with code execution whenever a CSV is held. *)
Theorem python_only_routing (input : string) (c : context) :
  test true PYTHON_ONLY_KEYWORDS (trim input) = true ->
  streaming c = false ->
  activeSessionId c = true ->
  handleSend input c
  = Some (if (sessionJsonData c || (0 <? images c)) && negb (sessionCsvRows c)
          then YoutubeToolsMode else StreamingMode true)
  /\ useCodeExecution (route (trim input) c) = true
  /\ useTools (route (trim input) c) = false
  /\ (sessionCsvRows c = true -> handleSend input c = Some (StreamingMode true)).
Proof.
  intros Hmatch Hstream Hactive.
  destruct (python_only_route (trim input) c Hmatch) as (Hcode & Htools & Hbranch).
  assert (Hsend : handleSend input c = Some (branch (route (trim input) c))).
  { unfold handleSend. rewrite Hstream, Hactive.
    destruct (trim input) eqn:E; [discriminate Hmatch|reflexivity]. }
  rewrite Hsend, Hbranch. repeat split; try assumption.
  intros Hcsv. rewrite Hcsv. now rewrite andb_false_r.
Qed.

(** "plot a histogram of views" with a CSV held: code execution. *)
Lemma python_only_routing_witness :
  handleSend "plot a histogram of views" csvLoaded = Some (StreamingMode true)
  /\ useCodeExecution (route (trim "plot a histogram of views") csvLoaded) = true
  /\ useTools (route (trim "plot a histogram of views") csvLoaded) = false
  /\ (sessionCsvRows csvLoaded = true ->
      handleSend "plot a histogram of views" csvLoaded
      = Some (StreamingMode true)).
Proof.
  apply (@python_only_routing "plot a histogram of views" csvLoaded);
    vm_compute; reflexivity.
Defined.

(** C1 as stated fails: the same text, which matches the Python-only
    keywords, is answered by the YouTube tools when channel JSON is held
    and no CSV is. *)
Lemma python_only_with_channel_json_uses_youtube_tools :
  test true PYTHON_ONLY_KEYWORDS (trim "plot a histogram of views") = true
  /\ handleSend "plot a histogram of views" jsonLoaded = Some YoutubeToolsMode
  /\ Some YoutubeToolsMode <> Some (StreamingMode true).
Proof.
  split; [vm_compute; reflexivity|].
  split; [vm_compute; reflexivity|discriminate].
Qed.

End ChatSpec.

(* ================================================================== *)
(** * More facts about strings and lists *)
(* ================================================================== *)

Module TextFacts.
Import JsString JsNumber.

Lemma append_nil_r (s : string) : (s ++ "")%string = s.
Proof. induction s as [|c s IH]; cbn; [reflexivity|now rewrite IH]. Qed.

Lemma append_assoc (a b c : string) :
  (a ++ (b ++ c))%string = ((a ++ b) ++ c)%string.
Proof. induction a as [|x a IH]; cbn; [reflexivity|now rewrite IH]. Qed.

Lemma length_append (a b : string) :
  String.length (a ++ b) = String.length a + String.length b.
Proof. induction a as [|c a IH]; cbn; [reflexivity|now rewrite IH]. Qed.

Lemma substring_prefix (a b : string) :
  String.substring 0 (String.length a) (a ++ b) = a.
Proof. induction a as [|c a IH]; cbn; [now destruct b|now rewrite IH]. Qed.

Lemma take_length (n : nat) (s : string) : String.length (take n s) <= n.
Proof.
  unfold take. revert n. induction s as [|c s IH]; intros [|n]; cbn; try lia.
  specialize (IH n). lia.
Qed.

(** ** Strings without a given character *)

Lemma includes_char (c d : ascii) (s : string) :
  includes (String c EmptyString) (String d s)
  = Ascii.eqb c d || includes (String c EmptyString) s.
Proof. cbn [includes startsWith]. now rewrite andb_true_r. Qed.

Lemma includes_char_app (c : ascii) (a b : string) :
  includes (String c EmptyString) (a ++ b)
  = includes (String c EmptyString) a || includes (String c EmptyString) b.
Proof.
  induction a as [|d a IH]; [reflexivity|].
  cbn [String.append]. rewrite !includes_char, IH. now rewrite orb_assoc.
Qed.

Lemma trimStart_keeps (c : ascii) (s : string) :
  includes (String c EmptyString) s = false ->
  includes (String c EmptyString) (trimStart s) = false.
Proof.
  induction s as [|d s IH]; [easy|].
  intros H. cbn [trimStart]. destruct (isWhiteSpace d); [|exact H].
  rewrite includes_char in H. apply orb_false_elim in H as [_ H]. now apply IH.
Qed.

Lemma trimEnd_keeps (c : ascii) (s : string) :
  includes (String c EmptyString) s = false ->
  includes (String c EmptyString) (trimEnd s) = false.
Proof.
  induction s as [|d s IH]; [easy|].
  intros H. rewrite includes_char in H. apply orb_false_elim in H as [Hd H].
  cbn [trimEnd]. destruct (isWhiteSpace d && isEmpty (trimEnd s)); [reflexivity|].
  rewrite includes_char, Hd. now apply IH.
Qed.

Lemma trim_keeps (c : ascii) (s : string) :
  includes (String c EmptyString) s = false ->
  includes (String c EmptyString) (trim s) = false.
Proof. intros H. unfold trim. now apply trimEnd_keeps, trimStart_keeps. Qed.

(** ** [trim] is idempotent *)

Lemma trimEnd_idem (s : string) : trimEnd (trimEnd s) = trimEnd s.
Proof.
  induction s as [|c s IH]; [reflexivity|].
  cbn [trimEnd].
  destruct (isWhiteSpace c && isEmpty (trimEnd s)) eqn:E; [reflexivity|].
  cbn [trimEnd]. now rewrite IH, E.
Qed.

Lemma trimStart_head (s : string) :
  match trimStart s with
  | EmptyString => True
  | String c _ => isWhiteSpace c = false
  end.
Proof.
  induction s as [|c s IH]; [exact I|].
  cbn [trimStart]. destruct (isWhiteSpace c) eqn:E; [exact IH|exact E].
Qed.

Lemma trimStart_trimEnd (s : string) :
  match s with
  | EmptyString => True
  | String c _ => isWhiteSpace c = false
  end ->
  trimStart (trimEnd s) = trimEnd s.
Proof.
  destruct s as [|c s]; [reflexivity|].
  intros H. cbn [trimEnd]. rewrite H. cbn [andb trimStart]. now rewrite H.
Qed.

Lemma trim_idem (s : string) : trim (trim s) = trim s.
Proof.
  unfold trim. rewrite trimStart_trimEnd by apply trimStart_head.
  apply trimEnd_idem.
Qed.

(** ** [split] *)

Lemma split_nonempty (sep : ascii) (s : string) : split sep s <> [].
Proof.
  induction s as [|c s IH]; cbn [split]; [discriminate|].
  destruct (Ascii.eqb c sep); [discriminate|].
  destruct (split sep s); [contradiction|discriminate].
Qed.

Lemma removelast_cons {A} (x : A) (l : list A) :
  l <> [] -> removelast (x :: l) = x :: removelast l.
Proof. destruct l; [contradiction|reflexivity]. Qed.

Lemma last_cons {A} (x : A) (l : list A) (d : A) :
  l <> [] -> last (x :: l) d = last l d.
Proof. destruct l; [contradiction|reflexivity]. Qed.

(** Splitting a concatenation: the complete lines of the first part, then
    the lines of its unfinished last line followed by the second part. *)
Lemma split_app (sep : ascii) (a b : string) :
  split sep (a ++ b)
  = removelast (split sep a) ++ split sep (last (split sep a) "" ++ b).
Proof.
  induction a as [|c a IH]; [reflexivity|].
  cbn [String.append split].
  pose proof (split_nonempty sep a) as Hne.
  destruct (Ascii.eqb c sep) eqn:E.
  - rewrite removelast_cons, last_cons by assumption.
    cbn [app]. now rewrite IH.
  - rewrite IH.
    destruct (split sep a) as [|x [|y l]]; [contradiction| |].
    + cbn [removelast last app String.append split]. rewrite E.
      reflexivity.
    + cbn [removelast last app]. reflexivity.
Qed.

(** No line of a split contains the separator. *)
Lemma split_lines (sep : ascii) (s : string) :
  Forall (fun x => split sep x = [x]) (split sep s).
Proof.
  induction s as [|c s IH]; cbn [split]; [now constructor|].
  destruct (Ascii.eqb c sep) eqn:E; [now constructor|].
  destruct (split sep s) as [|h t]; [now constructor; [cbn; rewrite E|]|].
  inversion IH as [|? ? Hh Ht]; subst. constructor; [|assumption].
  cbn [split]. now rewrite E, Hh.
Qed.

Lemma split_last (sep : ascii) (s : string) :
  split sep (last (split sep s) "") = [last (split sep s) ""].
Proof.
  pose proof (split_lines sep s) as H. pose proof (split_nonempty sep s) as Hne.
  induction H as [|x l Hx _ IH]; [contradiction|].
  destruct l as [|y l]; [exact Hx|]. apply IH. discriminate.
Qed.

(** A string without the separator is a single line, and a line followed
    by the separator is split off. *)
Lemma split_single (sep : ascii) (s : string) :
  includes (String sep EmptyString) s = false -> split sep s = [s].
Proof.
  induction s as [|c s IH]; [reflexivity|].
  rewrite includes_char. intros H. apply orb_false_elim in H as [Hc H].
  rewrite Ascii.eqb_sym in Hc. cbn [split]. now rewrite Hc, IH.
Qed.

Lemma split_line (sep : ascii) (s rest : string) :
  includes (String sep EmptyString) s = false ->
  split sep (s ++ String sep rest) = s :: split sep rest.
Proof.
  induction s as [|c s IH].
  - intros _. cbn [String.append split]. now rewrite Ascii.eqb_refl.
  - rewrite includes_char. intros H. apply orb_false_elim in H as [Hc H].
    rewrite Ascii.eqb_sym in Hc. cbn [String.append split].
    now rewrite Hc, IH.
Qed.

Lemma join_cons_empty (x : string) (xs : list string) :
  join "" (x :: xs) = (x ++ join "" xs)%string.
Proof.
  destruct xs as [|y xs]; cbn [join]; [now rewrite append_nil_r|reflexivity].
Qed.

(** Joining lines with the separator and splitting again gives the lines. *)
Lemma split_join (sep : ascii) (xs : list string) :
  xs <> [] ->
  Forall (fun x => includes (String sep EmptyString) x = false) xs ->
  split sep (join (String sep EmptyString) xs) = xs.
Proof.
  intros Hne Hall. induction Hall as [|x xs Hx Hall IH]; [contradiction|].
  destruct xs as [|y xs]; [now apply split_single|].
  change (join (String sep "") (x :: y :: xs))
    with (x ++ String sep (join (String sep "") (y :: xs)))%string.
  rewrite split_line by assumption. f_equal. apply IH. discriminate.
Qed.

Lemma includes_join (c : ascii) (sep : string) (xs : list string) :
  includes (String c EmptyString) sep = false ->
  Forall (fun x => includes (String c EmptyString) x = false) xs ->
  includes (String c EmptyString) (join sep xs) = false.
Proof.
  intros Hsep Hall. induction Hall as [|x xs Hx Hall IH]; [reflexivity|].
  destruct xs as [|y xs]; [exact Hx|].
  change (join sep (x :: y :: xs)) with (x ++ sep ++ join sep (y :: xs))%string.
  now rewrite !includes_char_app, Hx, Hsep, IH.
Qed.

(** ** [span] *)

Lemma span_app (p : ascii -> bool) (s : string) :
  (fst (span p s) ++ snd (span p s))%string = s.
Proof.
  induction s as [|c s IH]; [reflexivity|].
  cbn [span]. destruct (p c); [|reflexivity].
  destruct (span p s) as [a b]. cbn [fst snd String.append] in *.
  now rewrite IH.
Qed.

(** The run that [span] takes can be skipped: it lies in the class. *)
Lemma skip_span (p : ascii -> bool) (s : string) :
  let k := String.length (fst (span p s)) in
  k <= String.length s
  /\ forallb p (firstn k (list_ascii_of_string s)) = true.
Proof.
  induction s as [|c s IH]; [now split|].
  cbn [span]. destruct (p c) eqn:E; [|split; [cbn; lia|reflexivity]].
  destruct (span p s) as [a b]. cbn [fst String.length] in *.
  destruct IH as [Hle Hall]. split; [lia|].
  cbn [list_ascii_of_string firstn forallb]. now rewrite E.
Qed.

Lemma list_of_map (f : ascii -> ascii) (s : string) :
  list_ascii_of_string (JsString.map f s)
  = List.map f (list_ascii_of_string s).
Proof. induction s as [|c s IH]; cbn; [reflexivity|now rewrite IH]. Qed.

End TextFacts.

Module ListFacts.
Import JsNumber JsArray.

Section Sort.
Variable A : Type.
Variable cmp : A -> A -> float.

Lemma insert_unordered (x : A) (sorted : list A) :
  (forall y, In y sorted -> after cmp x y = false) ->
  insert cmp x sorted = x :: sorted.
Proof.
  destruct sorted as [|y rest]; [reflexivity|].
  intros H. cbn [insert]. now rewrite (H y (or_introl eq_refl)).
Qed.

(** Elements that the comparator never puts after one another stay where
    they are. *)
Lemma sort_unordered (xs : list A) :
  (forall x y, In x xs -> In y xs -> after cmp x y = false) ->
  sort cmp xs = xs.
Proof.
  induction xs as [|x xs IH]; intros H; [reflexivity|].
  cbn [sort fold_right]. fold (sort cmp xs).
  rewrite IH by (intros a b Ha Hb; apply H; now right).
  apply insert_unordered. intros y Hy. apply H; [now left|now right].
Qed.

Lemma insert_perm (x : A) (sorted : list A) :
  Permutation (insert cmp x sorted) (x :: sorted).
Proof.
  induction sorted as [|y rest IH]; [reflexivity|].
  cbn [insert]. destruct (after cmp x y); [|reflexivity].
  rewrite IH. apply perm_swap.
Qed.

(** Sorting rearranges: nothing is lost and nothing is added. *)
Lemma sort_perm (xs : list A) : Permutation (sort cmp xs) xs.
Proof.
  induction xs as [|x xs IH]; [reflexivity|].
  cbn [sort fold_right]. fold (sort cmp xs). rewrite insert_perm.
  now constructor.
Qed.

Lemma sort_In (y : A) (xs : list A) : In y (sort cmp xs) <-> In y xs.
Proof.
  split; apply Permutation_in; [|symmetry]; apply sort_perm.
Qed.

End Sort.

Lemma firstn_sub {A} (n : nat) (xs : list A) (x : A) :
  In x (firstn n xs) -> In x xs.
Proof.
  revert n. induction xs as [|y xs IH]; intros [|n]; cbn; try contradiction.
  intros [H|H]; [now left|right; now apply (IH n)].
Qed.

(** [xs.slice(0, 10)] *)
Lemma sliceTo_ten {A} (xs : list A) : sliceTo (ofNat 10) xs = firstn 10 xs.
Proof.
  unfold sliceTo.
  change (toInteger (Z.of_nat (List.length xs) + 1) (ofNat 10)) with 10%Z.
  cbn [Z.ltb Z.compare].
  destruct (Z.min_spec 10 (Z.of_nat (List.length xs))) as [[Hlt ->]|[Hle ->]].
  - reflexivity.
  - rewrite Nat2Z.id. rewrite firstn_all.
    symmetry. apply firstn_all2. lia.
Qed.

Lemma combine_map_snd {A B} (xs : list A) (ys : list B) :
  List.length xs = List.length ys -> List.map snd (combine xs ys) = ys.
Proof.
  revert ys. induction xs as [|x xs IH]; intros [|y ys] H; try discriminate;
    [reflexivity|]. cbn. f_equal. apply IH. now injection H.
Qed.

Lemma nth_error_last {A} (xs : list A) (d : A) :
  xs <> [] -> nth_error xs (List.length xs - 1) = Some (last xs d).
Proof.
  induction xs as [|x xs IH]; [contradiction|]. intros _.
  destruct xs as [|y xs]; [reflexivity|].
  cbn [List.length Nat.sub nth_error last] in *. rewrite Nat.sub_0_r in IH.
  apply IH. discriminate.
Qed.

Lemma mapi_length {A B} (f : nat -> A -> B) (xs : list A) :
  forall i, List.length (CsvTools.mapi f i xs) = List.length xs.
Proof.
  induction xs as [|x xs IH]; intros i; cbn; [reflexivity|now rewrite IH].
Qed.

Lemma mapi_nth {A B} (f : nat -> A -> B) (xs : list A) :
  forall i j y,
    nth_error (CsvTools.mapi f i xs) j = Some y ->
    exists x, nth_error xs j = Some x /\ y = f (i + j) x.
Proof.
  induction xs as [|x xs IH]; intros i j y H; [now destruct j|].
  destruct j as [|j]; cbn in H.
  - injection H as <-. exists x. now rewrite Nat.add_0_r.
  - apply IH in H as (x' & Hx & ->). exists x'. split; [assumption|].
    f_equal. lia.
Qed.

End ListFacts.

(* ================================================================== *)
(** * csvTools.js: what the parser returns *)
(* ================================================================== *)

Module ParseSpec.
Import JsString JsNumber JsValue Regex Store CsvTools.
Import StringFacts ObjectFacts TextFacts Samples.

(** ** The pattern that strips a quote from either end *)

Lemma quoteEnds_here (prev : option ascii) (c : ascii) (s : string) :
  Ascii.eqb quote c = false ->
  match_here false quoteEnds prev (String c s) = None.
Proof.
  intros H. unfold match_here, quoteEnds.
  destruct prev; cbn [rmatch flat_map app]; rewrite H; reflexivity.
Qed.

Lemma delete_quoteEnds (s : string) :
  forall prev,
    includes dq s = false -> delete_from false quoteEnds prev s 0 = s.
Proof.
  induction s as [|c s IH]; intros prev H; [reflexivity|].
  unfold dq in H. rewrite includes_char in H.
  apply orb_false_elim in H as [Hc H].
  cbn [delete_from]. rewrite quoteEnds_here by assumption.
  now rewrite IH.
Qed.

Lemma unquote_without_quotes (s : string) :
  includes dq s = false -> unquote s = s.
Proof. apply delete_quoteEnds. Qed.

(** ** parseLine *)

Lemma push_keeps (current : string) (ch : ascii) :
  includes dq current = false -> Ascii.eqb ch quote = false ->
  includes dq (push current ch) = false.
Proof.
  intros H Hch. unfold push, dq in *. rewrite includes_char_app, H.
  rewrite includes_char, Ascii.eqb_sym, Hch. reflexivity.
Qed.

Lemma parseLine_from_fields (line : string) :
  forall current inQuotes,
    includes dq current = false ->
    Forall (fun f => exists x, f = trim x /\ includes dq x = false)
           (parseLine_from line current inQuotes).
Proof.
  induction line as [|ch line IH]; intros current inQuotes H; cbn [parseLine_from].
  - constructor; [now exists current|constructor].
  - destruct (Ascii.eqb ch quote) eqn:Eq; [now apply IH|].
    destruct (Ascii.eqb ch "," && negb inQuotes).
    + constructor; [now exists current|]. now apply IH.
    + apply IH. now apply push_keeps.
Qed.

Lemma parseLine_from_nonempty (line current : string) (inQuotes : bool) :
  parseLine_from line current inQuotes <> [].
Proof.
  revert current inQuotes.
  induction line as [|ch line IH]; intros current inQuotes; cbn [parseLine_from];
    [discriminate|].
  destruct (Ascii.eqb ch quote); [apply IH|].
  destruct (Ascii.eqb ch "," && negb inQuotes); [discriminate|apply IH].
Qed.

Lemma parseLine_field (line f : string) :
  In f (parseLine line) ->
  trim f = f /\ includes dq f = false /\ unquote f = f.
Proof.
  intros Hin.
  pose proof (@parseLine_from_fields line EmptyString false eq_refl) as Hall.
  rewrite Forall_forall in Hall. destruct (Hall f Hin) as (x & -> & Hx).
  split; [apply trim_idem|].
  split; [now apply trim_keeps|].
  now apply unquote_without_quotes, trim_keeps.
Qed.

Lemma map_unquote_parseLine (line : string) :
  List.map unquote (parseLine line) = parseLine line.
Proof.
  rewrite <- (map_id (parseLine line)) at 2. apply map_ext_in.
  intros f Hf. now apply parseLine_field in Hf.
Qed.

(** X1.  Every field that [parseLine] returns is trimmed and holds no
    double quote: quotes only switch the quoted state and are dropped, also
    a doubled quote inside a quoted field.  The replacement
    [.replace(/^"|"$/g, '')] that [parseCsvToRows] applies to each field
    therefore changes nothing. *)
Theorem parseLine_fields_are_clean (line f : string) :
  In f (parseLine line) ->
  trim f = f
  /\ includes dq f = false
  /\ unquote f = f.
Proof.
  intros Hin.
  pose proof (@parseLine_from_fields line EmptyString false eq_refl) as Hall.
  rewrite Forall_forall in Hall. destruct (Hall f Hin) as (x & -> & Hx).
  split; [apply trim_idem|].
  split; [now apply trim_keeps|].
  now apply unquote_without_quotes, trim_keeps.
Qed.

(** The second field of [a,"x,y" ,b] is [x,y]. *)
Lemma parseLine_fields_are_clean_witness :
  trim "x,y" = "x,y"
  /\ includes dq "x,y" = false
  /\ unquote "x,y" = "x,y".
Proof.
  apply (@parseLine_fields_are_clean quotedLine "x,y").
  vm_compute. right. left. reflexivity.
Defined.

Lemma parseLine_from_plain (line : string) :
  forall current,
    includes dq line = false ->
    parseLine_from line current false
    = match split "," line with
      | [] => []
      | h :: t => List.map trim ((current ++ h)%string :: t)
      end.
Proof.
  induction line as [|ch line IH]; intros current H.
  - cbn. now rewrite append_nil_r.
  - unfold dq in H. rewrite includes_char in H.
    apply orb_false_elim in H as [Hch H]. rewrite Ascii.eqb_sym in Hch.
    cbn [parseLine_from split]. rewrite Hch.
    destruct (Ascii.eqb ch ",") eqn:E; cbn [andb negb].
    + rewrite append_nil_r. cbn [List.map]. f_equal.
      rewrite (IH EmptyString H).
      destruct (split "," line); reflexivity.
    + rewrite (IH (push current ch) H).
      pose proof (split_nonempty "," line) as Hne.
      destruct (split "," line) as [|h t]; [contradiction|].
      unfold push. now rewrite <- append_assoc.
Qed.

Lemma parseLine_split (line : string) :
  includes dq line = false ->
  parseLine line = List.map trim (split "," line).
Proof.
  intros H. unfold parseLine. rewrite parseLine_from_plain by assumption.
  pose proof (split_nonempty "," line) as Hne.
  now destruct (split "," line).
Qed.

(** X2.  On a line without double quotes [parseLine] is the plain recipe:
    cut the line at every comma and trim each piece. *)
Theorem parseLine_without_quotes (line : string) :
  includes dq line = false ->
  parseLine line = List.map trim (split "," line).
Proof.
  intros H. unfold parseLine. rewrite parseLine_from_plain by assumption.
  pose proof (split_nonempty "," line) as Hne.
  destruct (split "," line) as [|h t]; [contradiction|].
  reflexivity.
Qed.

Lemma parseLine_without_quotes_witness :
  parseLine "a, b ,c" = List.map trim (split "," "a, b ,c").
Proof. apply (@parseLine_without_quotes "a, b ,c"). reflexivity. Defined.

(** ** parseCsvToRows *)

Lemma nonBlank_lines (text : string) :
  filter nonBlank (split LF text)
  = filter (fun l => negb (allWhite l)) (split LF text).
Proof.
  apply filter_ext. intros l. unfold nonBlank. now rewrite trim_empty.
Qed.

Lemma parseCsvToRows_many (text : string) :
  let lines := filter (fun l => negb (allWhite l)) (split LF text) in
  2 <= List.length lines ->
  parseCsvToRows text
  = {| headers := parseLine (hd EmptyString lines);
       rows := List.map (fun line =>
                           fillRow (parseLine (hd EmptyString lines)) 0
                                   (parseLine line) [])
                        (tl lines) |}.
Proof.
  intros lines H. unfold parseCsvToRows. rewrite nonBlank_lines. fold lines.
  replace (List.length lines <? 2) with false
    by (symmetry; apply Nat.ltb_ge; exact H).
  now rewrite map_unquote_parseLine.
Qed.

(** X3.  For a text with at least two non-blank lines, the headers are the
    fields of the first non-blank line, and there is one row for every
    other non-blank line: blank lines are skipped wherever they stand. *)
Theorem parseCsvToRows_shape (text : string) :
  let lines := filter (fun l => negb (allWhite l)) (split LF text) in
  2 <= List.length lines ->
  headers (parseCsvToRows text) = parseLine (hd EmptyString lines)
  /\ List.length (rows (parseCsvToRows text)) = List.length lines - 1.
Proof.
  intros lines H. rewrite (parseCsvToRows_many text H). cbn [headers rows].
  split; [reflexivity|]. rewrite length_map. fold lines.
  destruct lines; cbn; lia.
Qed.

Lemma parseCsvToRows_shape_witness :
  headers (parseCsvToRows csvText) = parseLine "name,views"
  /\ List.length (rows (parseCsvToRows csvText)) = 2.
Proof. apply (@parseCsvToRows_shape csvText). vm_compute. lia. Defined.

Lemma get_set_same (o : obj) (k : string) (v : value) :
  k <> "__proto__" -> get (set o k v) k = v.
Proof.
  intros Hk. unfold set. apply String.eqb_neq in Hk. rewrite Hk.
  cbn [andb]. apply get_define_same.
Qed.

Lemma get_set_other (o : obj) (k k' : string) (v : value) :
  k' <> k -> get (set o k v) k' = get o k'.
Proof.
  intros Hk. unfold set.
  destruct (String.eqb k "__proto__" && negb (mem k (List.map fst o)));
    [reflexivity|]. now apply get_define_other.
Qed.

Lemma fillRow_other (hs : list string) :
  forall i vals o h,
    ~ In h hs -> get (fillRow hs i vals o) h = get o h.
Proof.
  induction hs as [|h0 hs IH]; intros i vals o h Hin; [reflexivity|].
  cbn [fillRow]. rewrite IH by (intros Hn; apply Hin; now right).
  apply get_set_other. intros ->. apply Hin. now left.
Qed.

Lemma fillRow_cell (hs : list string) :
  forall i vals o j h,
    NoDup hs -> nth_error hs j = Some h -> h <> "__proto__" ->
    get (fillRow hs i vals o) h = VStr (unquote (cell vals (i + j))).
Proof.
  induction hs as [|h0 hs IH]; intros i vals o j h Hnd Hj Hh.
  - now destruct j.
  - inversion Hnd as [|? ? Hnotin Hnd']; subst. cbn [fillRow].
    destruct j as [|j]; cbn [nth_error] in Hj.
    + injection Hj as ->. rewrite fillRow_other by assumption.
      rewrite Nat.add_0_r. now apply get_set_same.
    + rewrite (IH (S i) vals _ j h) by assumption.
      now rewrite Nat.add_succ_r.
Qed.

Lemma unquote_cell (line : string) (j : nat) :
  unquote (cell (parseLine line) j) = cell (parseLine line) j.
Proof.
  unfold cell. destruct (nth_error (parseLine line) j) as [f|] eqn:E;
    [|reflexivity].
  apply nth_error_In in E. now apply parseLine_field in E.
Qed.



End ParseSpec.

(* ================================================================== *)
(** * csvTools.js: the slim CSV is read back by the parser *)
(* ================================================================== *)

Module SlimSpec.
Import JsString JsNumber JsValue Regex Store CsvTools SlimCsv.
Import StringFacts ObjectFacts TextFacts ParseSpec Samples.

Example isSlim_examples :
  List.map isSlim
    [ "Text"; "text "; "View Count"; "view_count"; "viewcount"; "Created At";
      "Date"; "engagement"; "Tweet Id"; "favorite  count" ]
  = [ true; false; true; true; true; true; true; true; false; false ].
Proof. vm_compute. reflexivity. Qed.

Lemma doubleQuotes_without_quotes (s : string) :
  includes dq s = false -> doubleQuotes s = s.
Proof.
  induction s as [|c s IH]; [reflexivity|].
  unfold dq. rewrite includes_char. intros H.
  apply orb_false_elim in H as [Hc H]. rewrite Ascii.eqb_sym in Hc.
  cbn [doubleQuotes]. rewrite Hc. now rewrite IH.
Qed.

(** Inside quotes every character but the quote is taken as it is. *)
Lemma parseLine_from_quoted (x : string) :
  forall tail current,
    includes dq x = false ->
    parseLine_from (x ++ tail) current true
    = parseLine_from tail (current ++ x) true.
Proof.
  induction x as [|c x IH]; intros tail current H.
  - cbn [String.append]. now rewrite append_nil_r.
  - unfold dq in H. rewrite includes_char in H.
    apply orb_false_elim in H as [Hc H]. rewrite Ascii.eqb_sym in Hc.
    cbn [String.append parseLine_from]. rewrite Hc, andb_false_r.
    rewrite IH by assumption. unfold push. now rewrite <- append_assoc.
Qed.

(** Outside quotes so is every character but the quote and the comma. *)
Lemma parseLine_from_bare (x : string) :
  forall tail current,
    includes dq x = false -> includes "," x = false ->
    parseLine_from (x ++ tail) current false
    = parseLine_from tail (current ++ x) false.
Proof.
  induction x as [|c x IH]; intros tail current H Hcomma.
  - cbn [String.append]. now rewrite append_nil_r.
  - unfold dq in H. rewrite includes_char in H, Hcomma.
    apply orb_false_elim in H as [Hc H]. rewrite Ascii.eqb_sym in Hc.
    apply orb_false_elim in Hcomma as [Hk Hcomma]. rewrite Ascii.eqb_sym in Hk.
    cbn [String.append parseLine_from]. rewrite Hc, Hk. cbn [andb].
    rewrite IH by assumption. unfold push. now rewrite <- append_assoc.
Qed.

Lemma parseLine_from_wrapped (s tail : string) :
  includes dq s = false ->
  parseLine_from ((dq ++ s ++ dq) ++ tail) EmptyString false
  = parseLine_from tail s false.
Proof.
  intros H. unfold dq at 1. cbn [String.append parseLine_from].
  rewrite Ascii.eqb_refl. cbn [negb].
  rewrite <- append_assoc, parseLine_from_quoted by assumption.
  unfold dq. cbn [String.append parseLine_from]. now rewrite Ascii.eqb_refl.
Qed.

(** An escaped cell without quotes of its own is read back whole. *)
Lemma parseLine_from_escaped (v : value) (tail : string) :
  includes dq (cellText v) = false ->
  parseLine_from (escapeCell v ++ tail) EmptyString false
  = parseLine_from tail (cellText v) false.
Proof.
  intros H. unfold escapeCell. rewrite H, orb_false_r.
  destruct (includes "," (cellText v)) eqn:Ecomma; cbn [orb].
  - rewrite doubleQuotes_without_quotes by assumption.
    now apply parseLine_from_wrapped.
  - destruct (includes newline (cellText v)).
    + rewrite doubleQuotes_without_quotes by assumption.
      now apply parseLine_from_wrapped.
    + now rewrite parseLine_from_bare.
Qed.

Lemma parseLine_rowLine (r : obj) (hs : list string) :
  hs <> [] ->
  Forall (fun h => includes dq (cellText (get r h)) = false
                   /\ trim (cellText (get r h)) = cellText (get r h)) hs ->
  parseLine (rowLine hs r) = List.map (fun h => cellText (get r h)) hs.
Proof.
  intros Hne Hall. unfold parseLine, rowLine.
  induction Hall as [|h hs [Hq Ht] Hall IH]; [contradiction|].
  destruct hs as [|h' hs].
  - cbn [List.map join].
    rewrite <- (append_nil_r (escapeCell (get r h))).
    rewrite parseLine_from_escaped by assumption.
    cbn [parseLine_from]. now rewrite Ht.
  - change (join "," (List.map (fun h0 => escapeCell (get r h0)) (h :: h' :: hs)))
      with (escapeCell (get r h) ++ "," ++
            join "," (List.map (fun h0 => escapeCell (get r h0)) (h' :: hs)))%string.
    rewrite parseLine_from_escaped by assumption.
    cbn [String.append parseLine_from].
    change (Ascii.eqb "," quote) with false.
    change (Ascii.eqb "," "," && negb false) with true. cbv iota.
    rewrite Ht. cbn [List.map]. f_equal. apply IH. discriminate.
Qed.

(** A line feed in a cell stays inside its quotes, but not on its line. *)
Lemma escapeCell_one_line (v : value) :
  includes dq (cellText v) = false ->
  includes newline (cellText v) = false ->
  includes newline (escapeCell v) = false.
Proof.
  intros Hq Hn. unfold escapeCell. rewrite Hq, Hn, !orb_false_r.
  destruct (includes "," (cellText v)); [|exact Hn].
  rewrite doubleQuotes_without_quotes by assumption.
  unfold newline in *. now rewrite !includes_char_app, Hn.
Qed.

(** The lines of the slim CSV: the headers, then one line per row. *)
Lemma buildSlimCsv_lines (rows : list obj) (headers : list string) :
  let slim := filter isSlim headers in
  rows <> [] -> slim <> [] ->
  Forall (fun h => includes newline h = false) slim ->
  Forall (fun r =>
            Forall (fun h => includes dq (cellText (get r h)) = false
                             /\ includes newline (cellText (get r h)) = false)
                   slim) rows ->
  split LF (buildSlimCsv rows headers)
  = join "," slim :: List.map (rowLine slim) rows.
Proof.
  intros slim Hrows Hslim Hheaders Hcells.
  unfold buildSlimCsv. fold slim.
  destruct rows as [|r0 rows']; [contradiction|].
  destruct headers as [|h0 headers']; [contradiction|].
  cbn [JsArray.isEmpty orb].
  destruct slim as [|s0 slim'] eqn:E; [contradiction|].
  cbn [JsArray.isEmpty]. rewrite <- E in *.
  unfold newline. apply split_join; [discriminate|].
  constructor.
  - apply includes_join; [reflexivity|exact Hheaders].
  - apply Forall_map. apply Forall_impl with (2 := Hcells).
    intros r Hr. unfold rowLine. apply includes_join; [reflexivity|].
    apply Forall_map. apply Forall_impl with (2 := Hr).
    intros h (Hq & Hn). now apply escapeCell_one_line.
Qed.

(** X5.  What [buildSlimCsv] writes, the parser reads: the first line is
    the slim headers joined by commas, and every further line is split by
    [parseLine] into the cells of its row, [String(r[h] ?? '')] for each
    slim header [h], in order.  This holds when no cell and no slim header
    holds a line feed and when every cell is trimmed and free of double
    quotes (a double quote is written twice and dropped on reading); a
    comma in a cell is kept. *)
Theorem buildSlimCsv_reads_back (rows : list obj) (headers : list string) :
  let slim := filter isSlim headers in
  rows <> [] -> slim <> [] ->
  Forall (fun h => includes newline h = false) slim ->
  Forall (fun r =>
            Forall (fun h =>
                      let s := cellText (get r h) in
                      includes dq s = false /\ includes newline s = false
                      /\ trim s = s) slim) rows ->
  exists lines,
    split LF (buildSlimCsv rows headers) = join "," slim :: lines
    /\ List.map parseLine lines
       = List.map (fun r => List.map (fun h => cellText (get r h)) slim) rows.
Proof.
  intros slim Hrows Hslim Hheaders Hcells.
  exists (List.map (rowLine slim) rows). split.
  - apply buildSlimCsv_lines; try assumption.
    apply Forall_impl with (2 := Hcells). intros r Hr.
    apply Forall_impl with (2 := Hr). cbv zeta. tauto.
  - rewrite map_map. apply map_ext_in. intros r Hr.
    rewrite Forall_forall in Hcells. specialize (Hcells r Hr).
    apply parseLine_rowLine; [assumption|].
    apply Forall_impl with (2 := Hcells). now intros h (Hq & _ & Ht).
Qed.

(** The tweet "hello, world": its line is quoted, and read back. *)
Lemma buildSlimCsv_reads_back_witness :
  exists lines,
    split LF (buildSlimCsv [tweet] tweetHeaders) = "Text,View Count" :: lines
    /\ List.map parseLine lines = [["hello, world"; "250"]].
Proof.
  assert (E : filter isSlim tweetHeaders = ["Text"; "View Count"])
    by (vm_compute; reflexivity).
  apply (@buildSlimCsv_reads_back [tweet] tweetHeaders); rewrite ?E.
  - discriminate.
  - discriminate.
  - repeat constructor.
  - repeat constructor.
Defined.

Lemma allWhite_app (a b : string) :
  allWhite (a ++ b) = allWhite a && allWhite b.
Proof.
  induction a as [|c a IH]; [reflexivity|].
  cbn [String.append allWhite]. now rewrite IH, andb_assoc.
Qed.

Lemma join_not_blank (sep : string) (xs : list string) (x : string) :
  In x xs -> allWhite x = false -> allWhite (join sep xs) = false.
Proof.
  intros Hin Hx. induction xs as [|y xs IH]; [contradiction|].
  destruct xs as [|z xs].
  - destruct Hin as [->|[]]. exact Hx.
  - change (join sep (y :: z :: xs)) with (y ++ sep ++ join sep (z :: xs))%string.
    rewrite !allWhite_app. destruct Hin as [->|Hin].
    + now rewrite Hx.
    + rewrite (IH Hin). now rewrite !andb_false_r.
Qed.

Lemma trimmed_not_blank (s : string) :
  trim s = s -> s <> EmptyString -> allWhite s = false.
Proof.
  intros Ht Hne. rewrite <- trim_empty, Ht. now destruct s.
Qed.

Lemma escapeCell_not_blank (v : value) :
  allWhite (cellText v) = false -> allWhite (escapeCell v) = false.
Proof.
  intros H. unfold escapeCell. cbv zeta.
  destruct (includes "," (cellText v) || includes dq (cellText v)
            || includes newline (cellText v)); [reflexivity|exact H].
Qed.

Lemma cell_map {A} (f : A -> string) (xs : list A) (j : nat) (x : A) :
  nth_error xs j = Some x -> cell (List.map f xs) j = f x.
Proof. intros H. unfold cell. now rewrite nth_error_map, H. Qed.

(** X6.  The slim CSV is a CSV for the parser of the same file:
    [parseCsvToRows(buildSlimCsv(rows, headers))] has the slim headers as
    its headers and one row per row, and in each row every slim header
    holds the text [String(r[h] ?? '')] of the cell it was written from.
    This needs the slim headers to be distinct, trimmed and free of commas,
    double quotes and line feeds ([view.?count] also matches [view,count]),
    every cell to be trimmed and free of double quotes and line feeds, and
    every row to have a slim cell that is not empty: a row whose line is
    blank is skipped by the parser. *)
Theorem slim_csv_round_trip (rows : list obj) (headers : list string) :
  let slim := filter isSlim headers in
  rows <> [] -> slim <> [] -> NoDup slim ->
  Forall (fun h => trim h = h /\ includes "," h = false
                   /\ includes dq h = false /\ includes newline h = false)
         slim ->
  Forall (fun r =>
            (exists h, In h slim /\ cellText (get r h) <> EmptyString)
            /\ Forall (fun h =>
                         let s := cellText (get r h) in
                         includes dq s = false /\ includes newline s = false
                         /\ trim s = s) slim) rows ->
  let back := parseCsvToRows (buildSlimCsv rows headers) in
  CsvTools.headers back = slim
  /\ List.length (CsvTools.rows back) = List.length rows
  /\ forall i r h,
       nth_error rows i = Some r -> In h slim ->
       exists r',
         nth_error (CsvTools.rows back) i = Some r'
         /\ get r' h = VStr (cellText (get r h)).
Proof.
  intros slim Hrows Hslim Hnd Hheaders Hcells back.
  assert (Hlines : split LF (buildSlimCsv rows headers)
                   = join "," slim :: List.map (rowLine slim) rows).
  { apply buildSlimCsv_lines; try assumption.
    - apply Forall_impl with (2 := Hheaders). tauto.
    - apply Forall_impl with (2 := Hcells). intros r [_ Hr].
      apply Forall_impl with (2 := Hr). cbv zeta. tauto. }
  assert (Hslim_ne : forall h, In h slim -> h <> EmptyString /\ h <> "__proto__").
  { intros h Hh. apply filter_In in Hh as [_ Hh].
    split; intros ->; vm_compute in Hh; discriminate. }
  assert (Hkeep : filter (fun l => negb (allWhite l))
                         (join "," slim :: List.map (rowLine slim) rows)
                  = join "," slim :: List.map (rowLine slim) rows).
  { apply forallb_filter_id. apply forallb_forall. intros l [<-|Hl].
    - destruct slim as [|h0 slim'] eqn:E; [contradiction|].
      rewrite <- E in *. apply negb_true_iff.
      apply join_not_blank with (x := h0); [rewrite E; now left|].
      rewrite Forall_forall in Hheaders.
      apply trimmed_not_blank; [apply Hheaders; rewrite E; now left|].
      apply Hslim_ne. rewrite E. now left.
    - apply in_map_iff in Hl as (r & <- & Hr). apply negb_true_iff.
      rewrite Forall_forall in Hcells.
      destruct (Hcells r Hr) as [(h & Hh & Hne) Hall].
      rewrite Forall_forall in Hall. destruct (Hall h Hh) as (_ & _ & Ht).
      unfold rowLine.
      apply join_not_blank with (x := escapeCell (get r h));
        [apply in_map_iff; now exists h|].
      apply escapeCell_not_blank. now apply trimmed_not_blank. }
  assert (Hhead : parseLine (join "," slim) = slim).
  { rewrite parseLine_split.
    - rewrite split_join; [|assumption|].
      + rewrite <- (map_id slim) at 2. apply map_ext_in. intros h Hh.
        rewrite Forall_forall in Hheaders. now apply Hheaders.
      + apply Forall_impl with (2 := Hheaders). tauto.
    - apply includes_join; [reflexivity|].
      apply Forall_impl with (2 := Hheaders). tauto. }
  assert (Hback : back
                  = {| CsvTools.headers := slim;
                       CsvTools.rows :=
                         List.map (fun line => fillRow slim 0 (parseLine line) [])
                                  (List.map (rowLine slim) rows) |}).
  { unfold back. rewrite parseCsvToRows_many; rewrite Hlines, Hkeep.
    - cbn [hd tl]. now rewrite Hhead.
    - destruct rows; [contradiction|]. cbn. lia. }
  rewrite Hback. cbn [CsvTools.headers CsvTools.rows].
  split; [reflexivity|]. split; [now rewrite !length_map|].
  intros i r h Hi Hh.
  exists (fillRow slim 0 (parseLine (rowLine slim r)) []). split.
  - now rewrite !nth_error_map, Hi.
  - apply In_nth_error in Hh as [j Hj].
    assert (Hr : In r rows) by (eapply nth_error_In; eassumption).
    rewrite Forall_forall in Hcells. destruct (Hcells r Hr) as [_ Hall].
    rewrite (@fillRow_cell slim 0 (parseLine (rowLine slim r)) [] j h Hnd Hj)
      by (apply Hslim_ne; eapply nth_error_In; eassumption).
    cbn [Nat.add]. rewrite unquote_cell.
    rewrite parseLine_rowLine; [|assumption|].
    + now rewrite (cell_map (fun h0 => cellText (get r h0)) slim j Hj).
    + apply Forall_impl with (2 := Hall). cbv zeta. tauto.
Qed.

(** The tweet "hello, world" comes back with its comma. *)
Lemma slim_csv_round_trip_witness :
  let back := parseCsvToRows (buildSlimCsv [tweet] tweetHeaders) in
  CsvTools.headers back = ["Text"; "View Count"]
  /\ List.length (CsvTools.rows back) = List.length [tweet]
  /\ forall i r h,
       nth_error [tweet] i = Some r -> In h ["Text"; "View Count"] ->
       exists r',
         nth_error (CsvTools.rows back) i = Some r'
         /\ get r' h = VStr (cellText (get r h)).
Proof.
  assert (E : filter isSlim tweetHeaders = ["Text"; "View Count"])
    by (vm_compute; reflexivity).
  rewrite <- E.
  apply (@slim_csv_round_trip [tweet] tweetHeaders); rewrite ?E.
  - discriminate.
  - discriminate.
  - repeat constructor; cbn; intuition discriminate.
  - repeat constructor.
  - repeat constructor. exists "Text". split; [now left|discriminate].
Defined.

End SlimSpec.

(* ================================================================== *)
(** * csvTools.js: resolving a column name *)
(* ================================================================== *)

Module ResolveSpec.
Import JsString JsNumber JsValue Regex Store CsvTools.
Import StringFacts ObjectFacts TextFacts Samples.

(** ** Deleting every run of a class *)

(** The first way [c+] matches is the longest one. *)
Lemma plus_from_head (p : ascii -> bool) (c : ascii) (s : string)
      (caps : captures) :
  p c = true ->
  exists prev rest,
    plus_from p (String c s) caps = (prev, snd (span p s), caps) :: rest.
Proof.
  revert c. induction s as [|d s IH]; intros c Hc; cbn [plus_from]; rewrite Hc.
  - now exists (Some c), [].
  - cbn [span]. destruct (p d) eqn:Ed.
    + destruct (IH d Ed) as (prev & rest & H). cbn [plus_from] in H.
      rewrite Ed in H. rewrite H.
      destruct (span p s) as [a b]. cbn [snd app].
      now exists prev, (rest ++ [(Some c, String d s, caps)]).
    + cbn [app snd]. now exists (Some c), [].
Qed.

Lemma consumed_prefix (a b : string) : consumed (a ++ b) b = a.
Proof.
  unfold consumed. rewrite length_append.
  replace (String.length a + String.length b - String.length b)
    with (String.length a) by lia.
  apply substring_prefix.
Qed.

Lemma match_here_plus (p : ascii -> bool) (prev : option ascii) (c : ascii)
      (s : string) :
  match_here false (Plus p) prev (String c s)
  = if p c then Some (String c (fst (span p s)), []) else None.
Proof.
  unfold match_here. cbn [rmatch].
  destruct (p c) eqn:E.
  - destruct (@plus_from_head p c s [] E) as (prev' & rest & ->).
    f_equal. f_equal.
    rewrite <- (span_app p s) at 1.
    change (String c (fst (span p s) ++ snd (span p s)))
      with (String c (fst (span p s)) ++ snd (span p s))%string.
    apply consumed_prefix.
  - cbn [plus_from]. now rewrite E.
Qed.

(** Replacing every run of a class by nothing removes exactly the
    characters of the class.  [k] counts the characters of a run that are
    still to be skipped. *)
Lemma delete_plus (p : ascii -> bool) (s : string) :
  forall prev k,
    k <= String.length s ->
    forallb p (firstn k (list_ascii_of_string s)) = true ->
    list_ascii_of_string (delete_from false (Plus p) prev s k)
    = filter (fun c => negb (p c)) (list_ascii_of_string s).
Proof.
  induction s as [|c s IH]; intros prev k Hle Hk; [reflexivity|].
  cbn [delete_from list_ascii_of_string filter].
  destruct k as [|k].
  - rewrite match_here_plus. destruct (p c) eqn:E; cbn [negb].
    + apply IH; apply skip_span.
    + cbn [list_ascii_of_string]. f_equal. apply IH; [lia|reflexivity].
  - cbn [list_ascii_of_string firstn forallb String.length] in Hk, Hle.
    apply andb_prop in Hk as [Hc Hk]. rewrite Hc. cbn [negb].
    apply IH; [lia|assumption].
Qed.

(** X7.  The normal form that [resolveCol] compares, written out: the
    characters of [s.toLowerCase().replace(/[\s_-]+/g, '')] are those of
    [s], lower-cased, without white space, underscores and hyphens, in the
    same order.  So two names have the same normal form exactly when they
    differ only in case and in these separators. *)
Theorem norm_drops_case_and_separators (s : string) :
  list_ascii_of_string (norm s)
  = filter (fun c => negb (isWhiteSpace c || Ascii.eqb c "_" || Ascii.eqb c "-"))
           (List.map toLower (list_ascii_of_string s)).
Proof.
  unfold norm, delete_all, separators, toLowerCase.
  rewrite delete_plus by (cbn; (lia || reflexivity)). now rewrite list_of_map.
Qed.

Lemma mem_In (k : string) (ks : list string) : mem k ks = true <-> In k ks.
Proof.
  unfold mem. rewrite existsb_exists. split.
  - intros (x & Hx & E). apply String.eqb_eq in E. now subst.
  - intros H. exists k. split; [assumption|apply String.eqb_refl].
Qed.

(** X8.  [resolveCol] on a non-empty name and at least one row always
    returns a string [k].  A name that is a key of the first row is returned
    as it is; a returned name that differs from the one asked for is a key
    of the first row with the same normal form; and when some key has the
    normal form of the name (and that form is not empty) the result is such
    a key.  Otherwise the name comes back unchanged, whether or not it is a
    column. *)
Theorem resolveCol_cases (r0 : obj) (rs : list obj) (s : string) :
  s <> EmptyString ->
  exists k,
    resolveCol (r0 :: rs) (VStr s) = Ok (VStr k)
    /\ (In s (keys r0) -> k = s)
    /\ (k <> s -> In k (keys r0) /\ norm k = norm s)
    /\ (norm s <> EmptyString ->
        (exists k', In k' (keys r0) /\ norm k' = norm s) ->
        In k (keys r0) /\ norm k = norm s).
Proof.
  intros Hs. unfold resolveCol. cbn [truthy includesValue].
  destruct s as [|c s]; [contradiction|]. cbn [isEmpty negb].
  set (name := String c s) in *.
  destruct (mem name (keys r0)) eqn:Emem.
  - exists name. apply mem_In in Emem.
    split; [reflexivity|]. split; [reflexivity|].
    split; [intros H; now destruct H|]. now split.
  - assert (Hnot : ~ In name (keys r0)).
    { intros H. apply mem_In in H. congruence. }
    unfold JsArray.find.
    destruct (List.find _ (keys r0)) as [k|] eqn:Efind.
    + apply find_some in Efind as [Hin E]. apply String.eqb_eq in E.
      unfold or_. cbn [truthy]. destruct k as [|d k]; cbn [isEmpty negb].
      * exists name. split; [reflexivity|]. split; [reflexivity|].
        split; [intros H; now destruct H|].
        intros Hn _. exfalso. apply Hn. now rewrite <- E.
      * exists (String d k). split; [reflexivity|].
        split; [intros H; contradiction|]. now split.
    + exists name. unfold or_. cbn [truthy].
      split; [reflexivity|]. split; [reflexivity|].
      split; [intros H; now destruct H|].
      intros _ (k' & Hk' & E). exfalso.
      apply (find_none _ _ Efind) in Hk'. apply String.eqb_neq in Hk'.
      contradiction.
Qed.

(** The model asks for [view_count]; the file has [View Count]. *)
Lemma resolveCol_cases_witness :
  exists k,
    resolveCol [tweet] (VStr "view_count") = Ok (VStr k)
    /\ (In "view_count" (keys tweet) -> k = "view_count")
    /\ (k <> "view_count" -> In k (keys tweet) /\ norm k = norm "view_count")
    /\ (norm "view_count" <> EmptyString ->
        (exists k', In k' (keys tweet) /\ norm k' = norm "view_count") ->
        In k (keys tweet) /\ norm k = norm "view_count").
Proof. apply (@resolveCol_cases tweet [] "view_count"). discriminate. Defined.

End ResolveSpec.

(* ================================================================== *)
(** * csvTools.js: the executor at its edges *)
(* ================================================================== *)

Module ExecutorSpec.
Import JsString JsNumber JsValue Regex Store CsvTools.
Import StringFacts ObjectFacts StoreFacts TextFacts ListFacts ParseSpec.
Import Examples Samples.

(** The executor once the rows are read: the switch on the tool name. *)
Lemma executeTool_unfold (toolName : string) (args : obj) (rows : loc)
      (st : store) (rs : list obj) :
  holds st rows rs ->
  executeTool toolName args rows st
  = let availableHeaders := match rs with [] => [] | r0 :: _ => keys r0 end in
    (if String.eqb toolName "compute_column_stats"
     then compute_column_stats args rows availableHeaders
     else if String.eqb toolName "get_value_counts"
     then get_value_counts args rows
     else if String.eqb toolName "get_top_tweets"
     then get_top_tweets args rows availableHeaders
     else ret (Error ("Unknown tool: " ++ toolName)%string)) st.
Proof.
  intros (ls & Hrows & Hall). unfold executeTool, bind at 1, elements.
  rewrite Hrows. unfold bind at 1.
  destruct Hall as [|l r ls' rs' Hl Hall]; [reflexivity|].
  unfold firstKeys, bind at 1, object. rewrite Hl. reflexivity.
Qed.

(** [[...rows].sort(cmp)]: the rows in sorted order, and one new array. *)
Lemma sortedCopy_holds (st : store) (rows : loc) (rs : list obj)
      (cmp : obj -> obj -> float) :
  holds st rows rs ->
  exists ls,
    read st rows = Some (CArr ls)
    /\ Forall2 (fun l r => read st l = Some (CObj r)) ls rs
    /\ sortedCopy rows cmp st
       = (Ok (List.map snd (JsArray.sort (fun a b => cmp (snd a) (snd b))
                                         (combine ls rs))),
          st ++ [CArr (List.map fst
                         (JsArray.sort (fun a b => cmp (snd a) (snd b))
                                       (combine ls rs)))]).
Proof.
  intros (ls & Hrows & Hall). exists ls. split; [assumption|].
  split; [assumption|].
  unfold sortedCopy, bind at 1, elements. rewrite Hrows.
  unfold bind at 1. rewrite (@mapM_object_holds st ls rs Hall).
  unfold bind at 1, alloc. unfold bind, store_elements, ret.
  now rewrite write_app_length.
Qed.

(** ** The empty dataset *)

(** X9.  On a dataset without rows nothing throws.  [compute_column_stats]
    and [get_top_tweets] return an error whose list of available columns is
    empty and which names the column as the model wrote it;
    [get_value_counts] returns no error but an empty count over 0 rows.
    Only [get_top_tweets] allocates (the sorted copy). *)
Theorem executeTool_empty_dataset (args : obj) (rows : loc) (st : store) :
  holds st rows [] ->
  executeTool "compute_column_stats" args rows st
  = (Ok (Error ("No numeric values found in column " ++ dq
                ++ toStr (get args "column") ++ dq
                ++ ". Available columns: ")%string), st)
  /\ executeTool "get_value_counts" args rows st
     = (Ok (ValueCounts (get args "column") 0 []), st)
  /\ executeTool "get_top_tweets" args rows st
     = (Ok (Error ("No rows found. Column " ++ dq
                   ++ toStr (get args "sort_column") ++ dq
                   ++ " may not exist. Available: ")%string),
        st ++ [CArr []]).
Proof.
  intros H. pose proof (objects_holds H) as Hobjs.
  split; [|split].
  - rewrite (@executeTool_unfold _ args rows st [] H).
    change (String.eqb "compute_column_stats" "compute_column_stats") with true.
    cbv zeta iota. unfold compute_column_stats, bind. rewrite Hobjs.
    reflexivity.
  - rewrite (@executeTool_unfold _ args rows st [] H).
    change (String.eqb "get_value_counts" "compute_column_stats") with false.
    change (String.eqb "get_value_counts" "get_value_counts") with true.
    cbv zeta iota. unfold get_value_counts, bind. rewrite Hobjs.
    cbn [resolveCol lift ret fold_left List.length].
    change (entries []) with (@nil (string * value)).
    unfold JsArray.sliceTo. cbn [JsArray.sort fold_right].
    now rewrite firstn_nil.
  - rewrite (@executeTool_unfold _ args rows st [] H).
    change (String.eqb "get_top_tweets" "compute_column_stats") with false.
    change (String.eqb "get_top_tweets" "get_value_counts") with false.
    change (String.eqb "get_top_tweets" "get_top_tweets") with true.
    cbv zeta iota. unfold get_top_tweets, bind at 1. rewrite Hobjs.
    unfold bind at 1. cbn [resolveCol lift ret].
    destruct (sortedCopy_holds (byMetric (or_ (get args "sort_column")
                                              (get args "sort_column"))
                                         (coalesce (get args "ascending")
                                                   (VBool false))) H)
      as (ls & _ & Hall & Hsort).
    inversion Hall; subst. unfold bind. rewrite Hsort. cbn.
    replace (or_ (get args "sort_column") (get args "sort_column"))
      with (get args "sort_column") by (unfold or_; now destruct (truthy _)).
    destruct (JsArray.sliceTo _ _) eqn:E; [reflexivity|].
    unfold JsArray.sliceTo in E. now destruct (Z.to_nat _) in E.
Qed.

Lemma executeTool_empty_dataset_witness :
  executeTool "compute_column_stats" columnX (arrayOf []) (storeOf [])
  = (Ok (Error ("No numeric values found in column " ++ dq
                ++ toStr (get columnX "column") ++ dq
                ++ ". Available columns: ")%string), storeOf [])
  /\ executeTool "get_value_counts" columnX (arrayOf []) (storeOf [])
     = (Ok (ValueCounts (get columnX "column") 0 []), storeOf [])
  /\ executeTool "get_top_tweets" columnX (arrayOf []) (storeOf [])
     = (Ok (Error ("No rows found. Column " ++ dq
                   ++ toStr (get columnX "sort_column") ++ dq
                   ++ " may not exist. Available: ")%string),
        storeOf [] ++ [CArr []]).
Proof.
  apply (@executeTool_empty_dataset columnX (arrayOf []) (storeOf [])).
  apply (holds_storeOf []).
Defined.

(** ** Tool names that are not known *)

(** The YouTube executor once the videos are read. *)
Lemma videos_unfold (Img : Type) (generateImageFn : option (value -> value -> Img))
      (dateValue : value -> float) (toolName : string) (args : obj)
      (videos : loc) (anchorImage : value) (st : store) (vs : list obj) :
  holds st videos vs -> vs <> [] -> toolName <> "generateImage" ->
  exists ls,
    read st videos = Some (CArr ls)
    /\ Forall2 (fun l v => read st l = Some (CObj v)) ls vs
    /\ YoutubeTools.executeYoutubeTool generateImageFn dateValue toolName args
         (YoutubeTools.Channel (Some videos)) anchorImage st
       = (if String.eqb toolName "plot_metric_vs_time" then
            ret (YoutubeTools.plot_metric_vs_time dateValue args vs)
          else if String.eqb toolName "play_video"
          then YoutubeTools.play_video args ls
          else if String.eqb toolName "compute_stats_json" then
            ret (YoutubeTools.compute_stats_json args vs)
          else ret (YoutubeTools.Error ("Unknown tool: " ++ toolName)%string)) st.
Proof.
  intros (ls & Hv & Hall) Hne Hname. exists ls. split; [assumption|].
  split; [assumption|].
  unfold YoutubeTools.executeYoutubeTool, bind at 1, YoutubeTools.videosOf,
    elements. rewrite Hv.
  apply String.eqb_neq in Hname. rewrite Hname.
  destruct Hall as [|l v ls' vs' Hl Hall']; [contradiction|].
  cbn [JsArray.isEmpty andb].
  assert (Hm : mapM object (l :: ls') st = (Ok (v :: vs'), st)).
  { apply mapM_object_holds. now constructor. }
  destruct (String.eqb toolName "plot_metric_vs_time");
    [unfold bind; now rewrite Hm|].
  destruct (String.eqb toolName "play_video"); [reflexivity|].
  destruct (String.eqb toolName "compute_stats_json");
    [unfold bind; now rewrite Hm|].
  reflexivity.
Qed.

(** X10.  A tool name that an executor does not know is answered, not
    thrown: the CSV executor returns the error [Unknown tool: name] for
    every name but its three, and the YouTube executor, given a channel
    with videos, for every name but its four.  Neither touches the store;
    the names are compared as they are, in their exact case. *)
Theorem unknown_tool_names
        (Img : Type) (generateImageFn : option (value -> value -> Img))
        (dateValue : value -> float) (toolName : string) (args : obj)
        (csv : store) (rows : loc) (rs : list obj)
        (yt : store) (videos : loc) (vs : list obj) (anchorImage : value) :
  holds csv rows rs -> holds yt videos vs -> vs <> [] ->
  (~ In toolName ["compute_column_stats"; "get_value_counts";
                  "get_top_tweets"] ->
   executeTool toolName args rows csv
   = (Ok (Error ("Unknown tool: " ++ toolName)%string), csv))
  /\ (~ In toolName ["generateImage"; "plot_metric_vs_time"; "play_video";
                     "compute_stats_json"] ->
      YoutubeTools.executeYoutubeTool generateImageFn dateValue toolName args
        (YoutubeTools.Channel (Some videos)) anchorImage yt
      = (Ok (YoutubeTools.Error ("Unknown tool: " ++ toolName)%string), yt)).
Proof.
  intros H Hv Hne. split.
  - intros Hname. rewrite (@executeTool_unfold _ args rows csv rs H).
    cbv zeta.
    destruct (String.eqb_spec toolName "compute_column_stats") as [->|_];
      [exfalso; apply Hname; cbn; tauto|].
    destruct (String.eqb_spec toolName "get_value_counts") as [->|_];
      [exfalso; apply Hname; cbn; tauto|].
    destruct (String.eqb_spec toolName "get_top_tweets") as [->|_];
      [exfalso; apply Hname; cbn; tauto|].
    reflexivity.
  - intros Hname.
    destruct (@videos_unfold Img generateImageFn dateValue toolName args videos
                anchorImage yt vs Hv Hne) as (ls & _ & _ & ->).
    { intros ->. apply Hname. cbn. tauto. }
    destruct (String.eqb_spec toolName "plot_metric_vs_time") as [->|_];
      [exfalso; apply Hname; cbn; tauto|].
    destruct (String.eqb_spec toolName "play_video") as [->|_];
      [exfalso; apply Hname; cbn; tauto|].
    destruct (String.eqb_spec toolName "compute_stats_json") as [->|_];
      [exfalso; apply Hname; cbn; tauto|].
    reflexivity.
Qed.

(** [Play_Video] is not [play_video]. *)
Lemma unknown_tool_names_witness :
  executeTool "Play_Video" [] (arrayOf oneRow) (storeOf oneRow)
  = (Ok (Error "Unknown tool: Play_Video"), storeOf oneRow)
  /\ YoutubeTools.executeYoutubeTool (Img := unit) None (fun _ => nan)
       "Play_Video" [] (YoutubeTools.Channel (Some (arrayOf threeVideos)))
       VUndef (storeOf threeVideos)
     = (Ok (YoutubeTools.Error "Unknown tool: Play_Video"),
        storeOf threeVideos).
Proof.
  destruct (@unknown_tool_names unit None (fun _ => nan) "Play_Video" []
              (storeOf oneRow) (arrayOf oneRow) oneRow
              (storeOf threeVideos) (arrayOf threeVideos) threeVideos VUndef
              (holds_storeOf oneRow) (holds_storeOf threeVideos))
    as [Hcsv Hyt]; [discriminate|].
  split; [apply Hcsv|apply Hyt]; intros Hin;
    repeat (destruct Hin as [Hin|Hin]; [discriminate Hin|]); exact Hin.
Defined.

(** ** get_top_tweets *)

Lemma sort_pairs_unordered (cmp : obj -> obj -> float) (ls : list loc)
      (rs : list obj) :
  (forall a b, In a rs -> In b rs -> JsArray.after cmp a b = false) ->
  JsArray.sort (fun p q : loc * obj => cmp (snd p) (snd q)) (combine ls rs)
  = combine ls rs.
Proof.
  intros H. apply sort_unordered. intros [l a] [l' b] Ha Hb.
  apply in_combine_r in Ha, Hb. unfold JsArray.after. cbn [snd].
  now apply H.
Qed.

(** X11.  Sorting by a column that holds no number in any row (a column
    that does not exist, or a text column) is not an error:
    [get_top_tweets] answers with the first ten rows in the order of the
    file, ranked 1 to 10, whatever direction was asked for, because the
    comparator returns 0 for every pair. *)
Theorem get_top_tweets_unsortable_column
        (args : obj) (rows : loc) (st : store) (r0 : obj) (rs : list obj)
        (resolved : value) :
  holds st rows (r0 :: rs) ->
  resolveCol (r0 :: rs) (get args "sort_column") = Ok resolved ->
  get args "n" = VUndef ->
  let sortCol := or_ resolved (get args "sort_column") in
  (forall r, In r (r0 :: rs) ->
             isNaN (parseFloatV (get r (toStr sortCol))) = true) ->
  let hs := keys r0 in
  let asc := coalesce (get args "ascending") (VBool false) in
  let shown :=
    mapi (topRow (findOr (test true textExact) (test true textLike) hs)
                 (JsArray.find (test true favoriteCount) hs)
                 (JsArray.find (test true viewCount) hs)
                 (mem "engagement" hs))
         0 (firstn 10 (r0 :: rs)) in
  fst (executeTool "get_top_tweets" args rows st)
  = Ok (TopTweets sortCol
                  (if truthy asc then "ascending (lowest first)"
                   else "descending (highest first)")
                  (Nat.min 10 (S (List.length rs))) shown).
Proof.
  intros H Hcol Hn sortCol Hnan hs asc shown.
  rewrite (@executeTool_unfold _ args rows st (r0 :: rs) H).
  change (String.eqb "get_top_tweets" "compute_column_stats") with false.
  change (String.eqb "get_top_tweets" "get_value_counts") with false.
  change (String.eqb "get_top_tweets" "get_top_tweets") with true.
  cbv zeta iota. unfold get_top_tweets, bind at 1.
  rewrite (objects_holds H). unfold bind at 1. rewrite Hcol. cbn [lift ret].
  fold sortCol. fold asc. fold hs.
  destruct (sortedCopy_holds (byMetric sortCol asc) H)
    as (ls & _ & Hall & Hsort).
  unfold bind. rewrite Hsort.
  rewrite sort_pairs_unordered.
  - rewrite combine_map_snd by (now apply Forall2_length in Hall).
    rewrite Hn. change (or_ VUndef (VNum (ofNat 10))) with (VNum (ofNat 10)).
    cbn [toNum]. rewrite sliceTo_ten. fold shown.
    assert (Hlen : List.length shown = Nat.min 10 (S (List.length rs))).
    { unfold shown. rewrite mapi_length, length_firstn. reflexivity. }
    destruct shown as [|t ts] eqn:E.
    + exfalso. cbn in Hlen. lia.
    + cbn [fst ret]. now rewrite Hlen.
  - intros a b Ha Hb. unfold JsArray.after, byMetric.
    rewrite (Hnan a Ha). reflexivity.
Qed.

(** The language rows sorted by [likes], a column they do not have. *)
Lemma get_top_tweets_unsortable_column_witness :
  fst (executeTool "get_top_tweets" (sortBy "likes") (arrayOf spoken)
                   (storeOf spoken))
  = Ok (TopTweets (VStr "likes") "descending (highest first)" 4
          [ [("rank", VNum (ofNat 1))]; [("rank", VNum (ofNat 2))];
            [("rank", VNum (ofNat 3))]; [("rank", VNum (ofNat 4))] ]).
Proof.
  apply (@get_top_tweets_unsortable_column (sortBy "likes") (arrayOf spoken)
           (storeOf spoken) [("lang", VStr "en")] (tl spoken) (VStr "likes")).
  - apply (holds_storeOf spoken).
  - reflexivity.
  - reflexivity.
  - intros r Hr. cbn in Hr.
    destruct Hr as [<-|[<-|[<-|[<-|[]]]]]; reflexivity.
Defined.

Lemma find_test (re : regex) (hs : list string) (k : string) :
  test true re k = false ->
  key (JsArray.find (test true re) hs) <> k
  \/ missing (JsArray.find (test true re) hs) = true.
Proof.
  intros Hk. unfold JsArray.find.
  destruct (List.find (test true re) hs) as [h|] eqn:E; [|now right].
  left. apply find_some in E as [_ E]. cbn [key]. intros ->. congruence.
Qed.

(** Neither the rank nor the text of a reported row is overwritten by the
    metric columns that follow. *)
Lemma topRow_keeps (textCol : option string) (hs : list string) (engCol : bool)
      (i : nat) (r : obj) (k : string) :
  test true favoriteCount k = false -> test true viewCount k = false ->
  k <> "engagement" ->
  get (topRow textCol (JsArray.find (test true favoriteCount) hs)
              (JsArray.find (test true viewCount) hs) engCol i r) k
  = get (let out := [("rank", VNum (ofNat (i + 1)))] in
         if missing textCol then out
         else set out "text"
                  (VStr (take 150 (toStr (or_ (get r (key textCol))
                                              (VStr EmptyString)))))) k.
Proof.
  intros Hf Hv He. unfold topRow. cbv zeta.
  set (out1 := if missing textCol then _ else _).
  destruct (@find_test favoriteCount hs k Hf) as [Hfk|Hfm];
    destruct (@find_test viewCount hs k Hv) as [Hvk|Hvm];
    rewrite ?Hfm, ?Hvm;
    destruct engCol;
    repeat (rewrite get_set_other by congruence);
    try reflexivity;
    destruct (missing (JsArray.find (test true favoriteCount) hs));
    destruct (missing (JsArray.find (test true viewCount) hs));
    repeat (rewrite get_set_other by congruence); reflexivity.
Qed.

Lemma get_top_tweets_rows (args : obj) (rows : loc) (hs : list string)
      (st st' : store) (c : value) (d : string) (n : nat) (ts : list obj) :
  get_top_tweets args rows hs st = (Ok (TopTweets c d n ts), st') ->
  n = List.length ts
  /\ exists textCol engCol xs,
       ts = mapi (topRow textCol (JsArray.find (test true favoriteCount) hs)
                         (JsArray.find (test true viewCount) hs) engCol) 0 xs.
Proof.
  unfold get_top_tweets, bind.
  destruct (objects rows st) as [[rs|e] st1]; [|discriminate].
  destruct (lift _ st1) as [[resolved|e] st2]; [|discriminate].
  destruct (sortedCopy _ _ st2) as [[sorted|e] st3]; [|discriminate].
  destruct (mapi _ 0 _) as [|t ts'] eqn:E; [discriminate|].
  unfold ret. intros H. injection H as <- <- <- <- <-.
  split; [reflexivity|]. eauto.
Qed.

(** X12.  Whatever the arguments and the data, a successful answer of
    [get_top_tweets] lists at least one tweet, its [count] is the number of
    tweets listed, the tweets are ranked 1, 2, 3, ... in the order they are
    listed, and a [text] that is a string has at most 150 characters: no
    column of the file can overwrite [rank] or [text]. *)
Theorem get_top_tweets_rank_and_text
        (args : obj) (rows : loc) (st st' : store)
        (c : value) (d : string) (n : nat) (ts : list obj) :
  executeTool "get_top_tweets" args rows st = (Ok (TopTweets c d n ts), st') ->
  n = List.length ts
  /\ ts <> []
  /\ forall i t,
       nth_error ts i = Some t ->
       get t "rank" = VNum (ofNat (i + 1))
       /\ forall s, get t "text" = VStr s -> String.length s <= 150.
Proof.
  unfold executeTool, bind at 1.
  destruct (elements rows st) as [[ls|e] st1]; [|discriminate].
  unfold bind at 1.
  destruct (firstKeys ls st1) as [[hs|e] st2]; [|discriminate].
  change (String.eqb "get_top_tweets" "compute_column_stats") with false.
  change (String.eqb "get_top_tweets" "get_value_counts") with false.
  change (String.eqb "get_top_tweets" "get_top_tweets") with true.
  cbv iota. intros H.
  pose proof H as Hshape. unfold get_top_tweets, bind in Hshape.
  apply get_top_tweets_rows in H as (-> & textCol & engCol & xs & ->).
  split; [reflexivity|]. split.
  - destruct (objects rows st2) as [[rs|e] st3]; [|discriminate].
    destruct (lift _ st3) as [[resolved|e] st4]; [|discriminate].
    destruct (sortedCopy _ _ st4) as [[sorted|e] st5]; [|discriminate].
    destruct (mapi _ 0 _) as [|t ts'] eqn:E; [discriminate|].
    injection Hshape as _ _ _ <- _. discriminate.
  - intros i t Ht. apply mapi_nth in Ht as (x & _ & ->). cbn [Nat.add].
    split.
    + rewrite topRow_keeps by (reflexivity || discriminate).
      cbv zeta. destruct (missing textCol); [reflexivity|].
      now rewrite get_set_other by discriminate.
    + intros s. rewrite topRow_keeps by (reflexivity || discriminate).
      cbv zeta. destruct (missing textCol); [discriminate|].
      rewrite get_set_same by discriminate. intros [= <-]. apply take_length.
Qed.

(** The tweet "hello, world", sorted by its views. *)
Lemma get_top_tweets_rank_and_text_witness :
  let shown := [ [("rank", VNum (ofNat 1)); ("text", VStr "hello, world");
                  ("View Count", VStr "250")] ] in
  1 = List.length shown
  /\ shown <> []
  /\ forall i t,
       nth_error shown i = Some t ->
       get t "rank" = VNum (ofNat (i + 1))
       /\ forall s, get t "text" = VStr s -> String.length s <= 150.
Proof.
  apply (@get_top_tweets_rank_and_text (sortBy "View Count") (arrayOf [tweet])
           (storeOf [tweet]) (storeOf [tweet] ++ [CArr [0]])
           (VStr "View Count") "descending (highest first)").
  vm_compute. reflexivity.
Defined.

(** ** get_value_counts *)

Lemma put_keys (o : obj) (k k' : string) (v : value) :
  In k' (List.map fst (put o k v)) -> k' = k \/ In k' (List.map fst o).
Proof.
  induction o as [|[k0 v0] o IH]; cbn [put List.map fst In].
  - intros [H|[]]. now left.
  - destruct (String.eqb k0 k); cbn [List.map fst In]; intuition.
Qed.

Lemma put_length (o : obj) (k : string) (v : value) :
  List.length (put o k v) <= S (List.length o).
Proof.
  induction o as [|[k0 v0] o IH]; cbn [put List.length]; [lia|].
  destruct (String.eqb k0 k); cbn [List.length]; lia.
Qed.

Lemma set_keys (o : obj) (k k' : string) (v : value) :
  In k' (List.map fst (set o k v)) -> k' = k \/ In k' (List.map fst o).
Proof.
  unfold set. destruct (_ && _); [now right|apply put_keys].
Qed.

Lemma fromEntries_keys (es : list (string * value)) :
  forall acc k,
    In k (List.map fst (fold_left (fun o '(k, v) => define o k v) es acc)) ->
    In k (List.map fst es) \/ In k (List.map fst acc).
Proof.
  induction es as [|[k0 v0] es IH]; intros acc k H; [now right|].
  cbn [fold_left] in H. apply IH in H as [H|H]; [left; now right|].
  apply put_keys in H as [->|H]; [left; now left|now right].
Qed.

Lemma fromEntries_length (es : list (string * value)) :
  forall acc,
    List.length (fold_left (fun o '(k, v) => define o k v) es acc)
    <= List.length es + List.length acc.
Proof.
  induction es as [|[k0 v0] es IH]; intros acc; [cbn; lia|].
  cbn [fold_left List.length]. specialize (IH (define acc k0 v0)).
  pose proof (put_length acc k0 v0). unfold define in *. lia.
Qed.

Lemma insertKey_keys (n : Z) (k k' : string) (ks : list (Z * string)) :
  In k' (List.map snd (insertKey n k ks)) ->
  k' = k \/ In k' (List.map snd ks).
Proof.
  induction ks as [|[m k0] ks IH]; cbn [insertKey List.map snd In].
  - intros [H|[]]. now left.
  - destruct (n <? m)%Z; cbn [List.map snd In]; intuition.
Qed.

Lemma indexKeys_sub (ks : list string) (k : string) :
  In k (indexKeys ks) -> In k ks.
Proof.
  unfold indexKeys.
  assert (H : forall acc,
             In k (List.map snd
                     (fold_left (fun acc k => match arrayIndex k with
                                              | Some n => insertKey n k acc
                                              | None => acc
                                              end) ks acc)) ->
             In k ks \/ In k (List.map snd acc)).
  { induction ks as [|k0 ks IH]; intros acc H; [now right|].
    cbn [fold_left] in H. apply IH in H as [H|H]; [left; now right|].
    destruct (arrayIndex k0); [|now right].
    apply insertKey_keys in H as [->|H]; [left; now left|now right]. }
  intros Hin. now destruct (H [] Hin).
Qed.

Lemma keys_sub (o : obj) (k : string) : In k (keys o) -> In k (List.map fst o).
Proof.
  unfold keys. rewrite in_app_iff. intros [H|H].
  - now apply indexKeys_sub.
  - unfold nameKeys in H. now apply filter_In in H.
Qed.

(** Every counted value is the text of a cell of the column. *)
Lemma counts_keys (col : value) (rs : list obj) :
  forall acc k,
    In k (List.map fst (fold_left (fun c r => countRow c r col) rs acc)) ->
    In k (List.map fst acc)
    \/ exists r, In r rs /\ counted (get r (toStr col)) = true
                /\ k = toStr (get r (toStr col)).
Proof.
  induction rs as [|r rs IH]; intros acc k H; [now left|].
  cbn [fold_left] in H. apply IH in H as [H|(r' & Hr' & Hc & ->)].
  - unfold countRow in H. destruct (counted (get r (toStr col))) eqn:E.
    + apply set_keys in H as [->|H]; [|now left].
      right. exists r. repeat split; [now left|assumption].
    + now left.
  - right. exists r'. repeat split; [now right|assumption].
Qed.

(** X13.  Without [top_n], [get_value_counts] reports at most ten values;
    [total_rows] is the number of all rows, also those it did not count; the
    store is unchanged; and every value reported is the text of a cell of
    the column in some row, a cell that is neither [undefined] nor the empty
    string. *)
Theorem get_value_counts_default_top_ten
        (args : obj) (rows : loc) (st : store) (rs : list obj) (col : value) :
  holds st rows rs ->
  resolveCol rs (get args "column") = Ok col ->
  get args "top_n" = VUndef ->
  exists value_counts,
    executeTool "get_value_counts" args rows st
    = (Ok (ValueCounts col (List.length rs) value_counts), st)
    /\ List.length value_counts <= 10
    /\ forall k,
         In k (List.map fst value_counts) ->
         exists r, In r rs /\ counted (get r (toStr col)) = true
                   /\ k = toStr (get r (toStr col)).
Proof.
  intros H Hcol Hn.
  rewrite (@executeTool_unfold _ args rows st rs H).
  change (String.eqb "get_value_counts" "compute_column_stats") with false.
  change (String.eqb "get_value_counts" "get_value_counts") with true.
  cbv zeta iota. unfold get_value_counts, bind.
  rewrite (objects_holds H), Hcol. cbn [lift ret]. rewrite Hn.
  change (or_ VUndef (VNum (ofNat 10))) with (VNum (ofNat 10)).
  cbn [toNum]. rewrite sliceTo_ten.
  eexists. split; [reflexivity|]. split.
  - unfold fromEntries. etransitivity; [apply fromEntries_length|].
    rewrite length_firstn. cbn [List.length]. lia.
  - intros k Hk. unfold fromEntries in Hk.
    apply fromEntries_keys in Hk as [Hk|[]].
    apply in_map_iff in Hk as ([k' v] & <- & Hin). cbn [fst].
    apply firstn_sub in Hin. apply sort_In in Hin.
    unfold entries in Hin. apply in_map_iff in Hin as (k0 & [= <- _] & Hin).
    apply keys_sub in Hin.
    apply counts_keys in Hin as [[]|Hin]. exact Hin.
Qed.

(** The languages of four rows, one of them empty. *)
Lemma get_value_counts_default_top_ten_witness :
  exists value_counts,
    executeTool "get_value_counts" (column "lang") (arrayOf spoken)
                (storeOf spoken)
    = (Ok (ValueCounts (VStr "lang") (List.length spoken) value_counts),
       storeOf spoken)
    /\ List.length value_counts <= 10
    /\ forall k,
         In k (List.map fst value_counts) ->
         exists r, In r spoken /\ counted (get r (toStr (VStr "lang"))) = true
                   /\ k = toStr (get r (toStr (VStr "lang"))).
Proof.
  apply (@get_value_counts_default_top_ten (column "lang") (arrayOf spoken)
           (storeOf spoken) spoken (VStr "lang")).
  - apply (holds_storeOf spoken).
  - reflexivity.
  - reflexivity.
Defined.

End ExecutorSpec.

(* ================================================================== *)
(** * youtubeTools.js: reading a duration *)
(* ================================================================== *)

Module DurationSpec.
Import JsString JsNumber JsValue Regex Store YoutubeTools.
Import StringFacts TextFacts ResolveSpec YoutubeSpec.

(** What a group adds to the captures. *)
Lemma rmatch_grp_plus (n : nat) (p : ascii -> bool) (prev : option ascii)
      (s : string) (caps : captures) :
  rmatch false (Grp n (Plus p)) (prev, s, caps)
  = List.map (fun '(p', s', caps') => (p', s', (n, consumed s s') :: caps'))
             (plus_from p s caps).
Proof. reflexivity. Qed.

(** After a run of digits, the letter of the unit: one way to match, the
    one that takes the whole run. *)
Lemma digits_then_letter (n : nat) (L : ascii) (s0 d tail : string)
      (caps : captures) :
  isDigit L = false -> forallb isDigit (list_ascii_of_string d) = true ->
  flat_map (rmatch false (Chr L))
           (List.map (fun '(p', s', caps') =>
                        (p', s', (n, consumed s0 s') :: caps'))
                     (plus_from digit (d ++ String L tail) caps))
  = match d with
    | EmptyString => []
    | _ => [(Some L, tail, (n, consumed s0 (String L tail)) :: caps)]
    end.
Proof.
  intros HL. induction d as [|c d IH]; intros Hd.
  - cbn [String.append plus_from]. unfold digit. now rewrite HL.
  - cbn [list_ascii_of_string forallb] in Hd.
    apply andb_prop in Hd as [Hc Hd].
    cbn [String.append plus_from]. change (digit c) with (isDigit c). rewrite Hc.
    rewrite map_app, flat_map_app.
    etransitivity; [apply f_equal2; [exact (IH Hd)|reflexivity]|].
    cbn [List.map flat_map]. rewrite app_nil_r.
    destruct d as [|c' d].
    + cbn [String.append rmatch app]. now rewrite Ascii.eqb_refl.
    + cbn [String.append rmatch].
      cbn [list_ascii_of_string forallb] in Hd.
      apply andb_prop in Hd as [Hc' _].
      destruct (Ascii.eqb_spec L c') as [<-|_]; [congruence|].
      now rewrite app_nil_r.
Qed.

(** A unit that is not written: what follows is a run of digits and then
    the end of the text or a character that is neither a digit nor the
    unit's letter. *)
Lemma digits_then_other (n : nat) (L : ascii) (s0 d t : string)
      (caps : captures) :
  isDigit L = false -> forallb isDigit (list_ascii_of_string d) = true ->
  match t with
  | EmptyString => True
  | String c _ => isDigit c = false /\ c <> L
  end ->
  flat_map (rmatch false (Chr L))
           (List.map (fun '(p', s', caps') =>
                        (p', s', (n, consumed s0 s') :: caps'))
                     (plus_from digit (d ++ t) caps))
  = [].
Proof.
  intros HL Hd Ht. induction d as [|c d IH].
  - cbn [String.append]. destruct t as [|c t]; [reflexivity|].
    destruct Ht as [Hc _]. cbn [plus_from]. unfold digit. now rewrite Hc.
  - cbn [list_ascii_of_string forallb] in Hd.
    apply andb_prop in Hd as [Hc Hd].
    cbn [String.append plus_from]. change (digit c) with (isDigit c). rewrite Hc.
    rewrite map_app, flat_map_app.
    etransitivity; [apply f_equal2; [exact (IH Hd)|reflexivity]|].
    cbn [List.map flat_map app]. rewrite app_nil_r.
    destruct d as [|c' d].
    + cbn [String.append]. destruct t as [|c' t]; [reflexivity|].
      destruct Ht as [_ Hne]. cbn [rmatch].
      destruct (Ascii.eqb_spec L c') as [<-|_]; [contradiction|reflexivity].
    + cbn [String.append rmatch].
      cbn [list_ascii_of_string forallb] in Hd.
      apply andb_prop in Hd as [Hc' _].
      destruct (Ascii.eqb_spec L c') as [<-|_]; [congruence|reflexivity].
Qed.

Lemma unit_written (n : nat) (L : ascii) (prev : option ascii)
      (d tail : string) (caps : captures) :
  isDigit L = false -> d <> EmptyString ->
  forallb isDigit (list_ascii_of_string d) = true ->
  rmatch false (unit_ n L) (prev, (d ++ String L tail)%string, caps)
  = [ (Some L, tail, (n, d) :: caps);
      (prev, (d ++ String L tail)%string, caps) ].
Proof.
  intros HL Hne Hd. unfold unit_.
  change (rmatch false (Opt ?r) ?st) with (rmatch false r st ++ [st]).
  rewrite rmatch_seq, rmatch_grp_plus, digits_then_letter by assumption.
  rewrite consumed_prefix. now destruct d.
Qed.

Lemma unit_left_out (n : nat) (L : ascii) (prev : option ascii)
      (d t : string) (caps : captures) :
  isDigit L = false ->
  forallb isDigit (list_ascii_of_string d) = true ->
  match t with
  | EmptyString => True
  | String c _ => isDigit c = false /\ c <> L
  end ->
  rmatch false (unit_ n L) (prev, (d ++ t)%string, caps)
  = [ (prev, (d ++ t)%string, caps) ].
Proof.
  intros HL Hd Ht. unfold unit_.
  change (rmatch false (Opt ?r) ?st) with (rmatch false r st ++ [st]).
  rewrite rmatch_seq, rmatch_grp_plus, digits_then_other by assumption.
  reflexivity.
Qed.

Lemma seq_head (r R : regex) (st st1 : pos) (rest : list pos) :
  rmatch false r st = st1 :: rest ->
  rmatch false R st1 <> [] ->
  hd_error (rmatch false (Seq r R) st) = hd_error (rmatch false R st1).
Proof.
  intros Hr HR. rewrite rmatch_seq, Hr. cbn [flat_map].
  now destruct (rmatch false R st1).
Qed.

Lemma parseDuration_head (rest : string) (p : option ascii) (s' : string)
      (caps : captures) :
  hd_error (rmatch false duration (None, String "P" (String "T" rest), []))
  = Some (p, s', caps) ->
  parseDuration (VStr (String "P" (String "T" rest)))
  = Some (groupInt 1 caps * ofNat 3600 + groupInt 2 caps * ofNat 60
          + groupInt 3 caps)%float.
Proof.
  intros H. unfold parseDuration. cbn [isEmpty].
  unfold exec. cbn [search]. unfold match_here.
  destruct (rmatch false duration _) as [|[[p0 s0] c0] l]; [discriminate|].
  now injection H as -> -> ->.
Qed.

Lemma groupInt_written (n : nat) (d : string) (caps : captures) :
  d <> EmptyString -> groupInt n ((n, d) :: caps) = parseInt10 d.
Proof.
  intros H. unfold groupInt. cbn [group]. rewrite Nat.eqb_refl.
  now destruct d.
Qed.

(** X14.  A duration written as [PT], then any of hours, minutes and seconds
    in this order, each a non-empty run of digits followed by [H], [M] or
    [S], is read as hours * 3600 + minutes * 60 + seconds, a unit that is
    left out counting as 0.  So [PT] alone is 0 seconds, not [null]. *)
Theorem parseDuration_hours_minutes_seconds (h m s : option string) :
  (forall d, In (Some d) [h; m; s] ->
             d <> EmptyString
             /\ forallb isDigit (list_ascii_of_string d) = true) ->
  let part (o : option string) (letter : string) :=
    match o with Some d => (d ++ letter)%string | None => EmptyString end in
  let number (o : option string) :=
    parseInt10 (match o with Some d => d | None => "0" end) in
  parseDuration (VStr ("PT" ++ part h "H" ++ part m "M" ++ part s "S"))
  = Some (number h * ofNat 3600 + number m * ofNat 60 + number s)%float.
Proof.
  intros Hd part number.
  assert (Hh : forall d, h = Some d -> d <> EmptyString
             /\ forallb isDigit (list_ascii_of_string d) = true).
  { intros d ->. apply Hd. now left. }
  assert (Hm : forall d, m = Some d -> d <> EmptyString
             /\ forallb isDigit (list_ascii_of_string d) = true).
  { intros d ->. apply Hd. right. now left. }
  assert (Hs : forall d, s = Some d -> d <> EmptyString
             /\ forallb isDigit (list_ascii_of_string d) = true).
  { intros d ->. apply Hd. right. right. now left. }
  clear Hd.
  change ("PT" ++ part h "H" ++ part m "M" ++ part s "S")%string
    with (String "P" (String "T" (part h "H" ++ part m "M" ++ part s "S"))).
  set (u2 := unit_ 2 "M"). set (u3 := unit_ 3 "S").
  assert (H3 : forall prev caps,
             hd_error (rmatch false u3 (prev, part s "S", caps))
             = Some (match s with Some _ => Some "S"%char | None => prev end,
                     EmptyString,
                     match s with Some d => (3, d) :: caps | None => caps end)).
  { intros prev caps. unfold u3, part. destruct s as [ds|].
    - destruct (Hs ds eq_refl) as [Hne Hds].
      now rewrite unit_written.
    - pose proof (@unit_left_out 3 "S" prev "" "" caps eq_refl eq_refl I) as E.
      cbn [String.append] in E. now rewrite E. }
  assert (N3 : forall st, rmatch false u3 st <> []).
  { intros st. apply rmatch_opt_nonempty. }
  assert (H2 : forall prev caps,
             hd_error (rmatch false (Seq u2 u3)
                              (prev, (part m "M" ++ part s "S")%string, caps))
             = hd_error (rmatch false u3
                 (match m with Some _ => Some "M"%char | None => prev end,
                  part s "S",
                  match m with Some d => (2, d) :: caps | None => caps end))).
  { intros prev caps. unfold u2, part at 1. destruct m as [dm|].
    - destruct (Hm dm eq_refl) as [Hne Hdm].
      rewrite <- append_assoc. eapply seq_head; [|apply N3].
      now apply unit_written.
    - cbn [String.append]. eapply seq_head; [|apply N3].
      unfold part. destruct s as [ds|].
      + destruct (Hs ds eq_refl) as [Hne Hds].
        apply unit_left_out; [reflexivity|assumption|].
        split; [reflexivity|discriminate].
      + now apply (@unit_left_out 2 "M" prev "" "" caps). }
  assert (N2 : forall st, rmatch false (Seq u2 u3) st <> []).
  { intros st. apply rmatch_opt_seq_nonempty. exact N3. }
  assert (H1 : forall prev caps,
             hd_error (rmatch false (Seq (unit_ 1 "H") (Seq u2 u3))
                        (prev, (part h "H" ++ part m "M" ++ part s "S")%string,
                         caps))
             = hd_error (rmatch false (Seq u2 u3)
                 (match h with Some _ => Some "H"%char | None => prev end,
                  (part m "M" ++ part s "S")%string,
                  match h with Some d => (1, d) :: caps | None => caps end))).
  { intros prev caps. unfold part at 1. destruct h as [dh|].
    - destruct (Hh dh eq_refl) as [Hne Hdh].
      rewrite <- append_assoc. eapply seq_head; [|apply N2].
      now apply unit_written.
    - cbn [String.append]. eapply seq_head; [|apply N2].
      unfold part. destruct m as [dm|].
      + destruct (Hm dm eq_refl) as [Hne Hdm]. rewrite <- append_assoc.
        apply unit_left_out; [reflexivity|assumption|].
        split; [reflexivity|discriminate].
      + cbn [String.append]. destruct s as [ds|].
        * destruct (Hs ds eq_refl) as [Hne Hds].
          apply unit_left_out; [reflexivity|assumption|].
          split; [reflexivity|discriminate].
        * now apply (@unit_left_out 1 "H" prev "" "" caps). }
  erewrite parseDuration_head.
  2:{ change duration
        with (Seq (lit "PT") (Seq (unit_ 1 "H") (Seq u2 u3))).
      erewrite seq_head; [|apply rmatch_PT_some|].
      - rewrite H1, H2. apply H3.
      - apply rmatch_opt_seq_nonempty. exact N2. }
  unfold number.
  destruct h as [dh|], m as [dm|], s as [ds|];
    repeat match goal with
           | H : forall d, Some ?x = Some d -> _ |- _ =>
               destruct (H x eq_refl) as [? _]; clear H
           end;
    unfold groupInt; cbn [group Nat.eqb];
    repeat match goal with
           | Hne : ?d <> EmptyString |- context [isEmpty ?d] =>
               replace (isEmpty d) with false by (now destruct d)
           end;
    reflexivity.
Qed.

(** One hour and thirty seconds; no minutes are written. *)
Lemma parseDuration_hours_minutes_seconds_witness :
  parseDuration (VStr "PT1H30S")
  = Some (parseInt10 "1" * ofNat 3600 + parseInt10 "0" * ofNat 60
          + parseInt10 "30")%float.
Proof.
  apply (@parseDuration_hours_minutes_seconds (Some "1") None (Some "30")).
  intros d [E|[E|[E|[]]]]; try discriminate E;
    injection E as <-; (split; [discriminate|reflexivity]).
Defined.

End DurationSpec.

(* ================================================================== *)
(** * youtubeTools.js: the selectors of play_video *)
(* ================================================================== *)

Module SelectorSpec.
Import JsString JsNumber JsValue Regex Store YoutubeTools.
Import StringFacts StoreFacts TextFacts ListFacts ParseSpec ExecutorSpec.
Import Examples.

Section Selectors.
Variable Img : Type.
Variable generateImageFn : option (value -> value -> Img).
Variable dateValue : value -> float.

(** The card of the video an index points to, or the error. *)
Lemma answer_holds (st : store) (ls : list loc) (vs : list obj)
      (i : nat) (selector : value) :
  Forall2 (fun l v => read st l = Some (CObj v)) ls vs ->
  @answer Img (nth_error ls i) selector st
  = (Ok match nth_error vs i with
        | Some v => card v
        | None => Error ("No video found for " ++ dq ++ toStr selector ++ dq)
        end, st).
Proof.
  intros Hall. revert i.
  induction Hall as [|l v ls vs Hl _ IH]; intros [|i]; cbn [nth_error];
    try reflexivity.
  - cbn [answer]. unfold bind, object. now rewrite Hl.
  - apply IH.
Qed.

(** [play_video] runs on the locations of the videos. *)
Lemma play_video_run (st : store) (videos : loc) (vs : list obj) (args : obj)
      (anchorImage : value) :
  holds st videos vs -> vs <> [] ->
  exists ls,
    Forall2 (fun l v => read st l = Some (CObj v)) ls vs
    /\ executeYoutubeTool generateImageFn dateValue "play_video" args
         (Channel (Some videos)) anchorImage st
       = play_video args ls st.
Proof.
  intros H Hne.
  destruct (@videos_unfold Img generateImageFn dateValue "play_video" args
              videos anchorImage st vs H Hne) as (ls & _ & Hall & E);
    [discriminate|].
  exists ls. split; [assumption|]. exact E.
Qed.

Lemma selector_text (args : obj) (raw : string) :
  get args "selector" = VStr raw ->
  or_ (get args "selector") (VStr EmptyString) = VStr raw.
Proof. intros ->. unfold or_. cbn [truthy]. now destruct raw. Qed.

(** X15.  The ordinal words: whatever the case of the selector and the white
    space around it, [first] to [fifth] and [1st] to [5th] pick the video at
    index 0 to 4 of the channel, in the order of the file; when the channel
    is shorter the answer is the error [No video found for] with the
    selector as the model wrote it.  The store is unchanged. *)
Theorem play_video_ordinal_words
        (st : store) (videos : loc) (vs : list obj) (args : obj)
        (anchorImage : value) (raw word : string) (i : nat) :
  holds st videos vs -> vs <> [] ->
  get args "selector" = VStr raw ->
  trim (toLowerCase raw) = word ->
  In (word, i) [ ("first", 0); ("second", 1); ("third", 2); ("fourth", 3);
                 ("fifth", 4); ("1st", 0); ("2nd", 1); ("3rd", 2); ("4th", 3);
                 ("5th", 4) ] ->
  executeYoutubeTool generateImageFn dateValue "play_video" args
    (Channel (Some videos)) anchorImage st
  = (Ok match nth_error vs i with
        | Some v => card v
        | None => Error ("No video found for " ++ dq ++ raw ++ dq)
        end, st).
Proof.
  intros H Hne Hsel Hword Hin.
  destruct (play_video_run args anchorImage H Hne) as (ls & Hall & ->).
  transitivity (@answer Img (nth_error ls i) (VStr raw) st);
    [|exact (@answer_holds st ls vs i (VStr raw) Hall)].
  unfold play_video. rewrite (selector_text _ Hsel). cbv zeta.
  rewrite Hword, Hsel.
  cbn [In] in Hin.
  repeat (destruct Hin as [Hin|Hin]; [injection Hin as <- <-; reflexivity|]).
  contradiction.
Qed.

(** X16.  [last] and [most recent] both pick the last video of the list as
    it is stored, whatever the dates of the videos: no date is read. *)
Theorem play_video_last
        (st : store) (videos : loc) (vs : list obj) (args : obj)
        (anchorImage : value) (raw : string) :
  holds st videos vs -> vs <> [] ->
  get args "selector" = VStr raw ->
  In (trim (toLowerCase raw)) ["last"; "most recent"] ->
  executeYoutubeTool generateImageFn dateValue "play_video" args
    (Channel (Some videos)) anchorImage st
  = (Ok (card (last vs [])), st).
Proof.
  intros H Hne Hsel Hin.
  destruct (play_video_run args anchorImage H Hne) as (ls & Hall & ->).
  transitivity (@answer Img (nth_error ls (List.length ls - 1)) (VStr raw) st).
  - unfold play_video. rewrite (selector_text _ Hsel). cbv zeta. rewrite Hsel.
    cbn [In] in Hin. destruct Hin as [<-|[<-|[]]]; reflexivity.
  - rewrite (@answer_holds st ls vs _ (VStr raw) Hall).
    rewrite (Forall2_length Hall), (@nth_error_last obj vs [] Hne).
    reflexivity.
Qed.

(** The search by title over the videos in the store. *)
Lemma findByTitle_holds (sel : string) (st : store) (ls : list loc)
      (vs : list obj) :
  Forall2 (fun l v => read st l = Some (CObj v)) ls vs ->
  (forall v, In v vs ->
             exists t, or_ (get v "title") (VStr EmptyString) = VStr t) ->
  exists found,
    findByTitle sel ls st = (Ok found, st)
    /\ match List.find (fun v =>
                          match or_ (get v "title") (VStr EmptyString) with
                          | VStr t => includes sel (toLowerCase t)
                          | _ => false
                          end) vs with
       | Some v => exists l, found = Some l /\ read st l = Some (CObj v)
       | None => found = None
       end.
Proof.
  induction 1 as [|l v ls vs Hl _ IH]; intros Htitles.
  - now exists None.
  - cbn [findByTitle List.find]. unfold bind at 1, object at 1. rewrite Hl.
    destruct (Htitles v (or_introl eq_refl)) as [t Ht]. rewrite Ht.
    destruct (includes sel (toLowerCase t)).
    + exists (Some l). split; [reflexivity|]. now exists l.
    + apply IH. intros v' Hv'. apply Htitles. now right.
Qed.

(** X17.  A selector that is none of the fixed words, no ordinal, not
    [video N] and not a number is searched for in the titles: the answer is
    the first video of the channel, in stored order, whose lower-cased title
    contains the trimmed, lower-cased selector, and the error when there is
    none.  (Each title is taken to be a string or missing.) *)
Theorem play_video_by_title
        (st : store) (videos : loc) (vs : list obj) (args : obj)
        (anchorImage : value) (raw : string) :
  holds st videos vs -> vs <> [] ->
  or_ (get args "selector") (VStr EmptyString) = VStr raw ->
  let sel := trim (toLowerCase raw) in
  ~ In sel ["first"; "1"; "last"; "most recent"; "most viewed";
            "least viewed"] ->
  nullish (get ordinals sel) = true ->
  exec false videoNum sel = None ->
  test false plain sel = false ->
  (forall v, In v vs ->
             exists t, or_ (get v "title") (VStr EmptyString) = VStr t) ->
  executeYoutubeTool generateImageFn dateValue "play_video" args
    (Channel (Some videos)) anchorImage st
  = (Ok match List.find (fun v =>
                           match or_ (get v "title") (VStr EmptyString) with
                           | VStr t => includes sel (toLowerCase t)
                           | _ => false
                           end) vs with
        | Some v => card v
        | None => Error ("No video found for " ++ dq
                         ++ toStr (get args "selector") ++ dq)
        end, st).
Proof.
  intros H Hne Hsel sel Hwords Hord Hnum Hplain Htitles.
  destruct (play_video_run args anchorImage H Hne) as (ls & Hall & ->).
  unfold play_video. rewrite Hsel. cbv zeta. fold sel.
  rewrite Hord, Hnum, Hplain. cbn [negb inRange].
  assert (Hne' : forall w, In w ["first"; "1"; "last"; "most recent";
                                "most viewed"; "least viewed"] ->
                          String.eqb sel w = false).
  { intros w Hw. apply String.eqb_neq. intros E. apply Hwords. now rewrite E. }
  rewrite !Hne' by (cbn; tauto). cbn [orb].
  destruct (@findByTitle_holds sel st ls vs Hall Htitles) as (found & Hfind & Hfound).
  unfold bind. rewrite Hfind.
  destruct (List.find _ vs) as [v|].
  - destruct Hfound as (l & -> & Hl). cbn [answer]. unfold bind, object.
    now rewrite Hl.
  - now rewrite Hfound.
Qed.

End Selectors.

(** [Second ] is the second video. *)
Lemma play_video_ordinal_words_witness :
  executeYoutubeTool (Img := unit) None (fun _ => nan) "play_video"
    (select "Second ") (Channel (Some (arrayOf threeVideos))) VUndef
    (storeOf threeVideos)
  = (Ok (card (video "B" 30)), storeOf threeVideos).
Proof.
  apply (@play_video_ordinal_words unit None (fun _ => nan)
           (storeOf threeVideos) (arrayOf threeVideos) threeVideos
           (select "Second ") VUndef "Second " "second" 1).
  - apply (holds_storeOf threeVideos).
  - discriminate.
  - reflexivity.
  - reflexivity.
  - right. now left.
Defined.

Lemma play_video_last_witness :
  executeYoutubeTool (Img := unit) None (fun _ => nan) "play_video"
    (select "Most Recent") (Channel (Some (arrayOf threeVideos))) VUndef
    (storeOf threeVideos)
  = (Ok (card (video "C" 20)), storeOf threeVideos).
Proof.
  apply (@play_video_last unit None (fun _ => nan)
           (storeOf threeVideos) (arrayOf threeVideos) threeVideos
           (select "Most Recent") VUndef "Most Recent").
  - apply (holds_storeOf threeVideos).
  - discriminate.
  - reflexivity.
  - right. now left.
Defined.

(** The selector [b] finds the video titled B. *)
Lemma play_video_by_title_witness :
  executeYoutubeTool (Img := unit) None (fun _ => nan) "play_video"
    (select "b") (Channel (Some (arrayOf threeVideos))) VUndef
    (storeOf threeVideos)
  = (Ok (card (video "B" 30)), storeOf threeVideos).
Proof.
  apply (@play_video_by_title unit None (fun _ => nan)
           (storeOf threeVideos) (arrayOf threeVideos) threeVideos
           (select "b") VUndef "b").
  - apply (holds_storeOf threeVideos).
  - discriminate.
  - reflexivity.
  - intros Hin. repeat (destruct Hin as [Hin|Hin]; [discriminate Hin|]).
    exact Hin.
  - reflexivity.
  - reflexivity.
  - reflexivity.
  - intros v [<-|[<-|[<-|[]]]]; eexists; reflexivity.
Defined.

End SelectorSpec.

(* ================================================================== *)
(** * youtubeTools.js: the points of plot_metric_vs_time *)
(* ================================================================== *)

Module PlotSpec.
Import JsString JsNumber JsValue Regex Store YoutubeTools.
Import StringFacts StoreFacts TextFacts ListFacts ExecutorSpec.
Import Examples Samples.

Lemma keep_valid (o : option float) (x : float) :
  In x (keep o) -> isNaN x = false.
Proof.
  destruct o as [y|]; cbn [keep]; [|contradiction].
  destruct (isNaN y) eqn:E; [contradiction|].
  intros [<-|[]]. exact E.
Qed.

Lemma keep_length (o : option float) : List.length (keep o) <= 1.
Proof.
  destruct o as [y|]; cbn [keep]; [|cbn; lia]. destruct (isNaN y); cbn; lia.
Qed.

(** A video gives at most one point, and only with a date and a number. *)
Lemma point_valid (field : value) (v : obj) (p : value * float) :
  In p (point field v) -> truthy (fst p) = true /\ isNaN (snd p) = false.
Proof.
  unfold point. cbv zeta.
  destruct (truthy (or_ (get v "published_at") (get v "release_date"))) eqn:E;
    [|contradiction].
  intros Hin. apply in_map_iff in Hin as (x & <- & Hx). cbn [fst snd].
  split; [exact E|]. now apply keep_valid in Hx.
Qed.

Lemma point_length (field : value) (v : obj) :
  List.length (point field v) <= 1.
Proof.
  unfold point. cbv zeta. destruct (truthy _); [|cbn; lia].
  rewrite length_map. apply keep_length.
Qed.

Lemma points_length (field : value) (vs : list obj) :
  List.length (flat_map (point field) vs) <= List.length vs.
Proof.
  induction vs as [|v vs IH]; [reflexivity|].
  cbn [flat_map]. rewrite length_app. pose proof (point_length field v).
  cbn [List.length]. lia.
Qed.

Lemma points_valid (field : value) (vs : list obj) :
  Forall (fun p => truthy (fst p) = true /\ isNaN (snd p) = false)
         (flat_map (point field) vs).
Proof.
  apply Forall_forall. intros p Hin. apply in_flat_map in Hin as (v & _ & Hp).
  now apply point_valid in Hp.
Qed.

(** X18.  What [plot_metric_vs_time] plots.  Each video gives at most one
    point, and only when it has a date ([published_at], else
    [release_date]) and its value is a number; the chart holds exactly
    these points, rearranged by the sort, so every point plotted has a
    truthy date and a value that is not [NaN], and there are at most as many
    points as videos.  When no video gives a point the answer is the error
    that lists the fields of the first video.  However the dates are read,
    nothing throws and the store is unchanged. *)
Theorem plot_metric_vs_time_points
        (Img : Type) (generateImageFn : option (value -> value -> Img))
        (dateValue : value -> float) (args : obj) (anchorImage : value)
        (st : store) (videos : loc) (vs : list obj) :
  holds st videos vs -> vs <> [] ->
  let field := get args "metric_field" in
  let points := flat_map (point field) vs in
  exists r,
    executeYoutubeTool generateImageFn dateValue "plot_metric_vs_time" args
      (Channel (Some videos)) anchorImage st = (Ok r, st)
    /\ match r with
       | MetricVsTime data metricField =>
           metricField = field
           /\ data <> []
           /\ Permutation data points
           /\ Forall (fun p => truthy (fst p) = true /\ isNaN (snd p) = false)
                     data
           /\ List.length data <= List.length vs
       | Error e =>
           points = []
           /\ e = ("No valid data for field " ++ dq ++ toStr field ++ dq
                   ++ ". Available: " ++ availableFields vs)%string
       | _ => False
       end.
Proof.
  intros H Hne field points.
  destruct (@videos_unfold Img generateImageFn dateValue "plot_metric_vs_time"
              args videos anchorImage st vs H Hne) as (ls & _ & _ & ->);
    [discriminate|].
  change (String.eqb "plot_metric_vs_time" "plot_metric_vs_time") with true.
  cbv iota. unfold ret. eexists. split; [reflexivity|].
  unfold plot_metric_vs_time. cbv zeta. fold field. fold points.
  pose proof (@sort_perm _ (byDate dateValue) points) as Hperm.
  destruct (JsArray.sort (byDate dateValue) points) as [|p data] eqn:E.
  - split; [|reflexivity]. apply Permutation_nil. exact Hperm.
  - split; [reflexivity|]. split; [discriminate|]. split; [exact Hperm|].
    split.
    + apply (Permutation_Forall (Permutation_sym Hperm)).
      apply points_valid.
    + rewrite (Permutation_length Hperm). apply points_length.
Qed.

(** Of three videos, one has both a date and a number of views. *)
Lemma plot_metric_vs_time_points_witness :
  exists r,
    executeYoutubeTool (Img := unit) None (fun _ => nan) "plot_metric_vs_time"
      (metric "view_count") (Channel (Some (arrayOf dated))) VUndef
      (storeOf dated) = (Ok r, storeOf dated)
    /\ match r with
       | MetricVsTime data metricField =>
           metricField = VStr "view_count"
           /\ data <> []
           /\ Permutation data (flat_map (point (VStr "view_count")) dated)
           /\ Forall (fun p => truthy (fst p) = true /\ isNaN (snd p) = false)
                     data
           /\ List.length data <= List.length dated
       | Error e =>
           flat_map (point (VStr "view_count")) dated = []
           /\ e = ("No valid data for field " ++ dq ++ "view_count" ++ dq
                   ++ ". Available: " ++ availableFields dated)%string
       | _ => False
       end.
Proof.
  apply (@plot_metric_vs_time_points unit None (fun _ => nan)
           (metric "view_count") VUndef (storeOf dated) (arrayOf dated) dated).
  - apply (holds_storeOf dated).
  - discriminate.
Defined.

End PlotSpec.

(* ================================================================== *)
(** * openai.js: what the tool loops return, for any model *)
(* ================================================================== *)

Module LoopSpec.
Import Store OpenAI Examples Samples.

Section Any.
Variables Args Result : Type.
Variable parse : string -> option Args.
Variable noArgs : Args.
Variable isChart : Result -> bool.
Variable forApi : Result -> string.
Variable complete : nat -> list message -> response.
Variable executeFn : option string -> Args -> outcome Result.

(** One round of tool calls: what it adds to the messages, the log and the
    charts. *)
Lemma runCalls_appends (tcs : list toolCall) :
  forall st st',
    runCalls parse noArgs isChart forApi executeFn tcs st = Ok st' ->
    exists results,
      Forall2 (fun tc r => executeFn (name tc) (argsOf parse noArgs tc) = Ok r)
              tcs results
      /\ messages st'
         = messages st
           ++ List.map (fun '(tc, r) => Tool (id tc) (forApi r))
                       (combine tcs results)
      /\ st_calls st'
         = st_calls st
           ++ List.map (fun '(tc, r) =>
                          {| call_name := name tc;
                             call_args := argsOf parse noArgs tc;
                             call_result := r |})
                       (combine tcs results)
      /\ st_charts st' = st_charts st ++ filter isChart results.
Proof.
  induction tcs as [|tc tcs IH]; intros st st' H.
  - injection H as <-. exists []. cbn. rewrite !app_nil_r. repeat split.
    constructor.
  - cbn [runCalls] in H.
    destruct (executeFn (name tc) (argsOf parse noArgs tc)) as [r|e] eqn:E;
      [|discriminate].
    apply IH in H as (results & Hall & Hm & Hc & Hch).
    exists (r :: results). cbn [messages st_calls st_charts] in *.
    repeat split.
    + now constructor.
    + rewrite Hm, <- app_assoc. reflexivity.
    + rewrite Hc, <- app_assoc. reflexivity.
    + rewrite Hch. cbn [filter]. destruct (isChart r).
      * now rewrite <- app_assoc.
      * reflexivity.
Qed.

Lemma runCalls_keeps_invariant (tcs : list toolCall) :
  forall st st',
    charts_of_calls isChart st ->
    runCalls parse noArgs isChart forApi executeFn tcs st = Ok st' ->
    charts_of_calls isChart st'
    /\ List.length (st_calls st') = List.length (st_calls st) + List.length tcs.
Proof.
  intros st st' Hinv H.
  apply runCalls_appends in H as (results & Hall & _ & Hc & Hch).
  unfold charts_of_calls in *. rewrite Hch, Hc, Hinv.
  rewrite map_app, filter_app, length_app, length_map.
  pose proof (Forall2_length Hall) as Hl.
  rewrite length_combine, <- Hl, Nat.min_id.
  split; [|reflexivity]. f_equal.
  clear Hc Hch Hl. induction Hall as [|tc r tcs' rs _ _ IH]; [reflexivity|].
  cbn. destruct (isChart r); [f_equal|]; exact IH.
Qed.

Lemma loop_bounded (left : nat) :
  forall round st r,
    charts_of_calls isChart st ->
    round <= List.length (st_calls st) ->
    loop parse noArgs isChart forApi complete executeFn left round st = Ok r ->
    round <= rounds r <= round + left
    /\ (how r = RoundLimit <-> rounds r = round + left)
    /\ (how r <> Converged -> text (value r) = EmptyString)
    /\ charts (value r)
       = filter isChart (List.map (@call_result _ _) (toolCalls (value r)))
    /\ rounds r <= List.length (toolCalls (value r)).
Proof.
  induction left as [|left IH]; intros round st r Hinv Hlen H.
  - injection H as <-. cbn. repeat split; try lia; try assumption;
      try reflexivity.
  - cbn [loop] in H.
    destruct (complete round (messages st)) as [e| |msg]; [discriminate| |].
    + injection H as <-. cbn. repeat split; try lia; try assumption;
        try discriminate; try reflexivity.
    + destruct (tool_calls msg) as [|tc tcs] eqn:Etcs.
      * injection H as <-. cbn. repeat split; try lia; try assumption;
          try discriminate; try reflexivity. now intros [].
      * destruct (runCalls parse noArgs isChart forApi executeFn (tc :: tcs) _)
          as [st1|e] eqn:Erun; [|discriminate].
        apply runCalls_keeps_invariant in Erun as [Hinv1 Hlen1]; [|exact Hinv].
        cbn [st_calls List.length] in Hlen1.
        apply IH in H as (Hr & Hhow & Htext & Hch & Hlog);
          [|exact Hinv1|lia].
        repeat split; try lia; try assumption.
        -- intros E. apply Hhow in E. lia.
        -- intros E. apply Hhow. lia.
Qed.

(** X19.  Whatever the model answers and whatever the tools return, a tool
    loop that returns (here [toolLoop], which [chatWithCsvTools] and
    [chatWithYoutubeTools] both are) has made at most five rounds of tool
    calls; it was left at the round limit exactly when it made five; its
    text is empty unless the model gave a response without tool calls; its
    charts are exactly the chart results of the calls in its log, in order;
    and the log holds at least one call for every round. *)
Theorem tool_loop_outcomes (baseMessages : list message) (r : run Args Result) :
  toolLoop parse noArgs isChart forApi complete executeFn baseMessages = Ok r ->
  rounds r <= 5
  /\ (how r = RoundLimit <-> rounds r = 5)
  /\ (how r <> Converged -> text (value r) = EmptyString)
  /\ charts (value r)
     = filter isChart (List.map (@call_result _ _) (toolCalls (value r)))
  /\ rounds r <= List.length (toolCalls (value r)).
Proof.
  intros H. unfold toolLoop in H.
  apply loop_bounded in H as (Hr & Hhow & Htext & Hcharts & Hlog);
    [|reflexivity|cbn; lia].
  cbn [Nat.add] in *. repeat split; try tauto; try lia; apply Hhow.
Qed.

(** X20.  One round of tool calls that returns has executed every call of
    the response, in order, each with its parsed arguments, and has
    appended exactly one [tool] message per call, carrying the id of the
    call and the result as it is sent to the model, after the messages
    that were there; the log and the charts grow in the same order. *)
Theorem runCalls_answers_each_call (tcs : list toolCall)
        (st st' : state Args Result) :
  runCalls parse noArgs isChart forApi executeFn tcs st = Ok st' ->
  exists results,
    Forall2 (fun tc r => executeFn (name tc) (argsOf parse noArgs tc) = Ok r)
            tcs results
    /\ messages st'
       = messages st
         ++ List.map (fun '(tc, r) => Tool (id tc) (forApi r))
                     (combine tcs results)
    /\ List.map (@call_result _ _) (st_calls st')
       = List.map (@call_result _ _) (st_calls st) ++ results
    /\ st_charts st' = st_charts st ++ filter isChart results.
Proof.
  intros H. apply runCalls_appends in H as (results & Hall & Hm & Hc & Hch).
  exists results. split; [exact Hall|]. split; [exact Hm|].
  split; [|exact Hch]. rewrite Hc, map_app. f_equal.
  pose proof (Forall2_length Hall) as Hl. clear - Hl. revert results Hl.
  induction tcs as [|tc tcs IH]; intros [|x results] Hl; try discriminate;
    [reflexivity|].
  cbn. f_equal. apply IH. now injection Hl.
Qed.

End Any.

(** A model that asks for one call and then answers: one round. *)
Lemma tool_loop_outcomes_witness :
  exists r,
    toolLoop (fun _ => None) tt (fun _ : nat => false) (fun _ => "0")
             politeModel constantTool []
    = Ok r
    /\ rounds r <= 5
    /\ (how r = RoundLimit <-> rounds r = 5)
    /\ (how r <> Converged -> text (value r) = EmptyString)
    /\ charts (value r)
       = filter (fun _ : nat => false)
                (List.map (@call_result _ _) (toolCalls (value r)))
    /\ rounds r <= List.length (toolCalls (value r)).
Proof.
  eexists. split; [reflexivity|].
  apply (@tool_loop_outcomes unit nat (fun _ => None) tt (fun _ => false)
           (fun _ => "0") politeModel constantTool []).
  reflexivity.
Defined.

Lemma runCalls_answers_each_call_witness :
  exists results,
    Forall2 (fun tc r => constantTool (name tc)
                           (argsOf (fun _ => None) tt tc) = Ok r)
            [oneCall; oneCall] results
    /\ [Tool "call_1" "0"; Tool "call_1" "0"]
       = [] ++ List.map (fun '(tc, r) => Tool (id tc) "0")
                        (combine [oneCall; oneCall] results)
    /\ [0; 0] = [] ++ results
    /\ [] = [] ++ filter (fun _ : nat => false) results.
Proof.
  apply (@runCalls_answers_each_call unit nat (fun _ => None) tt
           (fun _ => false) (fun _ => "0") constantTool [oneCall; oneCall]
           {| messages := []; st_charts := []; st_calls := [] |}
           {| messages := [Tool "call_1" "0"; Tool "call_1" "0"];
              st_charts := [];
              st_calls := [ {| call_name := Some "get_value_counts";
                               call_args := tt; call_result := 0 |};
                            {| call_name := Some "get_value_counts";
                               call_args := tt; call_result := 0 |} ] |}).
  reflexivity.
Defined.

End LoopSpec.

(* ================================================================== *)
(** * openai.js: the streamed reply does not depend on the chunks *)
(* ================================================================== *)

Module StreamSpec.
Import JsString Store Stream.
Import TextFacts Samples.

Section Reader.
Variable Text : Type.
Variable textOf : string -> option Text.

Lemma readLines_app (l1 l2 : list string) :
  readLines textOf (l1 ++ l2)
  = let '(t1, done) := readLines textOf l1 in
    if done then (t1, true)
    else let '(t2, done2) := readLines textOf l2 in (t1 ++ t2, done2).
Proof.
  induction l1 as [|line l1 IH]; cbn [app readLines].
  - now destruct (readLines textOf l2).
  - destruct (startsWith "data: " line); [|exact IH].
    destruct (String.eqb (payload line) "[DONE]"); [reflexivity|].
    rewrite IH. destruct (readLines textOf l1) as [t1 [|]].
    + reflexivity.
    + destruct (readLines textOf l2) as [t2 d2].
      now destruct (textOf (payload line)).
Qed.

(** With an unfinished line [buf] carried over, the chunks are read as the
    complete lines of [buf] followed by all of them. *)
Lemma readChunks_complete_lines (chunks : list string) :
  forall buf,
    split LF buf = [buf] ->
    readChunks textOf chunks buf
    = fst (readLines textOf
             (removelast (split LF (buf ++ join "" chunks)))).
Proof.
  induction chunks as [|value rest IH]; intros buf Hbuf.
  - cbn [readChunks join]. rewrite append_nil_r, Hbuf. reflexivity.
  - cbn [readChunks]. unfold popped, pop.
    rewrite (join_cons_empty value rest), append_assoc.
    rewrite (split_app LF (buf ++ value) (join "" rest)).
    rewrite removelast_app by apply split_nonempty.
    rewrite readLines_app.
    destruct (readLines textOf (removelast (split LF (buf ++ value))))
      as [t1 [|]]; [reflexivity|].
    rewrite IH by apply split_last.
    now destruct (readLines textOf _).
Qed.

(** X21.  What [streamChat] yields from a response body is what the loop
    over lines yields on the lines of the whole body, all chunks put
    together, without its last line: only lines ended by a line feed are
    read, so an event that the body ends with, without a line feed after
    it, is never yielded. *)
Theorem streamChat_complete_lines (chunks : list string) :
  streamChat textOf (Body chunks)
  = Ok (fst (readLines textOf
               (removelast (split LF (join "" chunks))))).
Proof.
  cbn [streamChat]. f_equal.
  now rewrite readChunks_complete_lines.
Qed.

(** X22.  The texts yielded do not depend on where the network cuts the
    body: two sequences of chunks that make up the same text yield the
    same texts, also when a cut falls inside a line, inside the [data: ]
    prefix or inside [[DONE]]. *)
Theorem streamChat_chunking (chunks1 chunks2 : list string) :
  join "" chunks1 = join "" chunks2 ->
  streamChat textOf (Body chunks1) = streamChat textOf (Body chunks2).
Proof.
  intros H. cbn [streamChat]. f_equal.
  rewrite !readChunks_complete_lines by reflexivity.
  cbn [String.append]. now rewrite H.
Qed.

End Reader.

(** The same events in three chunks and in one. *)
Lemma streamChat_chunking_witness :
  streamChat (fun data => Some data) (Body cutA)
  = streamChat (fun data => Some data) (Body cutB).
Proof.
  apply (@streamChat_chunking string (fun data => Some data) cutA cutB).
  reflexivity.
Defined.

End StreamSpec.

(* ================================================================== *)
(** * Chat.js: the routing as a table *)
(* ================================================================== *)

Module RouteSpec.
Import JsString Regex Chat Examples Samples.

(** X23.  The six routing flags of [handleSend] come down to this table,
    for a message that is sent (there is something to send, no reply is
    streaming, a session is active).  While the rows of a CSV are held the
    YouTube tools are never used and [CODE_KEYWORDS] is not consulted: the
    CSV tools answer unless the text matches the Python-only keywords or a
    CSV is attached to this very message, and then the streaming path
    answers, with code execution only for the Python-only keywords.
    Without CSV rows, channel JSON or an image sends every message to the
    YouTube tools, and otherwise the streaming path answers, with code
    execution when either keyword pattern matches. *)
Theorem handleSend_decision_table (input : string) (c : context) :
  isEmpty (trim input) && (images c =? 0) && negb (csvContext c)
  && negb (jsonContext c) = false ->
  streaming c = false ->
  activeSessionId c = true ->
  let text := trim input in
  let python := test true PYTHON_ONLY_KEYWORDS text in
  handleSend input c
  = Some (if sessionCsvRows c then
            if negb python && negb (csvContext c) then CsvToolsMode
            else StreamingMode python
          else if sessionJsonData c || (0 <? images c) then YoutubeToolsMode
          else StreamingMode (python || test true CODE_KEYWORDS text)).
Proof.
  intros Hsend Hstream Hactive. cbv zeta.
  unfold handleSend. rewrite Hsend, Hstream, Hactive.
  cbn [orb negb]. f_equal.
  unfold branch, route.
  cbn [useYoutubeTools useTools useCodeExecution].
  destruct (sessionCsvRows c), (sessionJsonData c), (0 <? images c),
    (test true PYTHON_ONLY_KEYWORDS (trim input)),
    (test true CODE_KEYWORDS (trim input)), (csvContext c); reflexivity.
Qed.

(** With a CSV held, channel JSON held and an image attached, "chart the
    data" goes to the CSV tools. *)
Lemma handleSend_decision_table_witness :
  handleSend "chart the data" everythingLoaded = Some CsvToolsMode.
Proof.
  apply (@handleSend_decision_table "chart the data" everythingLoaded);
    reflexivity.
Defined.

End RouteSpec.

(* ================================================================== *)
(** * csvTools.js: the dataset summary *)
(* ================================================================== *)

Module SummarySpec.
Import JsString JsNumber JsValue CsvTools Summary.
Import StringFacts TextFacts Samples.

Lemma join_head (sep x : string) (l : list string) :
  exists rest, join sep (x :: l) = (x ++ rest)%string.
Proof.
  destruct l as [|y l]; cbn [join].
  - exists EmptyString. now rewrite append_nil_r.
  - now exists (sep ++ join sep (y :: l))%string.
Qed.

Lemma startsWith_app (p rest : string) : startsWith p (p ++ rest) = true.
Proof.
  induction p as [|c p IH]; cbn [String.append startsWith]; [now destruct rest|].
  now rewrite Ascii.eqb_refl, IH.
Qed.

(** The summary of a dataset with rows and columns begins with its first
    line. *)
Lemma summary_head (r : obj) (rs : list obj) (h : string) (hs : list string) :
  exists rest,
    computeDatasetSummary (r :: rs) (h :: hs)
    = ("**Dataset: " ++ count (List.length (r :: rs)) ++ " rows " ++ times
       ++ " " ++ count (List.length (h :: hs)) ++ " columns**" ++ nl
       ++ rest)%string.
Proof.
  unfold computeDatasetSummary. cbn [JsArray.isEmpty orb].
  unfold summaryLines. cbv zeta. cbn [app].
  destruct (join_head nl
              ("**Dataset: " ++ count (List.length (r :: rs)) ++ " rows "
               ++ times ++ " " ++ count (List.length (h :: hs))
               ++ " columns**" ++ nl)%string
              ((if JsArray.isEmpty (numericCols (r :: rs) (h :: hs)) then []
                else ("**Numeric columns**" ++ verbatim)%string
                     :: List.map numericLine (numericCols (r :: rs) (h :: hs)))
               ++ (if JsArray.isEmpty (categoricalCols (r :: rs) (h :: hs))
                   then []
                   else (nl ++ "**Categorical columns**" ++ verbatim)%string
                        :: List.map categoricalLine
                             (categoricalCols (r :: rs) (h :: hs)))))
    as [rest E].
  exists rest. rewrite E. now rewrite <- !append_assoc.
Qed.






End SummarySpec.

(* ================================================================== *)
(** * Chat.js: what the prompt carries from the state *)
(* ================================================================== *)

Module SessionSpec.
Import JsString JsNumber JsValue Regex CsvTools.
Import StringFacts TextFacts ParseSpec SummarySpec Samples.

(** ** The file chip and the rows *)

Lemma enrichWithEngagement_shape (d : dataset) :
  List.length (rows (enrichWithEngagement d)) = List.length (rows d)
  /\ (headers (enrichWithEngagement d) = headers d
      \/ headers (enrichWithEngagement d) = headers d ++ ["engagement"]).
Proof.
  destruct d as [hs rs]. unfold enrichWithEngagement. cbn [rows headers].
  destruct rs as [|r rs]; [now split; [|left]|].
  destruct (missing (favColumn hs) || missing (viewColumn hs));
    [now split; [|left]|].
  destruct (mem "engagement" hs); [now split; [|left]|].
  cbn [rows headers]. split; [now rewrite length_map|now right].
Qed.

Lemma unquote_trim (h : string) :
  includes dq h = false -> unquote (trim h) = trim h.
Proof. intros H. now apply unquote_without_quotes, trim_keeps. Qed.

Lemma split_keeps (c sep : ascii) (s x : string) :
  includes (String c EmptyString) s = false ->
  In x (split sep s) -> includes (String c EmptyString) x = false.
Proof.
  revert x. induction s as [|d s IH]; intros x H Hin.
  - destruct Hin as [<-|[]]. reflexivity.
  - rewrite includes_char in H. apply orb_false_elim in H as [Hd H].
    cbn [split] in Hin. destruct (Ascii.eqb d sep).
    + destruct Hin as [<-|Hin]; [reflexivity|now apply IH].
    + pose proof (split_nonempty sep s) as Hne.
      destruct (split sep s) as [|h t]; [contradiction|].
      destruct Hin as [<-|Hin].
      * rewrite includes_char, Hd. apply IH; [assumption|now left].
      * apply IH; [assumption|now right].
Qed.

(** X25.  When the text of a CSV file has been read, the chip shown for
    the file and the rows held for the tools come from two parsers.  For a
    file whose first non-blank line has no double quote they agree when the
    file has at least two non-blank lines: as many rows as the chip counts,
    and the same columns, to which the engagement column may be added.
    For a file of one non-blank line they do not: the chip names the
    columns of that line and counts 0 rows, while the tools hold a
    dataset without rows and without columns. *)
Theorem csvFileRead_chip_and_rows
        (toBase64 : string -> string) (fileName text : string)
        (s : Session.state) :
  let lines := filter (fun l => negb (allWhite l)) (split LF text) in
  lines <> [] ->
  includes dq (hd EmptyString lines) = false ->
  let s' := Session.csvFileRead toBase64 fileName text s in
  exists chip rs hs,
    Session.csvContext s' = Some chip
    /\ Session.sessionCsvRows s' = Some rs
    /\ Session.sessionCsvHeaders s' = Some hs
    /\ Session.name chip = fileName
    /\ Session.headers chip = parseLine (hd EmptyString lines)
    /\ Session.rowCount chip = List.length rs
    /\ (2 <= List.length lines ->
        hs = Session.headers chip
        \/ hs = Session.headers chip ++ ["engagement"])
    /\ (List.length lines = 1 -> hs = [] /\ rs = []).
Proof.
  intros lines Hne Hq s'.
  unfold s', Session.csvFileRead, Session.parseCSV.
  rewrite nonBlank_lines. fold lines.
  destruct lines as [|first rest] eqn:E; [contradiction|]. cbn [hd] in Hq.
  cbv zeta.
  eexists _, _, _. cbn [Session.csvContext Session.sessionCsvRows
                       Session.sessionCsvHeaders Session.name Session.headers
                       Session.rowCount Session.parsedHeaders
                       Session.parsedRowCount hd].
  split; [reflexivity|]. split; [reflexivity|]. split; [reflexivity|].
  split; [reflexivity|].
  assert (Hhead : List.map (fun h => unquote (trim h)) (split "," first)
                  = parseLine first).
  { rewrite parseLine_split by assumption. apply map_ext_in.
    intros h Hh. apply unquote_trim. unfold dq in *.
    now apply (@split_keeps quote "," first h). }
  split; [exact Hhead|].
  destruct (enrichWithEngagement_shape (parseCsvToRows text)) as [Hlen Hhs].
  destruct rest as [|second rest].
  - assert (Hfew : parseCsvToRows text = {| headers := []; rows := [] |}).
    { unfold parseCsvToRows. rewrite nonBlank_lines. fold lines.
      now rewrite E. }
    rewrite Hfew in *. cbn [headers rows List.length Nat.sub].
    split; [reflexivity|]. split; [cbn; lia|]. intros _.
    unfold enrichWithEngagement. cbn [rows]. now split.
  - assert (Hmany : 2 <= List.length
                            (filter (fun l => negb (allWhite l)) (split LF text))).
    { fold lines. rewrite E. cbn. lia. }
    pose proof (parseCsvToRows_many text Hmany) as Hp. cbv zeta in Hp.
    fold lines in Hp. rewrite E in Hp. cbn [hd tl] in Hp.
    rewrite Hlen, Hp. cbn [rows headers].
    split; [cbn; now rewrite length_map|].
    split; [|cbn; lia].
    intros _. rewrite Hp in Hhs. cbn [headers] in Hhs.
    rewrite Hhead. exact Hhs.
Qed.

(** The three-line file: two rows, the columns [name] and [views]. *)
Lemma csvFileRead_chip_and_rows_witness :
  exists chip rs hs,
    Session.csvContext uploaded = Some chip
    /\ Session.sessionCsvRows uploaded = Some rs
    /\ Session.sessionCsvHeaders uploaded = Some hs
    /\ Session.name chip = "views.csv"
    /\ Session.headers chip = parseLine "name,views"
    /\ Session.rowCount chip = List.length rs
    /\ (2 <= 3 ->
        hs = Session.headers chip
        \/ hs = Session.headers chip ++ ["engagement"])
    /\ (3 = 1 -> hs = [] /\ rs = []).
Proof.
  apply (@csvFileRead_chip_and_rows (fun raw => raw) "views.csv" csvText
           started).
  - discriminate.
  - reflexivity.
Defined.

(** The prompt of a new chat when a summary is left in the state. *)
Lemma new_chat_prompt (s : Session.state) (summary text : string) :
  Session.csvDataSummary s = Some summary ->
  summary <> EmptyString ->
  Session.promptForModel (Session.handleNewChat s) text
  = ("[CSV columns: undefined]" ++ Summary.nl ++ Summary.nl ++ summary
     ++ Session.rule
     ++ (if isEmpty text then "Please analyze this CSV data." else text))%string.
Proof.
  intros Hsum Hne.
  assert (Hs : isEmpty summary = false) by now destruct summary.
  unfold Session.promptForModel, Session.csvPrefix, Session.handleNewChat.
  cbn [Session.csvContext Session.csvDataSummary Session.sessionCsvHeaders].
  rewrite Hsum. cbn [Session.orEmpty]. rewrite Hs.
  cbn [Session.joined]. cbv zeta.
  unfold Session.jsonPrefix, Session.imagePrefix, Session.defaultPrompt.
  cbn [Session.sessionJsonData Session.images Session.jsonContext
       Nat.ltb Nat.leb String.append].
  now rewrite <- !append_assoc.
Qed.

(** X26.  Reading a CSV file with at least one data row always leaves a
    summary behind: the rows held are as many as the data lines, there is
    at least one header, the summary is not empty and begins
    [**Dataset: N rows], and the slim CSV is that of the rows held.  If a new
    chat is started then, every prompt written in it carries this summary
    in front of the text, under the heading [[CSV columns: undefined]]. *)
Theorem csvFileRead_leaves_summary
        (toBase64 : string -> string) (fileName text input : string)
        (s : Session.state) :
  let lines := filter (fun l => negb (allWhite l)) (split LF text) in
  2 <= List.length lines ->
  let s' := Session.csvFileRead toBase64 fileName text s in
  let typed := trim input in
  exists rs hs summary,
    Session.sessionCsvRows s' = Some rs
    /\ Session.sessionCsvHeaders s' = Some hs
    /\ Session.csvDataSummary s' = Some summary
    /\ Session.sessionSlimCsv s' = Some (SlimCsv.buildSlimCsv rs hs)
    /\ List.length rs = List.length lines - 1
    /\ hs <> []
    /\ summary <> EmptyString
    /\ startsWith ("**Dataset: " ++ Summary.count (List.length lines - 1)
                   ++ " rows ") summary = true
    /\ Session.promptForModel (Session.handleNewChat s') typed
       = ("[CSV columns: undefined]" ++ Summary.nl ++ Summary.nl ++ summary
          ++ Session.rule
          ++ (if isEmpty typed then "Please analyze this CSV data."
              else typed))%string.
Proof.
  intros lines Hlen s' typed.
  pose proof (parseCsvToRows_many text Hlen) as Hp. cbv zeta in Hp.
  fold lines in Hp.
  destruct (enrichWithEngagement_shape (parseCsvToRows text)) as [Hrows Hhs].
  set (d := enrichWithEngagement (parseCsvToRows text)) in *.
  assert (Hs' : s' = Session.csvFileRead toBase64 fileName text s)
    by reflexivity.
  unfold Session.csvFileRead, Session.parseCSV in Hs'.
  rewrite nonBlank_lines in Hs'. fold lines in Hs'. fold d in Hs'.
  destruct lines as [|first rest] eqn:E; [cbn in Hlen; lia|].
  cbv zeta in Hs'.
  assert (Hn : List.length (rows d) = List.length (first :: rest) - 1).
  { rewrite Hrows, Hp. cbn [rows tl List.length Nat.sub].
    now rewrite length_map, Nat.sub_0_r. }
  assert (Hh : headers d <> []).
  { rewrite Hp in Hhs. cbn [headers hd] in Hhs.
    pose proof (@parseLine_from_nonempty first EmptyString false) as Hne.
    fold (parseLine first) in Hne.
    destruct Hhs as [-> | ->]; [exact Hne|].
    intros H. now apply app_eq_nil in H as [_ H]. }
  destruct (rows d) as [|r rs] eqn:Er;
    [cbn [List.length] in Hn, Hlen; lia|].
  destruct (headers d) as [|h hs] eqn:Eh; [contradiction|].
  destruct (summary_head r rs h hs) as [tail Hsum].
  exists (r :: rs), (h :: hs), (Summary.computeDatasetSummary (r :: rs) (h :: hs)).
  rewrite Hs'.
  cbn [Session.sessionCsvRows Session.sessionCsvHeaders Session.csvDataSummary
       Session.sessionSlimCsv].
  split; [reflexivity|]. split; [reflexivity|]. split; [reflexivity|].
  split; [reflexivity|]. split; [exact Hn|]. split; [discriminate|].
  assert (Hne : Summary.computeDatasetSummary (r :: rs) (h :: hs)
                <> EmptyString) by (rewrite Hsum; discriminate).
  split; [exact Hne|]. split.
  - rewrite Hsum, <- Hn.
    match goal with
    | |- startsWith ?p (_ ++ _ ++ _ ++ ?rest)%string = true =>
        replace (startsWith p _) with (startsWith p (p ++ rest))
          by (now rewrite <- !append_assoc)
    end.
    apply startsWith_app.
  - rewrite <- Hs'. apply new_chat_prompt; [|exact Hne].
    rewrite Hs'. reflexivity.
Qed.

(** The three-line file, then a new chat and the question "hello". *)
Lemma csvFileRead_leaves_summary_witness :
  let s' := uploaded in
  let typed := trim "hello" in
  exists rs hs summary,
    Session.sessionCsvRows s' = Some rs
    /\ Session.sessionCsvHeaders s' = Some hs
    /\ Session.csvDataSummary s' = Some summary
    /\ Session.sessionSlimCsv s' = Some (SlimCsv.buildSlimCsv rs hs)
    /\ List.length rs = 3 - 1
    /\ hs <> []
    /\ summary <> EmptyString
    /\ startsWith ("**Dataset: " ++ Summary.count (3 - 1) ++ " rows ")
                  summary = true
    /\ Session.promptForModel (Session.handleNewChat s') typed
       = ("[CSV columns: undefined]" ++ Summary.nl ++ Summary.nl ++ summary
          ++ Session.rule
          ++ (if isEmpty typed then "Please analyze this CSV data."
              else typed))%string.
Proof.
  apply (@csvFileRead_leaves_summary (fun raw => raw) "views.csv" csvText
           "hello" started).
  vm_compute. lia.
Defined.

(** ** The summary outlives the chat it was made in *)

Lemma route_without_data (text : string) (s : Session.state) :
  Session.sessionCsvRows s = None -> Session.sessionJsonData s = None ->
  Session.images s = 0 ->
  Chat.branch (Chat.route text (Session.contextOf s))
  = Chat.StreamingMode (test true Chat.PYTHON_ONLY_KEYWORDS text
                        || test true Chat.CODE_KEYWORDS text).
Proof.
  intros Hrows Hjson Himg. unfold Chat.branch, Chat.route, Session.contextOf.
  cbn [Chat.useYoutubeTools Chat.useTools Chat.useCodeExecution
       Chat.sessionCsvRows Chat.sessionJsonData Chat.images Chat.csvContext].
  rewrite Hrows, Hjson, Himg. cbn [Session.held orb andb negb Nat.ltb Nat.leb].
  now rewrite andb_true_r.
Qed.

(** X27.  [handleNewChat] and [handleSelectSession] clear the rows of the
    CSV but not the summary computed from them.  So after a new chat is
    started, every message is sent with the summary of the file of the
    earlier chat in front of it, under the heading
    [[CSV columns: undefined]], on the streaming path; and after another
    session is selected the prompt begins with the columns and the summary
    of that file, whatever the session holds. *)
Theorem summary_outlives_the_chat
        (s : Session.state) (summary input sessionId : string)
        (jsonData : option (list obj)) :
  Session.csvDataSummary s = Some summary ->
  summary <> EmptyString ->
  Session.sameSession (Some sessionId) (Session.activeSessionId s) = false ->
  let text := trim input in
  let fresh := Session.handleNewChat s in
  let other := Session.sessionLoaded jsonData
                 (Session.handleSelectSession sessionId s) in
  Session.promptForModel fresh text
  = ("[CSV columns: undefined]" ++ Summary.nl ++ Summary.nl ++ summary
     ++ Session.rule
     ++ (if isEmpty text then "Please analyze this CSV data." else text))%string
  /\ Chat.branch (Chat.route text (Session.contextOf fresh))
     = Chat.StreamingMode (test true Chat.PYTHON_ONLY_KEYWORDS text
                           || test true Chat.CODE_KEYWORDS text)
  /\ Session.sessionCsvRows other = None
  /\ Session.promptForModel other text
     = ("[CSV columns: " ++ Session.joined (Session.sessionCsvHeaders s) ++ "]"
        ++ Summary.nl ++ Summary.nl ++ summary ++ Session.rule
        ++ Session.jsonPrefix other ++ Session.imagePrefix other
        ++ (if isEmpty text then Session.defaultPrompt other else text))%string.
Proof.
  intros Hsum Hne Hother text fresh other.
  assert (Hs : isEmpty summary = false) by now destruct summary.
  split; [|split; [|split]].
  - now apply new_chat_prompt.
  - now apply route_without_data.
  - unfold other, Session.sessionLoaded, Session.handleSelectSession.
    rewrite Hother. reflexivity.
  - unfold Session.promptForModel, Session.csvPrefix. cbv zeta.
    assert (Hc : Session.csvContext other = None).
    { unfold other, Session.sessionLoaded, Session.handleSelectSession.
      now rewrite Hother. }
    assert (Hd : Session.csvDataSummary other = Some summary).
    { unfold other, Session.sessionLoaded, Session.handleSelectSession.
      now rewrite Hother. }
    assert (Hh : Session.sessionCsvHeaders other = Session.sessionCsvHeaders s).
    { unfold other, Session.sessionLoaded, Session.handleSelectSession.
      now rewrite Hother. }
    rewrite Hc, Hd, Hh. cbn [Session.orEmpty]. rewrite Hs.
    now rewrite <- !append_assoc.
Qed.

(** The file of the examples, a new chat, and the question "hello". *)
Lemma summary_outlives_the_chat_witness :
  let text := trim "hello" in
  let fresh := Session.handleNewChat sent in
  let other := Session.sessionLoaded None
                 (Session.handleSelectSession "s2" sent) in
  Session.promptForModel fresh text
  = ("[CSV columns: undefined]" ++ Summary.nl ++ Summary.nl
     ++ Session.orEmpty (Session.csvDataSummary sent) ++ Session.rule
     ++ (if isEmpty text then "Please analyze this CSV data." else text))%string
  /\ Chat.branch (Chat.route text (Session.contextOf fresh))
     = Chat.StreamingMode (test true Chat.PYTHON_ONLY_KEYWORDS text
                           || test true Chat.CODE_KEYWORDS text)
  /\ Session.sessionCsvRows other = None
  /\ Session.promptForModel other text
     = ("[CSV columns: " ++ Session.joined (Session.sessionCsvHeaders sent)
        ++ "]" ++ Summary.nl ++ Summary.nl
        ++ Session.orEmpty (Session.csvDataSummary sent) ++ Session.rule
        ++ Session.jsonPrefix other ++ Session.imagePrefix other
        ++ (if isEmpty text then Session.defaultPrompt other else text))%string.
Proof.
  apply (@summary_outlives_the_chat sent
           (Session.orEmpty (Session.csvDataSummary sent)) "hello" "s2" None).
  - reflexivity.
  - vm_compute. discriminate.
  - reflexivity.
Defined.

(** ** The context is announced twice *)

Lemma csv_tools_mode (input : string) (c : Chat.context) :
  Chat.handleSend input c = Some Chat.CsvToolsMode ->
  Chat.sessionCsvRows c = true /\ Chat.csvContext c = false.
Proof.
  unfold Chat.handleSend. destruct (_ || _); [discriminate|].
  unfold Chat.branch, Chat.route.
  cbn [Chat.useYoutubeTools Chat.useTools Chat.useCodeExecution].
  destruct (Chat.sessionCsvRows c), (Chat.csvContext c),
    (Chat.sessionJsonData c), (0 <? Chat.images c),
    (test true Chat.PYTHON_ONLY_KEYWORDS (trim input)),
    (test true Chat.CODE_KEYWORDS (trim input)); cbn; intros H;
    try discriminate H; now split.
Qed.

(** X28.  In the CSV tools mode the model is told the columns twice: once
    by [handleSend], in front of the summary, and once more by
    [chatWithCsvTools], which puts the same heading in front of the prompt
    it is given. *)
Theorem csv_tools_message_names_the_columns_twice
        (s : Session.state) (input summary h : string) (hs : list string) :
  Chat.handleSend input (Session.contextOf s) = Some Chat.CsvToolsMode ->
  Session.sessionCsvHeaders s = Some (h :: hs) ->
  Session.csvDataSummary s = Some summary ->
  summary <> EmptyString ->
  let text := trim input in
  let columns := ("[CSV columns: " ++ join ", " (h :: hs) ++ "]"
                  ++ Summary.nl ++ Summary.nl)%string in
  Session.toolMessage Chat.CsvToolsMode s text
  = (columns ++ columns ++ summary ++ Session.rule
     ++ Session.jsonPrefix s ++ Session.imagePrefix s
     ++ (if isEmpty text then Session.defaultPrompt s else text))%string.
Proof.
  intros Hmode Hhs Hsum Hne text columns.
  apply csv_tools_mode in Hmode as [_ Hcsv].
  assert (Hc : Session.csvContext s = None).
  { unfold Session.contextOf in Hcsv. cbn [Chat.csvContext] in Hcsv.
    now destruct (Session.csvContext s). }
  assert (Hs : isEmpty summary = false) by now destruct summary.
  unfold Session.toolMessage, Session.csvMessage. rewrite Hhs.
  unfold Session.promptForModel, Session.csvPrefix. cbv zeta.
  rewrite Hc, Hsum, Hhs. cbn [Session.orEmpty Session.joined]. rewrite Hs.
  unfold columns. now rewrite <- !append_assoc.
Qed.

(** The file of the examples, two messages later. *)
Lemma csv_tools_message_names_the_columns_twice_witness :
  let text := trim "which name has most views" in
  let columns := ("[CSV columns: " ++ join ", " ["name"; "views"] ++ "]"
                  ++ Summary.nl ++ Summary.nl)%string in
  Session.toolMessage Chat.CsvToolsMode sent text
  = (columns ++ columns ++ Session.orEmpty (Session.csvDataSummary sent)
     ++ Session.rule
     ++ Session.jsonPrefix sent ++ Session.imagePrefix sent
     ++ (if isEmpty text then Session.defaultPrompt sent else text))%string.
Proof.
  apply (@csv_tools_message_names_the_columns_twice sent
           "which name has most views"
           (Session.orEmpty (Session.csvDataSummary sent)) "name" ["views"]).
  - reflexivity.
  - reflexivity.
  - reflexivity.
  - vm_compute. discriminate.
Defined.

Lemma youtube_tools_mode (input : string) (c : Chat.context) :
  Chat.handleSend input c = Some Chat.YoutubeToolsMode ->
  Chat.sessionCsvRows c = false.
Proof.
  unfold Chat.handleSend. destruct (_ || _); [discriminate|].
  unfold Chat.branch, Chat.route.
  cbn [Chat.useYoutubeTools Chat.useTools Chat.useCodeExecution].
  destruct (Chat.sessionCsvRows c), (Chat.csvContext c),
    (Chat.sessionJsonData c), (0 <? Chat.images c),
    (test true Chat.PYTHON_ONLY_KEYWORDS (trim input)),
    (test true Chat.CODE_KEYWORDS (trim input)); cbn; intros H;
    try discriminate H; reflexivity.
Qed.

(** X29.  In the YouTube tools mode the channel is announced twice as
    well, in two wordings: [chatWithYoutubeTools] puts its heading in front
    of a prompt in which [handleSend] has already put its own, after
    whatever the CSV state contributes. *)
Theorem youtube_tools_message_names_the_channel_twice
        (s : Session.state) (input : string) (v0 : obj) (vs : list obj) :
  Chat.handleSend input (Session.contextOf s) = Some Chat.YoutubeToolsMode ->
  Session.sessionJsonData s = Some (v0 :: vs) ->
  let text := trim input in
  let loaded := ("[YouTube channel JSON loaded: "
                 ++ Summary.count (S (List.length vs)) ++ " videos. ")%string in
  let fields := join ", " (keys v0) in
  exists csvPart,
    Session.toolMessage Chat.YoutubeToolsMode s text
    = (loaded ++ "Fields: " ++ fields ++ "]" ++ Summary.nl ++ Summary.nl
       ++ csvPart
       ++ loaded ++ "Fields per video: " ++ fields ++ "]" ++ Session.rule
       ++ Session.imagePrefix s
       ++ (if isEmpty text then Session.defaultPrompt s else text))%string
    /\ (Session.csvDataSummary s = None -> Session.csvContext s = None ->
        csvPart = EmptyString).
Proof.
  intros Hmode Hjson text loaded fields.
  exists (Session.csvPrefix s
            (Chat.needsBase64 (Chat.route text (Session.contextOf s)))).
  split.
  - unfold Session.toolMessage, Session.youtubeMessage. rewrite Hjson.
    unfold Session.promptForModel. cbv zeta.
    unfold Session.jsonPrefix. rewrite Hjson.
    unfold loaded, fields. cbn [List.length].
    now rewrite <- !append_assoc.
  - intros Hsum Hc. unfold Session.csvPrefix. now rewrite Hc, Hsum.
Qed.

Lemma youtube_tools_message_names_the_channel_twice_witness :
  let text := trim "play the first video" in
  let loaded := ("[YouTube channel JSON loaded: "
                 ++ Summary.count 3 ++ " videos. ")%string in
  let fields := join ", " (keys (Examples.video "A" 10)) in
  exists csvPart,
    Session.toolMessage Chat.YoutubeToolsMode watching text
    = (loaded ++ "Fields: " ++ fields ++ "]" ++ Summary.nl ++ Summary.nl
       ++ csvPart
       ++ loaded ++ "Fields per video: " ++ fields ++ "]" ++ Session.rule
       ++ Session.imagePrefix watching
       ++ (if isEmpty text then Session.defaultPrompt watching else text))%string
    /\ (Session.csvDataSummary watching = None ->
        Session.csvContext watching = None ->
        csvPart = EmptyString).
Proof.
  apply (@youtube_tools_message_names_the_channel_twice watching
           "play the first video" (Examples.video "A" 10)
           [Examples.video "B" 30; Examples.video "C" 20]).
  - reflexivity.
  - reflexivity.
Defined.

End SessionSpec.
